(** * RecipeWebSite: the views of [recipes/webapp/views.py]

    A shallow embedding of the request handlers of the recipe site and the
    properties of its listing, ownership and error-handling behaviour.

    The handlers are Django class-based views.  A view method is embedded as
    a computation in a state-and-exception monad over the [World] (database
    tables, log, flash messages).  Calls to [super()] and to the ORM are the
    framework's; they are embedded after Django's generic views, forms and
    paginator ([django.views.generic], [django.contrib.auth.mixins],
    [django.forms], [django.core.paginator]) as of Django 4.0 and handed to
    the view methods as arguments, so that each view method reads like its
    source. *)

From Stdlib Require Import String List ZArith Bool Lia Permutation Sorted.
From Stdlib Require Import DecimalString Ascii.
From Stdlib Require DecimalPos DecimalZ.
Import ListNotations.

Local Open Scope string_scope.
Local Open Scope Z_scope.

(** ** Data model *)

(** Modelled from the spec: [django.contrib.auth.models.User], of which the
    views use the primary key and the username. *)
Record User := mkUser {
  user_id  : Z;
  username : string
}.

(** Modelled from the spec: the [Category] entity of models.py (absent from
    the sources), "an identifier and a display name". *)
Record Category := mkCategory {
  category_id   : Z;
  category_name : string
}.

(** Modelled from the spec: the [Recipe] entity of models.py (absent from the
    sources): "an identifier, title, category reference, description,
    ingredients, cooking steps, cooking time, an active/visibility flag, an
    image reference, a creation timestamp, and an author reference".
    Foreign keys hold the primary key of the row they refer to.  [id] is
    [None] for an instance that has not been saved yet. *)
Record Recipe := mkRecipe {
  id            : option Z;
  title         : string;
  category      : Z;
  description   : string;
  ingredients   : string;
  cooking_steps : string;
  cooking_time  : Z;
  active        : bool;
  image         : string;
  created_date  : Z;
  author        : Z
}.

(** Named routes of urls.py, with their arguments. *)
Inductive Url :=
| webapp_home
| webapp_about
| user_recipes (name : string)
| recipe_detail (pk : Z)
| recipe_create
| recipe_update (pk : Z)
| recipe_delete (pk : Z)
| recipes_by_category (cat : Z)
| login_url (next : Url).

(** Values a client submits in a form, by field name, read at the type the
    form field gives them. *)
Inductive value :=
| VStr (s : string)
| VInt (n : Z)
| VBool (b : bool).

Definition QueryDict := list (string * value).

(** [QueryDict.get]: the last value submitted under the key. *)
Fixpoint QueryDict_get (k : string) (d : QueryDict) : option value :=
  match d with
  | [] => None
  | (k', v) :: d' =>
      match QueryDict_get k d' with
      | Some v' => Some v'
      | None => if String.eqb k k' then Some v else None
      end
  end.

(** The text submitted under a name; a name that was not submitted reads
    as the empty text. *)
Definition submitted (name : string) (data : QueryDict) : string :=
  match QueryDict_get name data with
  | Some (VStr s) => s
  | _ => ""
  end.

(** What models.py declares and the views rely on; the file is not part of
    the sources, so its declarations are parameters of the development. *)
Record ModelsPy := mkModelsPy {
  (** [Recipe._meta.verbose_name] *)
  Recipe_verbose_name : string;
  (** the row order of a [Recipe] query that carries no [order_by]:
      [Recipe.Meta.ordering] applied to the table *)
  Recipe_Meta_ordering : list Recipe -> list Recipe;
  (** [Recipe.get_absolute_url] *)
  Recipe_get_absolute_url : Recipe -> Url;
  (** [blank=True] in the declaration of a text field: the form field
      generated for it is not required *)
  Recipe_field_blank : string -> bool;
  (** the validators of the form field generated for a model field
      ([max_length] and the like), on a value that is not empty *)
  Recipe_field_validate : string -> value -> bool
}.

(** ** Text

    A [string] holds text as UTF-8. *)

Definition ord (c : Ascii.ascii) : nat := Ascii.nat_of_ascii c.

Fixpoint string_forall (p : Ascii.ascii -> bool) (s : string) : bool :=
  match s with
  | EmptyString => true
  | String c s' => p c && string_forall p s'
  end.

(** [str.isascii] *)
Definition isascii (s : string) : bool :=
  string_forall (fun c => Nat.ltb (ord c) 128) s.

Definition islower_char (c : Ascii.ascii) : bool :=
  Nat.leb 97 (ord c) && Nat.leb (ord c) 122.

Definition isupper_char (c : Ascii.ascii) : bool :=
  Nat.leb 65 (ord c) && Nat.leb (ord c) 90.

(** The letters a to z become A to Z; every other byte stays. *)
Definition ascii_upper_char (c : Ascii.ascii) : Ascii.ascii :=
  if islower_char c then Ascii.ascii_of_nat (ord c - 32) else c.

Fixpoint ascii_upper (s : string) : string :=
  match s with
  | EmptyString => EmptyString
  | String c s' => String (ascii_upper_char c) (ascii_upper s')
  end.

(** The letters A to Z become a to z; every other byte stays. *)
Definition ascii_lower_char (c : Ascii.ascii) : Ascii.ascii :=
  if isupper_char c then Ascii.ascii_of_nat (ord c + 32) else c.

Fixpoint ascii_lower (s : string) : string :=
  match s with
  | EmptyString => EmptyString
  | String c s' => String (ascii_lower_char c) (ascii_lower s')
  end.

(** An ASCII character that is no white space: from the exclamation mark
    on. *)
Definition solid_char (c : Ascii.ascii) : bool :=
  Nat.leb 33 (ord c) && Nat.ltb (ord c) 128.

(** [str.upper]: on ASCII text the letters a to z become A to Z and nothing
    else changes; on other text the result is the case mapping of Unicode,
    which is [unicode_upper] here. *)
Definition str_upper (unicode_upper : string -> string) (s : string)
  : string :=
  if isascii s then ascii_upper s else unicode_upper s.

(** The white space of [str.strip] and [str.isspace], by the bytes of its
    UTF-8 encoding: U+0009 to U+000D and U+001C to U+0020 in one byte;
    U+0085 and U+00A0 in two; U+1680, U+2000 to U+200A, U+2028, U+2029,
    U+202F, U+205F and U+3000 in three. *)
Definition isspace1 (a : nat) : bool :=
  Nat.leb 9 a && Nat.leb a 13 || Nat.leb 28 a && Nat.leb a 32.

Definition isspace2 (a b : nat) : bool :=
  Nat.eqb a 194 && (Nat.eqb b 133 || Nat.eqb b 160).

Definition isspace3 (a b c : nat) : bool :=
  Nat.eqb a 225 && Nat.eqb b 154 && Nat.eqb c 128
  || Nat.eqb a 226 && Nat.eqb b 128
     && (Nat.leb 128 c && Nat.leb c 138
         || Nat.eqb c 168 || Nat.eqb c 169 || Nat.eqb c 175)
  || Nat.eqb a 226 && Nat.eqb b 129 && Nat.eqb c 159
  || Nat.eqb a 227 && Nat.eqb b 128 && Nat.eqb c 128.

(** The text without the white space it starts with.  With [backwards] the
    text is read from its end, last byte first, and so are the bytes of a
    character. *)
Fixpoint strip_front (backwards : bool) (s : string) : string :=
  match s with
  | EmptyString => s
  | String a s1 =>
      if isspace1 (ord a) then strip_front backwards s1
      else
        match s1 with
        | EmptyString => s
        | String b s2 =>
            if (if backwards then isspace2 (ord b) (ord a)
                else isspace2 (ord a) (ord b))
            then strip_front backwards s2
            else
              match s2 with
              | EmptyString => s
              | String c s3 =>
                  if (if backwards then isspace3 (ord c) (ord b) (ord a)
                      else isspace3 (ord a) (ord b) (ord c))
                  then strip_front backwards s3
                  else s
              end
        end
  end.

Definition string_rev (s : string) : string :=
  string_of_list_ascii (rev (list_ascii_of_string s)).

(** [str.strip()] *)
Definition str_strip (s : string) : string :=
  string_rev (strip_front true (string_rev (strip_front false s))).

(** ** Exceptions, log records, flash messages *)

(** Instances of Python's [Exception], which is what [except Exception]
    catches. *)
Inductive exn :=
| Http404 (msg : string)
| PermissionDenied
| MultipleObjectsReturned (msg : string)
| DatabaseError (msg : string)
| OtherException (cls msg : string).

(** [str(e)] *)
Definition str (e : exn) : string :=
  match e with
  | Http404 m => m
  | PermissionDenied => ""
  | MultipleObjectsReturned m => m
  | DatabaseError m => m
  | OtherException _ m => m
  end.

Inductive LogRecord :=
| ERROR (msg : string).

Inductive Message :=
| SUCCESS (text : string)
| ERROR_MESSAGE (text : string).

(** ** The world a request runs in *)

Record World := mkWorld {
  users       : list User;
  categories  : list Category;
  recipes     : list Recipe;
  (** the largest primary key the [Recipe] table has given out so far (the
      sequence of its [AutoField]): the key of a deleted row is not given
      again *)
  Recipe_sequence : Z;
  (** [timezone.now()] *)
  clock       : Z;
  (** the message of the [DatabaseError] a write raises, when the database
      is failing *)
  write_fault : option string;
  (** records emitted through [logger] *)
  log         : list LogRecord;
  (** the message storage of [django.contrib.messages] *)
  messages    : list Message
}.

Definition set_recipes (rs : list Recipe) (w : World) : World :=
  mkWorld (users w) (categories w) rs (Recipe_sequence w) (clock w)
          (write_fault w) (log w) (messages w).

(** A row inserted under the key [pk]; the sequence moves up to it. *)
Definition insert_recipe (r : Recipe) (pk : Z) (w : World) : World :=
  mkWorld (users w) (categories w) (recipes w ++ [r])
          (Z.max (Recipe_sequence w) pk) (clock w)
          (write_fault w) (log w) (messages w).

Definition add_log (r : LogRecord) (w : World) : World :=
  mkWorld (users w) (categories w) (recipes w) (Recipe_sequence w) (clock w)
          (write_fault w) (log w ++ [r]) (messages w).

Definition add_message (m : Message) (w : World) : World :=
  mkWorld (users w) (categories w) (recipes w) (Recipe_sequence w) (clock w)
          (write_fault w) (log w) (messages w ++ [m]).

(** ** The monad of view code: state and exceptions *)

Definition M (A : Type) : Type := World -> (exn + A) * World.

Definition ret {A} (a : A) : M A := fun w => (inr a, w).

Definition bind {A B} (m : M A) (k : A -> M B) : M B :=
  fun w =>
    match m w with
    | (inr a, w') => k a w'
    | (inl e, w') => (inl e, w')
    end.

Definition raise {A} (e : exn) : M A := fun w => (inl e, w).

(** [try: body  except Exception as e: handler(e)] *)
Definition try_except {A} (body : M A) (handler : exn -> M A) : M A :=
  fun w =>
    match body w with
    | (inr a, w') => (inr a, w')
    | (inl e, w') => handler e w'
    end.

Definition gets {A} (f : World -> A) : M A := fun w => (inr (f w), w).

Definition modify (f : World -> World) : M unit := fun w => (inr tt, f w).

Declare Scope view_scope.
Delimit Scope view_scope with view.
Notation "x <- m ;; k" := (bind m (fun x => k))
  (at level 61, m at next level, right associativity) : view_scope.
Notation "m ;;; k" := (bind m (fun _ => k))
  (at level 61, right associativity) : view_scope.
Local Open Scope view_scope.

(** [logger.error(msg)] *)
Definition logger_error (msg : string) : M unit := modify (add_log (ERROR msg)).

(** [messages.success(request, text)] and [messages.error(request, text)] *)
Definition messages_success (text : string) : M unit :=
  modify (add_message (SUCCESS text)).

Definition messages_error (text : string) : M unit :=
  modify (add_message (ERROR_MESSAGE text)).

(** ** The ORM *)

Section Ordering.
Context {A : Type}.

(** One term of an [order_by]: a column, ascending or descending
    (['-column']). *)
Inductive ordering_term :=
| Asc (key : A -> Z)
| Desc (key : A -> Z).

(** [comes_first t x y]: row [x] may stand before row [y] under [t]. *)
Definition comes_first (t : ordering_term) (x y : A) : bool :=
  match t with
  | Asc key => key x <=? key y
  | Desc key => key y <=? key x
  end.

Fixpoint insert_row (t : ordering_term) (x : A) (l : list A) : list A :=
  match l with
  | [] => [x]
  | y :: l' => if comes_first t x y then x :: y :: l'
               else y :: insert_row t x l'
  end.

(** Sorting on one term; rows that tie keep their relative order. *)
Fixpoint sort_rows (t : ordering_term) (l : list A) : list A :=
  match l with
  | [] => []
  | x :: l' => insert_row t x (sort_rows t l')
  end.

(** [QuerySet.order_by] on a list of terms: the first term is the major key. *)
Fixpoint order_by (terms : list ordering_term) (l : list A) : list A :=
  match terms with
  | [] => l
  | t :: terms' => sort_rows t (order_by terms' l)
  end.

End Ordering.
Arguments ordering_term : clear implicits.

Definition decimal (n : Z) : string := NilZero.string_of_int (Z.to_int n).

Definition pk_is (pk : Z) (r : Recipe) : bool :=
  match id r with
  | Some k => k =? pk
  | None => false
  end.

(** [Recipe.objects.all()] *)
Definition Recipe_objects_all (models : ModelsPy) : M (list Recipe) :=
  gets (fun w => Recipe_Meta_ordering models (recipes w)).

(** [Recipe.objects.filter(...)] *)
Definition Recipe_objects_filter (models : ModelsPy) (p : Recipe -> bool)
  : M (list Recipe) :=
  gets (fun w => filter p (Recipe_Meta_ordering models (recipes w))).

(** [Category.objects.all()] *)
Definition Category_objects_all : M (list Category) := gets categories.

(** [QuerySet.get]: the one row of the queryset; the two failures are
    [DoesNotExist] (left [None]) and [MultipleObjectsReturned]. *)
Definition QuerySet_get {A} (object_name : string) (rows : list A)
  : (option exn) + A :=
  match rows with
  | [] => inl None
  | [x] => inr x
  | _ =>
      let num := Z.of_nat (length rows) in
      inl (Some (MultipleObjectsReturned
        ("get() returned more than one " ++ object_name ++ " -- it returned "
         ++ (if num <? 21 then decimal num else "more than 20") ++ "!")))
  end.

(** [django.shortcuts.get_object_or_404] over the rows of
    [klass] that match the keyword arguments. *)
Definition get_object_or_404 {A} (object_name : string) (matching : list A)
  : M A :=
  match QuerySet_get object_name matching with
  | inr x => ret x
  | inl None =>
      raise (Http404 ("No " ++ object_name ++ " matches the given query."))
  | inl (Some e) => raise e
  end.

(** The largest primary key among the rows, 0 when there is none. *)
Definition max_pk (rs : list Recipe) : Z :=
  fold_right (fun r m => match id r with
                         | Some k => Z.max k m
                         | None => m
                         end) 0 rs.

(** The key the database gives a new row: one more than the largest key the
    table has ever held, whether a stored row has it or the sequence
    remembers it (SQLite under AUTOINCREMENT, which Django declares for an
    [AutoField]). *)
Definition next_pk (w : World) : Z :=
  1 + Z.max (Recipe_sequence w) (max_pk (recipes w)).

(** [Model.save()]: an instance without primary key is inserted under a
    fresh one; an instance with a primary key replaces the row that has it,
    and is inserted when there is none. *)
Definition Model_save (r : Recipe) : M Recipe :=
  fun w =>
    match write_fault w with
    | Some msg => (inl (DatabaseError msg), w)
    | None =>
        match id r with
        | None =>
            let r' := mkRecipe (Some (next_pk w)) (title r)
                        (category r) (description r) (ingredients r)
                        (cooking_steps r) (cooking_time r) (active r)
                        (image r) (created_date r) (author r) in
            (inr r', insert_recipe r' (next_pk w) w)
        | Some pk =>
            if existsb (pk_is pk) (recipes w)
            then (inr r, set_recipes
                           (map (fun x => if pk_is pk x then r else x)
                                (recipes w)) w)
            else (inr r, insert_recipe r pk w)
        end
    end.

(** [Model.delete()]: refused for an instance that was never saved. *)
Definition Model_delete (r : Recipe) : M unit :=
  fun w =>
    match id r with
    | None =>
        (inl (OtherException "ValueError"
                "Recipe object can't be deleted because its id attribute is set to None."),
         w)
    | Some pk =>
        match write_fault w with
        | Some msg => (inl (DatabaseError msg), w)
        | None =>
            (inr tt, set_recipes
                       (filter (fun x => negb (pk_is pk x)) (recipes w)) w)
        end
    end.

(** ** [django.core.paginator.Paginator], with its defaults [orphans=0] and
    [allow_empty_first_page=True] *)

Definition Paginator_count {A} (object_list : list A) : Z :=
  Z.of_nat (length object_list).

Definition Paginator_num_pages {A} (object_list : list A) (per_page : Z) : Z :=
  let hits := Z.max 1 (Paginator_count object_list) in
  (hits + per_page - 1) / per_page.

(** [object_list[bottom:top]] for [0 <= bottom <= top <= len] *)
Definition slice {A} (bottom top : Z) (l : list A) : list A :=
  firstn (Z.to_nat (top - bottom)) (skipn (Z.to_nat bottom) l).

(** [Paginator.page(number)]; left is the message of [EmptyPage]. *)
Definition Paginator_page {A} (object_list : list A) (per_page number : Z)
  : string + list A :=
  if number <? 1 then inl "That page number is less than 1"
  else if Paginator_num_pages object_list per_page <? number
  then inl "That page contains no results"
  else
    let bottom := (number - 1) * per_page in
    let top := bottom + per_page in
    let top := if Paginator_count object_list <=? top + 0
               then Paginator_count object_list else top in
    inr (slice bottom top object_list).

(** ** Requests and responses *)

(** The request methods told apart: GET, POST and DELETE, which have a
    handler in some view, and [HTTP_OTHER] for a method that none of the
    views handles (PATCH, TRACE, a name outside [http_method_names]).
    HEAD, OPTIONS and PUT, which Django serves through [get], [options]
    and [post], are not among them. *)
Inductive Method := HTTP_GET | HTTP_POST | HTTP_DELETE | HTTP_OTHER.

(** [request.user] *)
Inductive RequestUser :=
| AnonymousUser
| Authenticated (u : User).

(** The [page] query parameter as [int(page)] reads it. *)
Inductive page_param :=
| page_missing
| page_int (n : Z)
| page_last
| page_not_int.

Record Request := mkRequest {
  method   : Method;
  user     : RequestUser;
  (** [request.POST], with the uploads of [request.FILES] under the names
      of their fields *)
  POST     : QueryDict;
  GET_page : page_param
}.

(** A bound [ModelForm] after [is_valid()] has run. *)
Record ModelForm := mkModelForm {
  cleaned_data : QueryDict;
  is_valid     : bool;
  instance     : Recipe
}.

(** The template context: the keys the generic views and the views of
    this site fill in. *)
Record Context := mkContext {
  object_list    : list Recipe;
  is_paginated   : bool;
  (** [page_obj.number] and [paginator.num_pages] *)
  page_obj       : option (Z * Z);
  object         : option Recipe;
  form           : option ModelForm;
  ctx_categories : option (list Category);
  ctx_category   : option Category;
  ctx_title      : option string
}.

(** [context['categories'] = v] *)
Definition set_ctx_categories (v : list Category) (c : Context) : Context :=
  mkContext (object_list c) (is_paginated c) (page_obj c) (object c)
            (form c) (Some v) (ctx_category c) (ctx_title c).

(** [context['category'] = v] *)
Definition set_ctx_category (v : Category) (c : Context) : Context :=
  mkContext (object_list c) (is_paginated c) (page_obj c) (object c)
            (form c) (ctx_categories c) (Some v) (ctx_title c).

Inductive HttpResponse :=
| TemplateResponse (template_name : string) (context : Context)
| HttpResponseRedirect (url : Url)
| HttpResponseNotAllowed.

(** ** Django's generic views and access mixins *)

(** [View.dispatch]: the handler named after the request method, or the
    method-not-allowed response when the view has none. *)
Definition View_dispatch (request : Request)
  (get post delete : option (M HttpResponse)) : M HttpResponse :=
  let handler := match method request with
                 | HTTP_GET => get
                 | HTTP_POST => post
                 | HTTP_DELETE => delete
                 | HTTP_OTHER => None
                 end in
  match handler with
  | Some h => h
  | None => ret HttpResponseNotAllowed
  end.

Definition is_authenticated (u : RequestUser) : bool :=
  match u with
  | Authenticated _ => true
  | AnonymousUser => false
  end.

(** [AccessMixin.handle_no_permission], with [raise_exception] left at its
    default [False]. *)
Definition handle_no_permission (request : Request) (path : Url)
  : M HttpResponse :=
  if is_authenticated (user request) then raise PermissionDenied
  else ret (HttpResponseRedirect (login_url path)).

(** [LoginRequiredMixin.dispatch] *)
Definition LoginRequiredMixin_dispatch (request : Request) (path : Url)
  (super_dispatch : M HttpResponse) : M HttpResponse :=
  if negb (is_authenticated (user request))
  then handle_no_permission request path
  else super_dispatch.

(** [UserPassesTestMixin.dispatch] *)
Definition UserPassesTestMixin_dispatch (request : Request) (path : Url)
  (test_func : M bool) (super_dispatch : M HttpResponse) : M HttpResponse :=
  user_test_result <- test_func ;;
  if negb user_test_result then handle_no_permission request path
  else super_dispatch.

(** [MultipleObjectMixin.get_queryset] *)
Definition MultipleObjectMixin_get_queryset (models : ModelsPy)
  (ordering : list (ordering_term Recipe)) : M (list Recipe) :=
  queryset <- Recipe_objects_all models ;;
  match ordering with
  | [] => ret queryset
  | _ => ret (order_by ordering queryset)
  end.

(** [MultipleObjectMixin.paginate_queryset]: the page number, the number of
    pages, the rows of the page and [page.has_other_pages()]. *)
Definition paginate_queryset (queryset : list Recipe) (page_size : Z)
  (page : page_param) : M (Z * Z * list Recipe * bool) :=
  let num_pages := Paginator_num_pages queryset page_size in
  page_number <-
    match page with
    | page_missing => ret 1
    | page_int n => ret n
    | page_last => ret num_pages
    | page_not_int =>
        raise (Http404
          "Page is not “last”, nor can it be converted to an int.")
    end ;;
  match Paginator_page queryset page_size page_number with
  | inr objs =>
      ret (page_number, num_pages, objs,
           (1 <? page_number) || (page_number <? num_pages))
  | inl message =>
      raise (Http404 ("Invalid page (" ++ decimal page_number ++ "): "
                      ++ message))
  end.

(** [MultipleObjectMixin.get_context_data] *)
Definition MultipleObjectMixin_get_context_data (queryset : list Recipe)
  (paginate_by : option Z) (page : page_param) : M Context :=
  match paginate_by with
  | Some page_size =>
      r <- paginate_queryset queryset page_size page ;;
      let '(number, num_pages, objs, paginated) := r in
      ret (mkContext objs paginated (Some (number, num_pages))
                     None None None None None)
  | None =>
      ret (mkContext queryset false None None None None None None)
  end.

(** [BaseListView.get] *)
Definition BaseListView_get (template_name : string)
  (get_queryset : M (list Recipe))
  (get_context_data : list Recipe -> M Context) : M HttpResponse :=
  queryset <- get_queryset ;;
  context <- get_context_data queryset ;;
  ret (TemplateResponse template_name context).

(** [SingleObjectMixin.get_object], looking the object up by [pk]. *)
Definition SingleObjectMixin_get_object (models : ModelsPy) (pk : Z)
  : M Recipe :=
  queryset <- Recipe_objects_filter models (pk_is pk) ;;
  match QuerySet_get "Recipe" queryset with
  | inr obj => ret obj
  | inl None =>
      raise (Http404 ("No " ++ Recipe_verbose_name models
                      ++ " found matching the query"))
  | inl (Some e) => raise e
  end.

(** The context of the single-object views: [object] and, for the editing
    views, [form]. *)
Definition SingleObjectMixin_get_context_data (obj : option Recipe)
  (f : option ModelForm) : M Context :=
  ret (mkContext [] false None obj f None None None).

(** *** Model forms *)

(** [setattr(instance, name, v)] for the attributes of a [Recipe]; [None]
    when [v] is not a value of the attribute's type. *)
Definition Recipe_setattr (r : Recipe) (name : string) (v : value)
  : option Recipe :=
  match v with
  | VStr s =>
      if String.eqb name "title" then
        Some (mkRecipe (id r) s (category r) (description r) (ingredients r)
                (cooking_steps r) (cooking_time r) (active r) (image r)
                (created_date r) (author r))
      else if String.eqb name "description" then
        Some (mkRecipe (id r) (title r) (category r) s (ingredients r)
                (cooking_steps r) (cooking_time r) (active r) (image r)
                (created_date r) (author r))
      else if String.eqb name "ingredients" then
        Some (mkRecipe (id r) (title r) (category r) (description r) s
                (cooking_steps r) (cooking_time r) (active r) (image r)
                (created_date r) (author r))
      else if String.eqb name "cooking_steps" then
        Some (mkRecipe (id r) (title r) (category r) (description r)
                (ingredients r) s (cooking_time r) (active r) (image r)
                (created_date r) (author r))
      else if String.eqb name "image" then
        Some (mkRecipe (id r) (title r) (category r) (description r)
                (ingredients r) (cooking_steps r) (cooking_time r) (active r)
                s (created_date r) (author r))
      else None
  | VInt n =>
      if String.eqb name "id" then
        Some (mkRecipe (Some n) (title r) (category r) (description r)
                (ingredients r) (cooking_steps r) (cooking_time r) (active r)
                (image r) (created_date r) (author r))
      else if String.eqb name "category" then
        Some (mkRecipe (id r) (title r) n (description r) (ingredients r)
                (cooking_steps r) (cooking_time r) (active r) (image r)
                (created_date r) (author r))
      else if String.eqb name "cooking_time" then
        Some (mkRecipe (id r) (title r) (category r) (description r)
                (ingredients r) (cooking_steps r) n (active r) (image r)
                (created_date r) (author r))
      else if String.eqb name "created_date" then
        Some (mkRecipe (id r) (title r) (category r) (description r)
                (ingredients r) (cooking_steps r) (cooking_time r) (active r)
                (image r) n (author r))
      else if String.eqb name "author" then
        Some (mkRecipe (id r) (title r) (category r) (description r)
                (ingredients r) (cooking_steps r) (cooking_time r) (active r)
                (image r) (created_date r) n)
      else None
  | VBool b =>
      if String.eqb name "active" then
        Some (mkRecipe (id r) (title r) (category r) (description r)
                (ingredients r) (cooking_steps r) (cooking_time r) b
                (image r) (created_date r) (author r))
      else None
  end.

(** [instance.title = s] and [instance.author = u] *)
Definition set_title (s : string) (r : Recipe) : Recipe :=
  mkRecipe (id r) s (category r) (description r) (ingredients r)
           (cooking_steps r) (cooking_time r) (active r) (image r)
           (created_date r) (author r).

Definition set_author (u : User) (r : Recipe) : Recipe :=
  mkRecipe (id r) (title r) (category r) (description r) (ingredients r)
           (cooking_steps r) (cooking_time r) (active r) (image r)
           (created_date r) (user_id u).

(** A new, unsaved [Recipe()]: no primary key, the creation timestamp
    taken from the clock.  The two foreign keys are unset in Python; they
    stand at 0 here until they are assigned, which on every path to
    [save] happens first. *)
Definition Recipe_new (now : Z) : Recipe :=
  mkRecipe None "" 0 "" "" "" 0 false "" now 0.

(** The kinds of form field that a model form derives from the fields of
    its model: [CharField] for a [models.CharField] and a
    [models.TextField], [ModelChoiceField] for a foreign key. *)
Inductive FormField :=
| CharField
| IntegerField
| BooleanField
| ModelChoiceField
| ImageField.

(** Modelled from the spec: the fields of [Recipe] in models.py (absent from
    the sources), "title, category reference (foreign key), description,
    ingredients, cooking steps, cooking time, an active/visibility flag, an
    image reference", at the types of the record [Recipe]. *)
Definition Recipe_formfield (name : string) : option FormField :=
  if String.eqb name "title" then Some CharField
  else if String.eqb name "category" then Some ModelChoiceField
  else if String.eqb name "description" then Some CharField
  else if String.eqb name "ingredients" then Some CharField
  else if String.eqb name "cooking_steps" then Some CharField
  else if String.eqb name "cooking_time" then Some IntegerField
  else if String.eqb name "active" then Some BooleanField
  else if String.eqb name "image" then Some ImageField
  else None.

(** [Field.clean] by kind of field: the cleaned value, or [None] for a
    [ValidationError].  [data] is what was submitted under the name of the
    field, if anything. *)

(** [CharField.clean]: the text is stripped; an empty text fails a required
    field and is not shown to the validators. *)
Definition CharField_clean (required : bool) (validate : value -> bool)
  (data : option value) : option value :=
  match data with
  | Some (VInt _) | Some (VBool _) => None
  | Some (VStr _) | None =>
      let text := str_strip (match data with
                             | Some (VStr s) => s
                             | _ => ""
                             end) in
      if String.eqb text "" then
        if required then None else Some (VStr "")
      else if validate (VStr text) then Some (VStr text) else None
  end.

(** [IntegerField.clean], required. *)
Definition IntegerField_clean (validate : value -> bool)
  (data : option value) : option value :=
  match data with
  | Some (VInt n) => if validate (VInt n) then Some (VInt n) else None
  | _ => None
  end.

(** [BooleanField.clean] behind a checkbox: a model form never requires the
    box to be ticked; a box that was not submitted is not ticked, and of
    what can be submitted only the empty text and the word false, in any
    case, leave it so. *)
Definition BooleanField_clean (data : option value) : option value :=
  match data with
  | None => Some (VBool false)
  | Some (VBool b) => Some (VBool b)
  | Some (VInt _) => Some (VBool true)
  | Some (VStr s) =>
      Some (VBool (negb (String.eqb s ""
                         || String.eqb (ascii_lower s) "false")))
  end.

(** [ModelChoiceField.clean], required: the submitted key is the key of a
    row of the table. *)
Definition ModelChoiceField_clean (choices : list Category)
  (validate : value -> bool) (data : option value) : option value :=
  match data with
  | Some (VInt n) =>
      if existsb (fun c => category_id c =? n) choices
      then if validate (VInt n) then Some (VInt n) else None
      else None
  | _ => None
  end.

(** [FileField.clean], required: without an upload the file the instance
    has already is kept. *)
Definition FileField_clean (validate : value -> bool) (initial : string)
  (data : option value) : option value :=
  match data with
  | Some (VInt _) | Some (VBool _) => None
  | Some (VStr _) | None =>
      let upload := match data with
                    | Some (VStr s) => s
                    | _ => ""
                    end in
      if String.eqb upload "" then
        if String.eqb initial "" then None else Some (VStr initial)
      else if validate (VStr upload) then Some (VStr upload) else None
  end.

(** Modelled from the spec: whether a form field of [Recipe] is required.
    "Each Recipe references exactly one Category" and has a cooking time
    and an image reference, so these are; a text field is unless models.py
    declares it blank. *)
Definition Field_clean (models : ModelsPy) (choices : list Category)
  (inst : Recipe) (name : string) (data : option value) : option value :=
  match Recipe_formfield name with
  | Some CharField =>
      CharField_clean (negb (Recipe_field_blank models name))
        (Recipe_field_validate models name) data
  | Some IntegerField =>
      IntegerField_clean (Recipe_field_validate models name) data
  | Some BooleanField => BooleanField_clean data
  | Some ModelChoiceField =>
      ModelChoiceField_clean choices (Recipe_field_validate models name) data
  | Some ImageField =>
      FileField_clean (Recipe_field_validate models name) (image inst) data
  | None => None
  end.

(** [BaseForm._clean_fields]: every field of the form is cleaned from what
    was submitted under its name (the uploads of [request.FILES] are held
    with [request.POST]); submitted keys that are not fields of the form
    are never looked at.  The result is [cleaned_data] and whether there
    was no error. *)
Fixpoint clean_fields (models : ModelsPy) (choices : list Category)
  (fields : list string) (data : QueryDict) (inst : Recipe)
  : QueryDict * bool :=
  match fields with
  | [] => ([], true)
  | f :: fields' =>
      let '(cleaned, ok) := clean_fields models choices fields' data inst in
      match Field_clean models choices inst f (QueryDict_get f data) with
      | Some v => ((f, v) :: cleaned, ok)
      | None => (cleaned, false)
      end
  end.

(** [django.forms.models.construct_instance]: the cleaned value of every
    field of the form is stored into the instance. *)
Fixpoint construct_instance (cleaned : QueryDict) (fields : list string)
  (inst : Recipe) : Recipe :=
  match fields with
  | [] => inst
  | f :: fields' =>
      let inst' := match QueryDict_get f cleaned with
                   | Some v => match Recipe_setattr inst f v with
                               | Some i => i
                               | None => inst
                               end
                   | None => inst
                   end in
      construct_instance cleaned fields' inst'
  end.

(** The model form of [fields] bound to [data], after [form.is_valid()];
    [choices] are the rows a foreign key can refer to. *)
Definition get_form (models : ModelsPy) (choices : list Category)
  (fields : list string) (data : QueryDict) (inst : Recipe) : ModelForm :=
  let '(cleaned, ok) := clean_fields models choices fields data inst in
  mkModelForm cleaned ok (construct_instance cleaned fields inst).

(** [ModelFormMixin.get_form] on a POST request, followed by
    [form.is_valid()]. *)
Definition ModelFormMixin_get_form (models : ModelsPy) (fields : list string)
  (request : Request) (inst : Recipe) : M ModelForm :=
  choices <- Category_objects_all ;;
  ret (get_form models choices fields (POST request) inst).

(** [ProcessFormView.post] *)
Definition ProcessFormView_post (get_form : M ModelForm)
  (form_valid form_invalid : ModelForm -> M HttpResponse) : M HttpResponse :=
  f <- get_form ;;
  if is_valid f then form_valid f else form_invalid f.

(** [ModelFormMixin.form_valid]: save the instance and redirect to its
    page. *)
Definition ModelFormMixin_form_valid (models : ModelsPy) (f : ModelForm)
  : M HttpResponse :=
  obj <- Model_save (instance f) ;;
  ret (HttpResponseRedirect (Recipe_get_absolute_url models obj)).

(** [DeletionMixin.delete]: what an HTTP DELETE request runs. *)
Definition DeletionMixin_delete (get_object : M Recipe) (success_url : Url)
  : M HttpResponse :=
  obj <- get_object ;;
  Model_delete obj ;;;
  ret (HttpResponseRedirect success_url).

(** [BaseDeleteView.form_valid], as of Django 4.0: delete the object and
    redirect. *)
Definition BaseDeleteView_form_valid (obj : Recipe) (success_url : Url)
  : M HttpResponse :=
  Model_delete obj ;;;
  ret (HttpResponseRedirect success_url).

(** [BaseDeleteView.post], as of Django 4.0: fetch the object, then the
    form flow.  The form of a delete view is the empty [Form], which every
    POST validates, so the flow ends in [form_valid]; the view's [delete]
    is not called. *)
Definition BaseDeleteView_post (get_object : M Recipe)
  (form_valid : Recipe -> M HttpResponse) : M HttpResponse :=
  obj <- get_object ;;
  form_valid obj.

(** [django.shortcuts.render] *)
Definition shortcuts_render (template_name : string) (context : Context)
  : M HttpResponse :=
  ret (TemplateResponse template_name context).

(** [a == b] on model instances: same model and same primary key.  The left
    side is [request.user], the right side the row a foreign key holds. *)
Definition Model_eq (u : RequestUser) (pk : Z) : bool :=
  match u with
  | Authenticated usr => user_id usr =? pk
  | AnonymousUser => false
  end.

(** [form.instance.author = self.request.user] *)
Definition assign_author (request : Request) (f : ModelForm) : M ModelForm :=
  match user request with
  | Authenticated u =>
      ret (mkModelForm (cleaned_data f) (is_valid f)
                       (set_author u (instance f)))
  | AnonymousUser =>
      raise (OtherException "ValueError"
               "Cannot assign AnonymousUser: Recipe.author must be a User instance.")
  end.

(** [form.instance.title = form.cleaned_data['title'].upper()] *)
Definition assign_upper_title (upper : string -> string) (f : ModelForm)
  : M ModelForm :=
  match QueryDict_get "title" (cleaned_data f) with
  | Some (VStr s) =>
      ret (mkModelForm (cleaned_data f) (is_valid f)
                       (set_title (upper s) (instance f)))
  | Some _ =>
      raise (OtherException "AttributeError" "object has no attribute 'upper'")
  | None => raise (OtherException "KeyError" "'title'")
  end.

(** ** The views of views.py

    [upper] is Python's [str.upper].  Every method keeps its [try] block
    ([_try]) apart from the method itself, which adds the [except] clause. *)

(** [about(request)] *)
Definition about (render : string -> Context -> M HttpResponse)
  : M HttpResponse :=
  let context := mkContext [] false None None None None None
                           (Some "О проекте") in
  render "webapp/about.html" context.

Module RecipeListView.

Definition template_name : string := "webapp/home.html".
Definition ordering : list (ordering_term Recipe) := [Desc created_date].
Definition paginate_by : Z := 5.

Definition get_context_data_try (super_get_context_data : M Context)
  : M Context :=
  context <- super_get_context_data ;;
  cats <- Category_objects_all ;;
  ret (set_ctx_categories cats context).

Definition get_context_data (super_get_context_data : M Context)
  : M Context :=
  try_except (get_context_data_try super_get_context_data)
    (fun e =>
       logger_error ("An error occurred in RecipeListView: " ++ str e) ;;;
       raise e).

Definition as_view (models : ModelsPy) (request : Request) : M HttpResponse :=
  View_dispatch request
    (Some (BaseListView_get template_name
             (MultipleObjectMixin_get_queryset models ordering)
             (fun queryset =>
                get_context_data
                  (MultipleObjectMixin_get_context_data queryset
                     (Some paginate_by) (GET_page request)))))
    None None.

End RecipeListView.

Module UserRecipeListView.

Definition template_name : string := "webapp/user_recipes.html".
Definition paginate_by : Z := 5.

Definition get_queryset_try (models : ModelsPy) (name : string)
  : M (list Recipe) :=
  all_users <- gets users ;;
  usr <- get_object_or_404 "User"
           (filter (fun u => String.eqb (username u) name) all_users) ;;
  rows <- Recipe_objects_filter models (fun r => author r =? user_id usr) ;;
  ret (order_by [Desc created_date] rows).

Definition get_queryset (models : ModelsPy) (name : string)
  : M (list Recipe) :=
  try_except (get_queryset_try models name)
    (fun e =>
       logger_error ("An error occurred in UserRecipeListView: " ++ str e) ;;;
       raise e).

Definition get_context_data_try (super_get_context_data : M Context)
  : M Context :=
  context <- super_get_context_data ;;
  cats <- Category_objects_all ;;
  ret (set_ctx_categories cats context).

Definition get_context_data (super_get_context_data : M Context)
  : M Context :=
  try_except (get_context_data_try super_get_context_data)
    (fun e =>
       logger_error ("An error occurred in UserRecipeListView: " ++ str e) ;;;
       raise e).

Definition as_view (models : ModelsPy) (request : Request) (name : string)
  : M HttpResponse :=
  View_dispatch request
    (Some (BaseListView_get template_name
             (get_queryset models name)
             (fun queryset =>
                get_context_data
                  (MultipleObjectMixin_get_context_data queryset
                     (Some paginate_by) (GET_page request)))))
    None None.

End UserRecipeListView.

Module RecipeByCategoryView.

Definition template_name : string := "webapp/recipes_by_category.html".

Definition get_category (cid : Z) : M Category :=
  cats <- Category_objects_all ;;
  get_object_or_404 "Category"
    (filter (fun c => category_id c =? cid) cats).

Definition get_queryset_try (models : ModelsPy) (cid : Z)
  : M (list Recipe) :=
  cat <- get_category cid ;;
  Recipe_objects_filter models (fun r => category r =? category_id cat).

Definition get_queryset (models : ModelsPy) (cid : Z) : M (list Recipe) :=
  try_except (get_queryset_try models cid)
    (fun e =>
       logger_error ("An error occurred in RecipeByCategoryView: " ++ str e) ;;;
       raise e).

Definition get_context_data_try (cid : Z) (super_get_context_data : M Context)
  : M Context :=
  context <- super_get_context_data ;;
  cat <- get_category cid ;;
  cats <- Category_objects_all ;;
  ret (set_ctx_categories cats (set_ctx_category cat context)).

Definition get_context_data (cid : Z) (super_get_context_data : M Context)
  : M Context :=
  try_except (get_context_data_try cid super_get_context_data)
    (fun e =>
       logger_error ("An error occurred in RecipeByCategoryView: " ++ str e) ;;;
       raise e).

Definition as_view (models : ModelsPy) (request : Request) (cid : Z)
  : M HttpResponse :=
  View_dispatch request
    (Some (BaseListView_get template_name
             (get_queryset models cid)
             (fun queryset =>
                get_context_data cid
                  (MultipleObjectMixin_get_context_data queryset
                     None (GET_page request)))))
    None None.

End RecipeByCategoryView.

Module RecipeDetailView.

Definition template_name : string := "webapp/recipe_detail.html".

Definition get_context_data_try (super_get_context_data : M Context)
  : M Context :=
  context <- super_get_context_data ;;
  cats <- Category_objects_all ;;
  ret (set_ctx_categories cats context).

Definition get_context_data (super_get_context_data : M Context)
  : M Context :=
  try_except (get_context_data_try super_get_context_data)
    (fun e =>
       logger_error ("An error occurred in RecipeDetailView: " ++ str e) ;;;
       raise e).

Definition as_view (models : ModelsPy) (request : Request) (pk : Z)
  : M HttpResponse :=
  View_dispatch request
    (Some (obj <- SingleObjectMixin_get_object models pk ;;
           context <- get_context_data
                        (SingleObjectMixin_get_context_data (Some obj) None) ;;
           ret (TemplateResponse template_name context)))
    None None.

End RecipeDetailView.

Module RecipeCreateView.

Definition template_name : string := "webapp/recipe_form.html".

Definition fields : list string :=
  ["title"; "category"; "description";
   "ingredients"; "cooking_steps";
   "cooking_time"; "active"; "image"].

Definition form_valid_try (upper : string -> string) (request : Request)
  (super_form_valid : ModelForm -> M HttpResponse) (f : ModelForm)
  : M HttpResponse :=
  f <- assign_author request f ;;
  f <- assign_upper_title upper f ;;
  result <- super_form_valid f ;;
  messages_success "Рецепт успешно добавлен." ;;;
  ret result.

Definition form_valid (upper : string -> string) (request : Request)
  (super_form_valid : ModelForm -> M HttpResponse) (f : ModelForm)
  : M HttpResponse :=
  try_except (form_valid_try upper request super_form_valid f)
    (fun e =>
       logger_error ("An error occurred in RecipeCreateView: " ++ str e) ;;;
       messages_error "Произошла ошибка при сохранении рецепта." ;;;
       raise e).

Definition form_invalid_try (super_form_invalid : ModelForm -> M HttpResponse)
  (f : ModelForm) : M HttpResponse :=
  super_form_invalid f.

Definition form_invalid (super_form_invalid : ModelForm -> M HttpResponse)
  (f : ModelForm) : M HttpResponse :=
  try_except (form_invalid_try super_form_invalid f)
    (fun e =>
       logger_error ("An error occurred in RecipeCreateView: " ++ str e) ;;;
       raise e).

Definition get_context_data_try (super_get_context_data : M Context)
  : M Context :=
  context <- super_get_context_data ;;
  cats <- Category_objects_all ;;
  ret (set_ctx_categories cats context).

Definition get_context_data (super_get_context_data : M Context)
  : M Context :=
  try_except (get_context_data_try super_get_context_data)
    (fun e =>
       logger_error ("An error occurred in RecipeCreateView: " ++ str e) ;;;
       raise e).

(** [FormMixin.form_invalid] and the [get] of the form views: the form page
    rendered with the view's context. *)
Definition render_form (obj : option Recipe) (f : option ModelForm)
  : M HttpResponse :=
  context <- get_context_data (SingleObjectMixin_get_context_data obj f) ;;
  ret (TemplateResponse template_name context).

(** The handlers of the view, by request method. *)
Definition handlers (models : ModelsPy) (upper : string -> string)
  (request : Request) : M HttpResponse :=
  View_dispatch request
    (Some (render_form None None))
    (Some (now <- gets clock ;;
           ProcessFormView_post
             (ModelFormMixin_get_form models fields request (Recipe_new now))
             (form_valid upper request (ModelFormMixin_form_valid models))
             (form_invalid (fun f => render_form None (Some f)))))
    None.

Definition as_view (models : ModelsPy) (upper : string -> string)
  (request : Request) : M HttpResponse :=
  LoginRequiredMixin_dispatch request recipe_create
    (handlers models upper request).

End RecipeCreateView.

Module RecipeUpdateView.

Definition template_name : string := "webapp/recipe_form.html".

Definition fields : list string :=
  ["title"; "category"; "description";
   "ingredients"; "cooking_steps";
   "cooking_time"; "active"; "image"].

Definition form_valid_try (upper : string -> string) (request : Request)
  (super_form_valid : ModelForm -> M HttpResponse) (f : ModelForm)
  : M HttpResponse :=
  f <- assign_author request f ;;
  f <- assign_upper_title upper f ;;
  result <- super_form_valid f ;;
  messages_success "Рецепт успешно изменен." ;;;
  ret result.

Definition form_valid (upper : string -> string) (request : Request)
  (super_form_valid : ModelForm -> M HttpResponse) (f : ModelForm)
  : M HttpResponse :=
  try_except (form_valid_try upper request super_form_valid f)
    (fun e =>
       logger_error ("An error occurred in RecipeUpdateView: " ++ str e) ;;;
       raise e).

Definition test_func_try (request : Request) (get_object : M Recipe)
  : M bool :=
  recipe <- get_object ;;
  if Model_eq (user request) (author recipe) then ret true
  else ret false.

Definition test_func (request : Request) (get_object : M Recipe) : M bool :=
  try_except (test_func_try request get_object)
    (fun e =>
       logger_error ("An error occurred in RecipeUpdateView: " ++ str e) ;;;
       raise e).

Definition get_context_data_try (super_get_context_data : M Context)
  : M Context :=
  context <- super_get_context_data ;;
  cats <- Category_objects_all ;;
  ret (set_ctx_categories cats context).

Definition get_context_data (super_get_context_data : M Context)
  : M Context :=
  try_except (get_context_data_try super_get_context_data)
    (fun e =>
       logger_error ("An error occurred in RecipeUpdateView: " ++ str e) ;;;
       raise e).

Definition render_form (obj : option Recipe) (f : option ModelForm)
  : M HttpResponse :=
  context <- get_context_data (SingleObjectMixin_get_context_data obj f) ;;
  ret (TemplateResponse template_name context).

(** The handlers of the view, by request method. *)
Definition handlers (models : ModelsPy) (upper : string -> string)
  (request : Request) (pk : Z) : M HttpResponse :=
  View_dispatch request
    (Some (obj <- SingleObjectMixin_get_object models pk ;;
           render_form (Some obj) None))
    (Some (obj <- SingleObjectMixin_get_object models pk ;;
           ProcessFormView_post
             (ModelFormMixin_get_form models fields request obj)
             (form_valid upper request (ModelFormMixin_form_valid models))
             (fun f => render_form (Some obj) (Some f))))
    None.

Definition as_view (models : ModelsPy) (upper : string -> string)
  (request : Request) (pk : Z) : M HttpResponse :=
  LoginRequiredMixin_dispatch request (recipe_update pk)
    (UserPassesTestMixin_dispatch request (recipe_update pk)
       (test_func request (SingleObjectMixin_get_object models pk))
       (handlers models upper request pk)).

End RecipeUpdateView.

Module RecipeDeleteView.

Definition template_name : string := "webapp/recipe_confirm_delete.html".
Definition success_url : Url := webapp_home.

Definition test_func_try (request : Request) (get_object : M Recipe)
  : M bool :=
  recipe <- get_object ;;
  if Model_eq (user request) (author recipe) then ret true
  else ret false.

Definition test_func (request : Request) (get_object : M Recipe) : M bool :=
  try_except (test_func_try request get_object)
    (fun e =>
       logger_error ("An error occurred in RecipeDeleteView: " ++ str e) ;;;
       raise e).

Definition delete_try (super_delete : M HttpResponse) : M HttpResponse :=
  messages_success "Рецепт успешно удален." ;;;
  super_delete.

Definition delete (super_delete : M HttpResponse) : M HttpResponse :=
  try_except (delete_try super_delete)
    (fun e =>
       logger_error ("An error occurred in RecipeDeleteView: " ++ str e) ;;;
       messages_error "Произошла ошибка при удалении рецепта." ;;;
       raise e).

Definition get_context_data_try (super_get_context_data : M Context)
  : M Context :=
  context <- super_get_context_data ;;
  cats <- Category_objects_all ;;
  ret (set_ctx_categories cats context).

Definition get_context_data (super_get_context_data : M Context)
  : M Context :=
  try_except (get_context_data_try super_get_context_data)
    (fun e =>
       logger_error ("An error occurred in RecipeDeleteView: " ++ str e) ;;;
       raise e).

(** The handlers of the view, by request method.  An HTTP DELETE request
    reaches the overridden [delete] through [View.dispatch].  A POST
    request does not: [BaseDeleteView.post] (Django 4.0 and later) runs the
    form flow and ends in [BaseDeleteView.form_valid], which the view does
    not override. *)
Definition handlers (models : ModelsPy) (request : Request) (pk : Z)
  : M HttpResponse :=
  View_dispatch request
    (Some (obj <- SingleObjectMixin_get_object models pk ;;
           context <- get_context_data
                        (SingleObjectMixin_get_context_data
                           (Some obj) None) ;;
           ret (TemplateResponse template_name context)))
    (Some (BaseDeleteView_post (SingleObjectMixin_get_object models pk)
             (fun obj => BaseDeleteView_form_valid obj success_url)))
    (Some (delete (DeletionMixin_delete
                     (SingleObjectMixin_get_object models pk) success_url))).

Definition as_view (models : ModelsPy) (request : Request) (pk : Z)
  : M HttpResponse :=
  LoginRequiredMixin_dispatch request (recipe_delete pk)
    (UserPassesTestMixin_dispatch request (recipe_delete pk)
       (test_func request (SingleObjectMixin_get_object models pk))
       (handlers models request pk)).

End RecipeDeleteView.

(** ** urls.py

    A route of [path()] is a sequence of literal text and captures
    [<int:name>] and [<str:name>].  Django compiles it to a regular
    expression anchored at both ends, [int] to [[0-9]+] and [str] to
    [[^/]+]; a capture takes the longest run of accepted characters, which
    is what the expression does here, every capture of urls.py being
    followed by a slash or by the end of the route.  Paths are as the
    URLconf sees them, without the leading slash.  The [static()] patterns
    that urls.py appends under [DEBUG] come after these eight and cannot
    change how a path that matches one of them is resolved. *)

Inductive converter := IntConverter | StringConverter.

Inductive route_part :=
| Literal (text : string)
| Capture (c : converter).

Inductive kwarg :=
| KInt (n : Z)
| KStr (s : string).

Definition is_digit (c : Ascii.ascii) : bool :=
  match c with
  | "0" | "1" | "2" | "3" | "4" | "5" | "6" | "7" | "8" | "9" => true
  | _ => false
  end%char.

(** The characters a converter accepts. *)
Definition converter_accepts (c : converter) (ch : Ascii.ascii) : bool :=
  match c with
  | IntConverter => is_digit ch
  | StringConverter => negb (Ascii.eqb ch "/")
  end.

(** [to_python] of the converter, on the text it captured. *)
Definition converter_to_python (c : converter) (text : string)
  : option kwarg :=
  match c with
  | IntConverter =>
      option_map (fun d => KInt (Z.of_uint d)) (NilZero.uint_of_string text)
  | StringConverter => Some (KStr text)
  end.

(** The longest prefix of accepted characters, and what follows it. *)
Fixpoint span (p : Ascii.ascii -> bool) (s : string) : string * string :=
  match s with
  | EmptyString => (EmptyString, EmptyString)
  | String ch s' =>
      if p ch then let '(run, rest) := span p s' in (String ch run, rest)
      else (EmptyString, s)
  end.

Fixpoint strip_prefix (pre s : string) : option string :=
  match pre with
  | EmptyString => Some s
  | String a pre' =>
      match s with
      | EmptyString => None
      | String b s' => if Ascii.eqb a b then strip_prefix pre' s' else None
      end
  end.

(** [RoutePattern.match]: the keyword arguments when the whole path matches
    the route. *)
Fixpoint match_route (route : list route_part) (path : string)
  : option (list kwarg) :=
  match route with
  | [] => match path with
          | EmptyString => Some []
          | _ => None
          end
  | Literal text :: route' =>
      match strip_prefix text path with
      | Some rest => match_route route' rest
      | None => None
      end
  | Capture c :: route' =>
      let '(run, rest) := span (converter_accepts c) path in
      match run with
      | EmptyString => None
      | _ =>
          match converter_to_python c run, match_route route' rest with
          | Some v, Some vs => Some (v :: vs)
          | _, _ => None
          end
      end
  end.

(** An entry of [urlpatterns]: the route and, for the keyword arguments it
    captures, the named page it stands for. *)
Record URLPattern := mkURLPattern {
  route  : list route_part;
  target : list kwarg -> option Url
}.

Definition urlpatterns : list URLPattern :=
  [ mkURLPattern []
      (fun kw => match kw with [] => Some webapp_home | _ => None end);
    mkURLPattern [Literal "about/"]
      (fun kw => match kw with [] => Some webapp_about | _ => None end);
    mkURLPattern [Literal "user/"; Capture StringConverter]
      (fun kw => match kw with
                 | [KStr name] => Some (user_recipes name)
                 | _ => None
                 end);
    mkURLPattern [Literal "recipe/"; Capture IntConverter; Literal "/"]
      (fun kw => match kw with
                 | [KInt pk] => Some (recipe_detail pk)
                 | _ => None
                 end);
    mkURLPattern [Literal "recipe/new/"]
      (fun kw => match kw with [] => Some recipe_create | _ => None end);
    mkURLPattern [Literal "recipe/"; Capture IntConverter; Literal "/update/"]
      (fun kw => match kw with
                 | [KInt pk] => Some (recipe_update pk)
                 | _ => None
                 end);
    mkURLPattern [Literal "recipe/"; Capture IntConverter; Literal "/delete/"]
      (fun kw => match kw with
                 | [KInt pk] => Some (recipe_delete pk)
                 | _ => None
                 end);
    mkURLPattern [Literal "recipes/category/"; Capture IntConverter;
                  Literal "/"]
      (fun kw => match kw with
                 | [KInt cid] => Some (recipes_by_category cid)
                 | _ => None
                 end) ].

(** [URLResolver.resolve]: the first pattern that matches the path. *)
Fixpoint resolve_in (patterns : list URLPattern) (path : string)
  : option Url :=
  match patterns with
  | [] => None
  | p :: patterns' =>
      match match_route (route p) path with
      | Some kw => target p kw
      | None => resolve_in patterns' path
      end
  end.

Definition resolve (path : string) : option Url := resolve_in urlpatterns path.

(** The view urls.py binds to a named page; the login page belongs to
    another URLconf. *)
Definition view_of (models : ModelsPy) (upper : string -> string) (page : Url)
  : option (Request -> M HttpResponse) :=
  match page with
  | webapp_home => Some (RecipeListView.as_view models)
  | webapp_about => Some (fun _ => about shortcuts_render)
  | user_recipes name =>
      Some (fun request => UserRecipeListView.as_view models request name)
  | recipe_detail pk =>
      Some (fun request => RecipeDetailView.as_view models request pk)
  | recipe_create => Some (RecipeCreateView.as_view models upper)
  | recipe_update pk =>
      Some (fun request => RecipeUpdateView.as_view models upper request pk)
  | recipe_delete pk =>
      Some (fun request => RecipeDeleteView.as_view models request pk)
  | recipes_by_category cid =>
      Some (fun request => RecipeByCategoryView.as_view models request cid)
  | login_url _ => None
  end.

(** The world after a sequence of requests, each to a named page; a request
    to a page without view is not served. *)
Fixpoint serve_all (models : ModelsPy) (upper : string -> string)
  (requests : list (Url * Request)) (w : World) : World :=
  match requests with
  | [] => w
  | (page, request) :: requests' =>
      let w' := match view_of models upper page with
                | Some view => snd (view request w)
                | None => w
                end in
      serve_all models upper requests' w'
  end.

(** ** Instances for running the views *)

(** A models.py without [Meta.ordering] (rows come in table order), with the
    detail page as [get_absolute_url], no field declared blank and no
    validators. *)
Definition plain_models : ModelsPy :=
  mkModelsPy "recipe" (fun rows => rows)
    (fun r => match id r with
              | Some pk => recipe_detail pk
              | None => webapp_home
              end)
    (fun _ => false)
    (fun _ _ => true).


(** ** Specification vocabulary *)

(** A listing is newest-first: every row is at least as recent as all the
    rows after it. *)
Definition newest_first (l : list Recipe) : Prop :=
  StronglySorted (fun a b => created_date b <= created_date a) l.

(** Boolean form of [newest_first], for evaluating it on a listing. *)
Fixpoint newest_firstb (l : list Recipe) : bool :=
  match l with
  | [] => true
  | a :: l' =>
      forallb (fun b => created_date b <=? created_date a) l'
      && newest_firstb l'
  end.


(** The default ordering of models.py, whatever it is, only reorders the
    rows of a query. *)
Definition reorders (models : ModelsPy) : Prop :=
  forall rows, Permutation (Recipe_Meta_ordering models rows) rows.

(** The author of every stored recipe, by primary key. *)
Definition authors (w : World) : list (option Z * Z) :=
  map (fun r => (id r, author r)) (recipes w).

(** The form the create view binds to a request, and the form the update
    view binds to it for the recipe [r0]. *)
Definition create_form (models : ModelsPy) (w : World) (request : Request)
  : ModelForm :=
  get_form models (categories w) RecipeCreateView.fields (POST request)
           (Recipe_new (clock w)).

Definition update_form (models : ModelsPy) (w : World) (request : Request)
  (r0 : Recipe) : ModelForm :=
  get_form models (categories w) RecipeUpdateView.fields (POST request) r0.

(** The title as the form cleans it: what was submitted under [title],
    stripped. *)
Definition cleaned_title (request : Request) : string :=
  str_strip (submitted "title" (POST request)).

Definition with_page (request : Request) (k : Z) : Request :=
  mkRequest (method request) (user request) (POST request) (page_int k).

Definition with_POST (request : Request) (data : QueryDict) : Request :=
  mkRequest (method request) (user request) data (GET_page request).

(** *** A small site to run the views on *)

Definition alice : User := mkUser 1 "alice".
Definition bob : User := mkUser 2 "bob".

Definition soups : Category := mkCategory 1 "soups".
Definition bakes : Category := mkCategory 2 "bakes".

Definition borsch : Recipe :=
  mkRecipe (Some 1) "BORSCH" 1 "beet soup" "beet, cabbage" "boil" 90 true
           "borsch.png" 100 1.
Definition shchi : Recipe :=
  mkRecipe (Some 2) "SHCHI" 1 "cabbage soup" "cabbage" "boil" 60 true
           "shchi.png" 200 2.
Definition cake : Recipe :=
  mkRecipe (Some 3) "CAKE" 2 "sponge cake" "flour, eggs" "bake" 45 true
           "cake.png" 300 1.

Definition sample_world : World :=
  mkWorld [alice; bob] [soups; bakes] [borsch; shchi; cake] 3 1000 None [] [].

(** The same site with a database that refuses writes. *)
Definition failing_world : World :=
  mkWorld [alice; bob] [soups; bakes] [borsch; shchi; cake] 3 1000
          (Some "database is locked") [] [].

Definition sample_form : QueryDict :=
  [("title", VStr "okroshka"); ("category", VInt 1);
   ("description", VStr "cold soup"); ("ingredients", VStr "kvass");
   ("cooking_steps", VStr "chop"); ("cooking_time", VInt 20);
   ("active", VBool true); ("image", VStr "okroshka.png");
   ("author", VInt 2)].

(** The same form with blanks around the title. *)
Definition padded_form : QueryDict :=
  [("title", VStr "  okroshka "); ("category", VInt 1);
   ("description", VStr "cold soup"); ("ingredients", VStr "kvass");
   ("cooking_steps", VStr "chop"); ("cooking_time", VInt 20);
   ("active", VBool true); ("image", VStr "okroshka.png")].

Definition get_by (u : RequestUser) : Request :=
  mkRequest HTTP_GET u [] page_missing.

Definition post_by (u : RequestUser) (data : QueryDict) : Request :=
  mkRequest HTTP_POST u data page_missing.

Definition delete_by (u : RequestUser) : Request :=
  mkRequest HTTP_DELETE u [] page_missing.

(** What bob and a visitor try on alice's recipes. *)
Definition requests_of_others : list (Url * Request) :=
  [ (recipe_update 1, post_by (Authenticated bob) sample_form);
    (recipe_delete 1, delete_by (Authenticated bob));
    (recipe_create, post_by (Authenticated bob) sample_form);
    (recipe_delete 3, delete_by AnonymousUser);
    (recipe_delete 2, delete_by (Authenticated bob)) ].

(** A day on the site: alice adds a recipe, edits and removes her own. *)
Definition requests_of_alice : list (Url * Request) :=
  [ (recipe_create, post_by (Authenticated alice) sample_form);
    (recipe_update 1, post_by (Authenticated alice) sample_form);
    (recipe_delete 3, delete_by (Authenticated alice));
    (webapp_home, get_by (Authenticated alice)) ].


(** C6 as the claim has it: a create request that ends in the redirect of a
    stored form has stored the upper-cased submitted title. *)
Definition stored_title_is_upper_of_submitted (models : ModelsPy)
  (upper : string -> string) (w : World) (request : Request) : Prop :=
  forall url w',
    RecipeCreateView.as_view models upper request w
    = (inr (HttpResponseRedirect url), w') ->
    exists r,
      recipes w' = (recipes w ++ [r])%list /\
      title r = upper (submitted "title" (POST request)).

(** [method] is [body] wrapped in the logging [except] clause of [view]:
    a normal return of the body is the return of the method; an exception
    of the body is logged under the name of the view and raised again, the
    same exception, after the flash message [flash] where there is one.
    Nothing else of the world changes. *)
Definition logged_and_reraised {A} (view : string) (flash : option Message)
  (body method : M A) : Prop :=
  forall w,
    match body w with
    | (inr a, w') => method w = (inr a, w')
    | (inl e, w') =>
        let logged :=
          add_log (ERROR ("An error occurred in " ++ view ++ ": " ++ str e))
                  w' in
        method w = (inl e, match flash with
                           | Some m => add_message m logged
                           | None => logged
                           end)
    end.

(** Whatever the handler raises, it has logged last. *)
Definition logs_what_it_raises {A} (handler : M A) : Prop :=
  forall w e w',
    handler w = (inl e, w') ->
    exists view earlier,
      log w' = (earlier ++ [ERROR ("An error occurred in " ++ view ++ ": "
                                   ++ str e)])%list.

(** A [render] that finds no template. *)
Definition render_without_template (template_name : string) (_ : Context)
  : M HttpResponse :=
  raise (OtherException "TemplateDoesNotExist" template_name).

(** *** Vocabulary for what requests leave alone *)

(** [l'] is [l] with more at its end. *)
Definition extends {A} (l l' : list A) : Prop :=
  exists more, l' = (l ++ more)%list.

(** Nothing but the log differs, and the log has only grown. *)
Definition same_data (w w' : World) : Prop :=
  users w' = users w /\
  categories w' = categories w /\
  recipes w' = recipes w /\
  Recipe_sequence w' = Recipe_sequence w /\
  clock w' = clock w /\
  write_fault w' = write_fault w /\
  messages w' = messages w /\
  extends (log w) (log w').

(** Accounts, categories, clock and the state of the database are the
    same; the log and the messages have only grown, and the sequence of
    primary keys has not gone back. *)
Definition same_site (w w' : World) : Prop :=
  users w' = users w /\
  categories w' = categories w /\
  Recipe_sequence w <= Recipe_sequence w' /\
  clock w' = clock w /\
  write_fault w' = write_fault w /\
  extends (log w) (log w') /\
  extends (messages w) (messages w').

(** A computation keeps a relation between the world it starts in and the
    world it ends in, whether it returns or raises. *)
Definition preserves {A} (R : World -> World -> Prop) (m : M A) : Prop :=
  forall w, R w (snd (m w)).

(** The recipes that are not the user's own. *)
Definition others_recipes (u : RequestUser) (rs : list Recipe)
  : list Recipe :=
  filter (fun r => negb (Model_eq u (author r))) rs.

(** Every stored recipe has a primary key and no two share one. *)
Definition unique_keys (rs : list Recipe) : Prop :=
  NoDup (map id rs) /\ Forall (fun r => id r <> None) rs.

(** What one request can do to the stored recipes: nothing; append a
    recipe of the requesting user under a fresh key, one above every stored
    key; replace the one recipe
    of a key, which is the requesting user's, by a recipe with the same key,
    author and creation date; remove the one recipe of a key, which is the
    requesting user's. *)
Inductive recipes_step (u : RequestUser) (rs rs' : list Recipe) : Prop :=
| step_none :
    rs' = rs -> recipes_step u rs rs'
| step_create (r : Recipe) (k : Z) :
    id r = Some k -> max_pk rs < k ->
    Model_eq u (author r) = true ->
    rs' = (rs ++ [r])%list ->
    recipes_step u rs rs'
| step_update (pk : Z) (r0 r : Recipe) :
    In r0 rs ->
    (forall x, In x rs -> id x = Some pk -> x = r0) ->
    id r0 = Some pk ->
    Model_eq u (author r0) = true ->
    id r = Some pk -> author r = author r0 ->
    created_date r = created_date r0 ->
    rs' = map (fun x => if pk_is pk x then r else x) rs ->
    recipes_step u rs rs'
| step_delete (pk : Z) (r0 : Recipe) :
    In r0 rs ->
    (forall x, In x rs -> id x = Some pk -> x = r0) ->
    id r0 = Some pk ->
    Model_eq u (author r0) = true ->
    rs' = filter (fun x => negb (pk_is pk x)) rs ->
    recipes_step u rs rs'.

(** Whenever the computation returns, [Q] holds of what it returns and of
    the world it returns in. *)
Definition returns {A} (Q : A -> World -> Prop) (m : M A) : Prop :=
  forall w a w', m w = (inr a, w') -> Q a w'.

(** The context holds the list of all categories. *)
Definition context_has_categories (context : Context) (w : World) : Prop :=
  ctx_categories context = Some (categories w).

(** A rendered page holds the list of all categories. *)
Definition page_has_categories (response : HttpResponse) (w : World) : Prop :=
  match response with
  | TemplateResponse _ context => context_has_categories context w
  | _ => True
  end.

Definition is_redirect (response : HttpResponse) (_ : World) : Prop :=
  exists url, response = HttpResponseRedirect url.

(** *** Vocabulary for paths *)

(** A name that can stand in a path: not empty and without a slash. *)
Definition path_name (name : string) : Prop :=
  name <> EmptyString /\
  string_forall (converter_accepts StringConverter) name = true.

(** The pages urls.py can lead to: keys are not negative, names can stand
    in a path, and the login page is not among them. *)
Definition routed_page (page : Url) : Prop :=
  match page with
  | webapp_home | webapp_about | recipe_create => True
  | user_recipes name => path_name name
  | recipe_detail pk | recipe_update pk | recipe_delete pk => 0 <= pk
  | recipes_by_category cid => 0 <= cid
  | login_url _ => False
  end.

(** The path of a page of urls.py, with numbers in decimal. *)
Definition path_of (page : Url) : string :=
  match page with
  | webapp_home => ""
  | webapp_about => "about/"
  | user_recipes name => "user/" ++ name
  | recipe_detail pk => "recipe/" ++ decimal pk ++ "/"
  | recipe_create => "recipe/new/"
  | recipe_update pk => "recipe/" ++ decimal pk ++ "/update/"
  | recipe_delete pk => "recipe/" ++ decimal pk ++ "/delete/"
  | recipes_by_category cid => "recipes/category/" ++ decimal cid ++ "/"
  | login_url _ => ""
  end.

(** What a capture can yield. *)
Definition captured (v : kwarg) : Prop :=
  match v with
  | KInt n => 0 <= n
  | KStr s => path_name s
  end.

(** ** Sorting and pagination *)

Section OrderingFacts.
Context {A : Type}.
Implicit Types (t : ordering_term A) (l : list A).

Lemma insert_row_perm t x l : Permutation (insert_row t x l) (x :: l).
Proof.
  induction l as [|y l IH]; simpl; [reflexivity|].
  destruct (comes_first t x y); [reflexivity|].
  rewrite IH. apply perm_swap.
Qed.

Lemma sort_rows_perm t l : Permutation (sort_rows t l) l.
Proof.
  induction l as [|x l IH]; simpl; [constructor|].
  rewrite insert_row_perm. now constructor.
Qed.

Lemma order_by_perm terms l : Permutation (order_by terms l) l.
Proof.
  induction terms as [|t terms IH]; simpl; [reflexivity|].
  now rewrite sort_rows_perm.
Qed.

Lemma insert_row_desc_sorted (key : A -> Z) x l :
  StronglySorted (fun a b => key b <= key a) l ->
  StronglySorted (fun a b => key b <= key a) (insert_row (Desc key) x l).
Proof.
  induction 1 as [|y l Hl IH Hy]; simpl.
  - repeat constructor.
  - destruct (Z.leb_spec (key y) (key x)) as [Hle|Hlt].
    + constructor; [now constructor|].
      constructor; [exact Hle|].
      rewrite Forall_forall in Hy |- *. intros z Hz.
      specialize (Hy z Hz). simpl in Hy. lia.
    + constructor; [exact IH|].
      rewrite Forall_forall in Hy |- *. intros z Hz.
      apply (Permutation_in _ (insert_row_perm (Desc key) x l)) in Hz.
      destruct Hz as [<-|Hz]; [lia|now apply Hy].
Qed.

Lemma sort_rows_desc_sorted (key : A -> Z) l :
  StronglySorted (fun a b => key b <= key a) (sort_rows (Desc key) l).
Proof.
  induction l as [|x l IH]; simpl; [constructor|].
  now apply insert_row_desc_sorted.
Qed.

End OrderingFacts.

Lemma newest_firstb_spec l : newest_firstb l = true <-> newest_first l.
Proof.
  unfold newest_first. induction l as [|a l IH]; simpl.
  - split; [constructor|reflexivity].
  - rewrite andb_true_iff, forallb_forall, IH. split.
    + intros [Ha Hl]. constructor; [exact Hl|].
      rewrite Forall_forall. intros b Hb. apply Z.leb_le. now apply Ha.
    + intros H. inversion H as [|? ? Hl Ha]; subst. split; [|exact Hl].
      rewrite Forall_forall in Ha. intros b Hb. apply Z.leb_le.
      now apply Ha.
Qed.

Lemma order_by_created_date_newest_first l :
  newest_first (order_by [Desc created_date] l).
Proof. apply sort_rows_desc_sorted. Qed.

Lemma ceil_div_covers h p : 0 < p -> h <= p * ((h + p - 1) / p).
Proof.
  intros Hp.
  pose proof (Z.div_mod (h + p - 1) p ltac:(lia)) as Hdm.
  pose proof (Z.mod_pos_bound (h + p - 1) p Hp) as Hr.
  lia.
Qed.

Lemma ceil_div_tight h p : 0 < p -> p * ((h + p - 1) / p - 1) < h.
Proof.
  intros Hp.
  pose proof (Z.div_mod (h + p - 1) p ltac:(lia)) as Hdm.
  pose proof (Z.mod_pos_bound (h + p - 1) p Hp) as Hr.
  lia.
Qed.

Lemma Paginator_num_pages_pos {A} (l : list A) p :
  0 < p -> 1 <= Paginator_num_pages l p.
Proof.
  intros Hp. unfold Paginator_num_pages.
  apply Z.div_le_lower_bound; lia.
Qed.

Lemma Paginator_num_pages_covers {A} (l : list A) p :
  0 < p -> Z.of_nat (length l) <= p * Paginator_num_pages l p.
Proof.
  intros Hp. unfold Paginator_num_pages, Paginator_count.
  pose proof (ceil_div_covers (Z.max 1 (Z.of_nat (length l))) p Hp). lia.
Qed.

(** The rows of page [k]: the [p] rows from position [(k-1)*p] on, fewer on
    the last page only. *)
Lemma Paginator_page_rows {A} (l : list A) p k :
  0 < p -> 1 <= k <= Paginator_num_pages l p ->
  exists objs,
    Paginator_page l p k = inr objs /\
    Z.of_nat (length objs) <= p /\
    (k < Paginator_num_pages l p -> Z.of_nat (length objs) = p) /\
    forall i, Z.of_nat i < p ->
      nth_error objs i = nth_error l (Z.to_nat ((k - 1) * p) + i).
Proof.
  intros Hp [Hk1 Hkn]. unfold Paginator_page.
  destruct (Z.ltb_spec k 1) as [?|_]; [lia|].
  destruct (Z.ltb_spec (Paginator_num_pages l p) k) as [?|_]; [lia|].
  eexists; split; [reflexivity|].
  unfold slice, Paginator_count.
  set (count := Z.of_nat (length l)).
  set (bottom := (k - 1) * p).
  assert (Hb : 0 <= bottom) by (unfold bottom; nia).
  repeat split.
  - rewrite length_firstn.
    destruct (Z.leb_spec count (bottom + p + 0)); lia.
  - intros Hlast.
    assert (Hcnt : k * p < count).
    { unfold Paginator_num_pages, Paginator_count in Hlast.
      fold count in Hlast.
      pose proof (ceil_div_tight (Z.max 1 count) p Hp) as Ht.
      assert (1 < (Z.max 1 count + p - 1) / p) by lia.
      assert (p * k <= p * ((Z.max 1 count + p - 1) / p - 1)) by nia.
      assert (p <= p * ((Z.max 1 count + p - 1) / p - 1)) by nia.
      lia. }
    rewrite length_firstn, length_skipn.
    destruct (Z.leb_spec count (bottom + p + 0)); unfold bottom in *; lia.
  - intros i Hi. rewrite nth_error_firstn, nth_error_skipn.
    destruct (Nat.ltb_spec i (Z.to_nat
      ((if count <=? bottom + p + 0 then count else bottom + p) - bottom)))
      as [Hlt|Hge]; [reflexivity|].
    symmetry. apply nth_error_None.
    destruct (Z.leb_spec count (bottom + p + 0)); unfold count in *; lia.
Qed.

(** ** Running the pieces of the framework *)

(** A unique key selects its row. *)
Lemma filter_unique_key {A} (key : A -> Z) (l : list A) (x : A) :
  NoDup (map key l) -> In x l ->
  filter (fun y => key y =? key x) l = [x].
Proof.
  induction l as [|y l IH]; simpl; [contradiction|].
  intros Hnd Hin. inversion Hnd as [|? ? Hy Hl]; subst.
  assert (Hnone : forall z, ~ In (key z) (map key l) ->
            filter (fun y => key y =? key z) l = []).
  { clear. intros z Hz. induction l as [|y l IH]; simpl; [reflexivity|].
    simpl in Hz. destruct (Z.eqb_spec (key y) (key z)) as [E|_].
    - exfalso. apply Hz. now left.
    - apply IH. intros H. apply Hz. now right. }
  destruct Hin as [->|Hin].
  - rewrite Z.eqb_refl. f_equal. now apply Hnone.
  - destruct (Z.eqb_spec (key y) (key x)) as [E|_].
    + exfalso. apply Hy. rewrite E. now apply in_map.
    + now apply IH.
Qed.

Lemma filter_unique_name (l : list User) (x : User) :
  NoDup (map username l) -> In x l ->
  filter (fun u => String.eqb (username u) (username x)) l = [x].
Proof.
  induction l as [|y l IH]; simpl; [contradiction|].
  intros Hnd Hin. inversion Hnd as [|? ? Hy Hl]; subst.
  assert (Hnone : forall z, ~ In (username z) (map username l) ->
            filter (fun u => String.eqb (username u) (username z)) l = []).
  { clear. intros z Hz. induction l as [|y l IH]; simpl; [reflexivity|].
    simpl in Hz. destruct (String.eqb_spec (username y) (username z)) as [E|_].
    - exfalso. apply Hz. now left.
    - apply IH. intros H. apply Hz. now right. }
  destruct Hin as [->|Hin].
  - rewrite String.eqb_refl. f_equal. now apply Hnone.
  - destruct (String.eqb_spec (username y) (username x)) as [E|_].
    + exfalso. apply Hy. rewrite E. now apply in_map.
    + now apply IH.
Qed.

Lemma filter_no_match {A} (p : A -> bool) (l : list A) :
  (forall x, In x l -> p x = false) -> filter p l = [].
Proof.
  induction l as [|y l IH]; simpl; intros H; [reflexivity|].
  rewrite (H y (or_introl eq_refl)). apply IH. intros x Hx. apply H. now right.
Qed.

(** ** The listings *)



Lemma filter_perm {A} (p : A -> bool) (l l' : list A) :
  Permutation l l' -> Permutation (filter p l) (filter p l').
Proof.
  induction 1 as [|x l l' _ IH|x y l|l l' l'' _ IH1 _ IH2]; simpl.
  - constructor.
  - destruct (p x); [now constructor|exact IH].
  - destruct (p x), (p y); try reflexivity. apply perm_swap.
  - now transitivity (filter p l').
Qed.

(** What a filtered query holds, whatever the default ordering. *)
Lemma filtered_rows (models : ModelsPy) (p : Recipe -> bool) (w : World) :
  reorders models ->
  let rows := filter p (Recipe_Meta_ordering models (recipes w)) in
  Permutation rows (filter p (recipes w)) /\
  forall r, In r rows <-> In r (recipes w) /\ p r = true.
Proof.
  intros Hperm rows.
  assert (Hrows : Permutation rows (filter p (recipes w)))
    by (apply filter_perm, Hperm).
  split; [exact Hrows|]. intros r. rewrite <- filter_In.
  split; apply Permutation_in; [exact Hrows|now symmetry].
Qed.

(** C5.  For the name of an existing account, the user listing returns
    exactly the recipes whose author is that account, newest first. *)
Theorem user_listing_exact_newest_first
  (models : ModelsPy) (w : World) (name : string) (usr : User) :
  reorders models ->
  NoDup (map username (users w)) ->
  In usr (users w) ->
  username usr = name ->
  exists rows,
    UserRecipeListView.get_queryset models name w = (inr rows, w) /\
    Permutation rows (filter (fun r => author r =? user_id usr) (recipes w)) /\
    (forall r, In r rows <-> In r (recipes w) /\ author r = user_id usr) /\
    newest_first rows.
Proof.
  intros Hperm Hnd Hin <-.
  destruct (filtered_rows models (fun r => author r =? user_id usr) w Hperm)
    as [Hrows Hmem].
  exists (order_by [Desc created_date]
            (filter (fun r => author r =? user_id usr)
                    (Recipe_Meta_ordering models (recipes w)))).
  split.
  - unfold UserRecipeListView.get_queryset,
      UserRecipeListView.get_queryset_try, try_except, bind, gets.
    rewrite (filter_unique_name _ _ Hnd Hin). reflexivity.
  - split; [now rewrite order_by_perm|].
    split; [|apply order_by_created_date_newest_first].
    intros r. rewrite <- Z.eqb_eq, <- Hmem.
    split; apply Permutation_in;
      [apply order_by_perm|symmetry; apply order_by_perm].
Qed.

Lemma user_listing_exact_newest_first_witness :
  exists rows,
    UserRecipeListView.get_queryset plain_models "alice" sample_world
    = (inr rows, sample_world) /\
    Permutation rows
      (filter (fun r => author r =? user_id alice) (recipes sample_world)) /\
    (forall r, In r rows <->
               In r (recipes sample_world) /\ author r = user_id alice) /\
    newest_first rows.
Proof.
  apply (user_listing_exact_newest_first plain_models sample_world
           "alice" alice).
  - intros rows. reflexivity.
  - simpl. repeat constructor; simpl; intuition discriminate.
  - simpl. now left.
  - reflexivity.
Defined.

(** C9.  For a name that no account has, the user listing fails with
    [Http404]; no list, not even an empty one, is returned. *)
Theorem user_listing_unknown_name_not_found
  (models : ModelsPy) (w : World) (request : Request) (name : string) :
  (forall u, In u (users w) -> username u <> name) ->
  method request = HTTP_GET ->
  UserRecipeListView.get_queryset models name w
  = (inl (Http404 "No User matches the given query."),
     add_log (ERROR "An error occurred in UserRecipeListView: No User matches the given query.") w)
  /\
  UserRecipeListView.as_view models request name w
  = (inl (Http404 "No User matches the given query."),
     add_log (ERROR "An error occurred in UserRecipeListView: No User matches the given query.") w).
Proof.
  intros Hnone Hget.
  assert (Hq : UserRecipeListView.get_queryset models name w
               = (inl (Http404 "No User matches the given query."),
                  add_log (ERROR "An error occurred in UserRecipeListView: No User matches the given query.") w)).
  { unfold UserRecipeListView.get_queryset,
      UserRecipeListView.get_queryset_try, try_except, bind, gets.
    rewrite filter_no_match; [reflexivity|].
    intros u Hu. apply String.eqb_neq. now apply Hnone. }
  split; [exact Hq|].
  unfold UserRecipeListView.as_view, View_dispatch. rewrite Hget.
  unfold BaseListView_get, bind. now rewrite Hq.
Qed.

Lemma user_listing_unknown_name_not_found_witness :
  UserRecipeListView.get_queryset plain_models "carol" sample_world
  = (inl (Http404 "No User matches the given query."),
     add_log (ERROR "An error occurred in UserRecipeListView: No User matches the given query.") sample_world)
  /\
  UserRecipeListView.as_view plain_models (get_by AnonymousUser) "carol"
    sample_world
  = (inl (Http404 "No User matches the given query."),
     add_log (ERROR "An error occurred in UserRecipeListView: No User matches the given query.") sample_world).
Proof.
  apply (user_listing_unknown_name_not_found plain_models sample_world
           (get_by AnonymousUser) "carol").
  - simpl. intros u [<-|[<-|[]]]; discriminate.
  - reflexivity.
Defined.





(** ** Ownership *)

Ltac run_view :=
  unfold logger_error, messages_success, messages_error;
  unfold try_except, bind, ret, raise, gets, modify;
  cbv beta iota zeta.

(** What [ProcessFormView.post] does with the bound form. *)
Lemma ProcessFormView_post_run models fields request inst
  (form_valid form_invalid : ModelForm -> M HttpResponse) w :
  ProcessFormView_post (ModelFormMixin_get_form models fields request inst)
    form_valid form_invalid w
  = if is_valid (get_form models (categories w) fields (POST request) inst)
    then form_valid
           (get_form models (categories w) fields (POST request) inst) w
    else form_invalid
           (get_form models (categories w) fields (POST request) inst) w.
Proof.
  unfold ProcessFormView_post, ModelFormMixin_get_form, Category_objects_all.
  unfold bind, gets, ret.
  now destruct (is_valid _).
Qed.

(** The POST handlers of the two form views. *)
Lemma create_post_run models upper request w :
  method request = HTTP_POST ->
  RecipeCreateView.handlers models upper request w
  = if is_valid (create_form models w request)
    then RecipeCreateView.form_valid upper request
           (ModelFormMixin_form_valid models) (create_form models w request) w
    else RecipeCreateView.render_form None
           (Some (create_form models w request)) w.
Proof.
  intros Hpost. unfold RecipeCreateView.handlers, View_dispatch.
  rewrite Hpost. unfold bind at 1, gets.
  rewrite ProcessFormView_post_run. fold (create_form models w request).
  destruct (is_valid _); reflexivity.
Qed.

Lemma update_post_run models upper request pk r w :
  method request = HTTP_POST ->
  SingleObjectMixin_get_object models pk w = (inr r, w) ->
  RecipeUpdateView.handlers models upper request pk w
  = if is_valid (update_form models w request r)
    then RecipeUpdateView.form_valid upper request
           (ModelFormMixin_form_valid models) (update_form models w request r)
           w
    else RecipeUpdateView.render_form (Some r)
           (Some (update_form models w request r)) w.
Proof.
  intros Hpost Hobj. unfold RecipeUpdateView.handlers, View_dispatch.
  rewrite Hpost. unfold bind at 1. rewrite Hobj.
  now rewrite ProcessFormView_post_run.
Qed.

(** Once a request of the author has passed the guard of the update view,
    nothing in the handler denies permission. *)
Lemma update_handler_not_denied models upper request pk r u w :
  user request = Authenticated u ->
  SingleObjectMixin_get_object models pk w = (inr r, w) ->
  fst (RecipeUpdateView.handlers models upper request pk w)
  <> inl PermissionDenied.
Proof.
  intros Hu Hobj.
  destruct (method request) eqn:Hmethod;
    [| |unfold RecipeUpdateView.handlers, View_dispatch;
        rewrite Hmethod; simpl; discriminate..].
  - unfold RecipeUpdateView.handlers, View_dispatch. rewrite Hmethod.
    unfold bind. rewrite Hobj. simpl. discriminate.
  - rewrite (update_post_run models upper request pk r w Hmethod Hobj).
    destruct (update_form models w request r) as [cleaned ok inst].
    cbn [is_valid]. destruct ok; [|simpl; discriminate].
    unfold RecipeUpdateView.form_valid, RecipeUpdateView.form_valid_try,
      assign_author, assign_upper_title, ModelFormMixin_form_valid, Model_save.
    rewrite Hu. run_view. cbn [cleaned_data instance is_valid].
    destruct (QueryDict_get "title" cleaned) as [[s|n|b]|];
      try (simpl; discriminate).
    destruct (write_fault w); [simpl; discriminate|].
    simpl. destruct (id inst); [|simpl; discriminate].
    destruct (existsb _ _); simpl; discriminate.
Qed.

(** [get_object] finds [r] exactly when [r] is the one row with the key;
    it reads the recipes and nothing else. *)
Lemma get_object_found models pk w r w0 :
  SingleObjectMixin_get_object models pk w = (inr r, w0) ->
  filter (pk_is pk) (Recipe_Meta_ordering models (recipes w)) = [r].
Proof.
  unfold SingleObjectMixin_get_object, Recipe_objects_filter, bind, gets.
  destruct (filter (pk_is pk) (Recipe_Meta_ordering models (recipes w)))
    as [|x [|y rows]]; simpl; intros H; try discriminate.
  now injection H as -> _.
Qed.

Lemma get_object_id models pk w r w0 :
  SingleObjectMixin_get_object models pk w = (inr r, w0) -> id r = Some pk.
Proof.
  intros H. apply get_object_found in H.
  assert (Hin : In r (filter (pk_is pk)
                        (Recipe_Meta_ordering models (recipes w))))
    by (rewrite H; now left).
  apply filter_In in Hin. destruct Hin as [_ Hpk].
  unfold pk_is in Hpk. destruct (id r) as [k|]; [|discriminate].
  apply Z.eqb_eq in Hpk. now subst k.
Qed.

Lemma get_object_run models pk w r :
  filter (pk_is pk) (Recipe_Meta_ordering models (recipes w)) = [r] ->
  SingleObjectMixin_get_object models pk w = (inr r, w).
Proof.
  intros H.
  unfold SingleObjectMixin_get_object, Recipe_objects_filter, bind, gets.
  now rewrite H.
Qed.

Lemma get_object_frame models pk w r w0 w' :
  SingleObjectMixin_get_object models pk w = (inr r, w0) ->
  recipes w' = recipes w ->
  SingleObjectMixin_get_object models pk w' = (inr r, w').
Proof.
  intros H Hrec. apply get_object_run. rewrite Hrec.
  exact (get_object_found _ _ _ _ _ H).
Qed.

Lemma delete_handler_not_denied models request pk r w :
  SingleObjectMixin_get_object models pk w = (inr r, w) ->
  fst (RecipeDeleteView.handlers models request pk w) <> inl PermissionDenied.
Proof.
  intros Hobj. unfold RecipeDeleteView.handlers, View_dispatch.
  destruct (method request).
  - unfold bind. rewrite Hobj. simpl. discriminate.
  - unfold BaseDeleteView_post, BaseDeleteView_form_valid, Model_delete.
    unfold bind. rewrite Hobj.
    destruct (id r); [|simpl; discriminate].
    destruct (write_fault w); simpl; discriminate.
  - unfold RecipeDeleteView.delete, RecipeDeleteView.delete_try,
      DeletionMixin_delete, Model_delete.
    run_view.
    rewrite (get_object_frame models pk w r w
               (add_message (SUCCESS "Рецепт успешно удален.") w)
               Hobj eq_refl).
    simpl. destruct (id r); [|simpl; discriminate].
    destruct (write_fault w); simpl; discriminate.
  - simpl. discriminate.
Qed.

Lemma update_test_func_run models request pk r u w :
  user request = Authenticated u ->
  SingleObjectMixin_get_object models pk w = (inr r, w) ->
  RecipeUpdateView.test_func request
    (SingleObjectMixin_get_object models pk) w
  = (inr (user_id u =? author r), w).
Proof.
  intros Hu Hobj.
  unfold RecipeUpdateView.test_func, RecipeUpdateView.test_func_try,
    Model_eq, try_except, bind.
  rewrite Hobj, Hu. now destruct (user_id u =? author r).
Qed.

Lemma delete_test_func_run models request pk r u w :
  user request = Authenticated u ->
  SingleObjectMixin_get_object models pk w = (inr r, w) ->
  RecipeDeleteView.test_func request
    (SingleObjectMixin_get_object models pk) w
  = (inr (user_id u =? author r), w).
Proof.
  intros Hu Hobj.
  unfold RecipeDeleteView.test_func, RecipeDeleteView.test_func_try,
    Model_eq, try_except, bind.
  rewrite Hobj, Hu. now destruct (user_id u =? author r).
Qed.

(** The update view behind its two mixins: the handler for the author,
    [PermissionDenied] for any other authenticated user. *)
Lemma update_as_view_guarded models upper request pk r u w :
  user request = Authenticated u ->
  SingleObjectMixin_get_object models pk w = (inr r, w) ->
  RecipeUpdateView.as_view models upper request pk w
  = if user_id u =? author r
    then RecipeUpdateView.handlers models upper request pk w
    else (inl PermissionDenied, w).
Proof.
  intros Hu Hobj.
  unfold RecipeUpdateView.as_view, LoginRequiredMixin_dispatch,
    UserPassesTestMixin_dispatch, handle_no_permission.
  rewrite Hu. cbn [is_authenticated negb]. unfold bind at 1.
  rewrite (update_test_func_run _ _ _ _ _ _ Hu Hobj).
  now destruct (user_id u =? author r).
Qed.

Lemma delete_as_view_guarded models request pk r u w :
  user request = Authenticated u ->
  SingleObjectMixin_get_object models pk w = (inr r, w) ->
  RecipeDeleteView.as_view models request pk w
  = if user_id u =? author r
    then RecipeDeleteView.handlers models request pk w
    else (inl PermissionDenied, w).
Proof.
  intros Hu Hobj.
  unfold RecipeDeleteView.as_view, LoginRequiredMixin_dispatch,
    UserPassesTestMixin_dispatch, handle_no_permission.
  rewrite Hu. cbn [is_authenticated negb]. unfold bind at 1.
  rewrite (delete_test_func_run _ _ _ _ _ _ Hu Hobj).
  now destruct (user_id u =? author r).
Qed.

(** C1.  For a recipe [r] and an authenticated user [u], the guards of the
    update and delete views answer whether [u] is the author of [r]; the
    request is refused with [PermissionDenied] exactly when [u] is not the
    author, and a refused request leaves the world, and so the recipe, as it
    was. *)
Theorem update_delete_permitted_iff_author
  (models : ModelsPy) (upper : string -> string) (w : World)
  (request : Request) (pk : Z) (r : Recipe) (u : User) :
  user request = Authenticated u ->
  SingleObjectMixin_get_object models pk w = (inr r, w) ->
  RecipeUpdateView.test_func request
    (SingleObjectMixin_get_object models pk) w
  = (inr (user_id u =? author r), w) /\
  RecipeDeleteView.test_func request
    (SingleObjectMixin_get_object models pk) w
  = (inr (user_id u =? author r), w) /\
  (fst (RecipeUpdateView.as_view models upper request pk w)
   = inl PermissionDenied <-> user_id u <> author r) /\
  (fst (RecipeDeleteView.as_view models request pk w)
   = inl PermissionDenied <-> user_id u <> author r) /\
  (user_id u <> author r ->
   RecipeUpdateView.as_view models upper request pk w
   = (inl PermissionDenied, w) /\
   RecipeDeleteView.as_view models request pk w
   = (inl PermissionDenied, w)).
Proof.
  intros Hu Hobj.
  split; [now apply update_test_func_run|].
  split; [now apply delete_test_func_run|].
  rewrite (update_as_view_guarded models upper request pk r u w Hu Hobj).
  rewrite (delete_as_view_guarded models request pk r u w Hu Hobj).
  pose proof (update_handler_not_denied models upper request pk r u w Hu Hobj)
    as Hnu.
  pose proof (delete_handler_not_denied models request pk r w Hobj) as Hnd.
  destruct (Z.eqb_spec (user_id u) (author r)) as [Heq|Hne].
  - split; [split; [intros H; now apply Hnu in H|intros H; contradiction]|].
    split; [split; [intros H; now apply Hnd in H|intros H; contradiction]|].
    intros H. contradiction.
  - split; [split; [intros _; exact Hne|reflexivity]|].
    split; [split; [intros _; exact Hne|reflexivity]|].
    intros _. split; reflexivity.
Qed.

(** On the sample site bob asks to change and to remove alice's borsch:
    both requests are refused and the site is as before. *)
Lemma update_delete_permitted_iff_author_witness :
  RecipeUpdateView.test_func (post_by (Authenticated bob) sample_form)
    (SingleObjectMixin_get_object plain_models 1) sample_world
  = (inr false, sample_world) /\
  RecipeDeleteView.test_func (post_by (Authenticated bob) sample_form)
    (SingleObjectMixin_get_object plain_models 1) sample_world
  = (inr false, sample_world) /\
  RecipeUpdateView.as_view plain_models ascii_upper
    (post_by (Authenticated bob) sample_form) 1 sample_world
  = (inl PermissionDenied, sample_world) /\
  RecipeDeleteView.as_view plain_models
    (post_by (Authenticated bob) sample_form) 1 sample_world
  = (inl PermissionDenied, sample_world).
Proof.
  destruct (update_delete_permitted_iff_author plain_models ascii_upper
              sample_world (post_by (Authenticated bob) sample_form)
              1 borsch bob eq_refl eq_refl)
    as (Hup & Hdel & _ & _ & Hdenied).
  split; [exact Hup|]. split; [exact Hdel|].
  apply Hdenied. discriminate.
Defined.

(** ** Forms: what a client can and cannot set *)

Ltac setattr_cases f :=
  repeat match goal with
         | |- context [String.eqb f ?s] => destruct (String.eqb_spec f s)
         end.

Lemma Recipe_setattr_author r f v r' :
  Recipe_setattr r f v = Some r' -> f <> "author" -> author r' = author r.
Proof.
  unfold Recipe_setattr. intros H Hf.
  destruct v; revert H; setattr_cases f; intros H;
    try discriminate; try contradiction; now injection H as <-.
Qed.

Lemma Recipe_setattr_id r f v r' :
  Recipe_setattr r f v = Some r' -> f <> "id" -> id r' = id r.
Proof.
  unfold Recipe_setattr. intros H Hf.
  destruct v; revert H; setattr_cases f; intros H;
    try discriminate; try contradiction; now injection H as <-.
Qed.

Lemma construct_instance_author cleaned fields inst :
  ~ In "author" fields ->
  author (construct_instance cleaned fields inst) = author inst.
Proof.
  revert inst. induction fields as [|f fields IH]; intros inst Hnot;
    simpl; [reflexivity|].
  rewrite IH by (intros H; apply Hnot; now right).
  destruct (QueryDict_get f cleaned) as [v|]; [|reflexivity].
  destruct (Recipe_setattr inst f v) as [i|] eqn:E; [|reflexivity].
  apply (Recipe_setattr_author _ _ _ _ E).
  intros ->. apply Hnot. now left.
Qed.

Lemma construct_instance_id cleaned fields inst :
  ~ In "id" fields ->
  id (construct_instance cleaned fields inst) = id inst.
Proof.
  revert inst. induction fields as [|f fields IH]; intros inst Hnot;
    simpl; [reflexivity|].
  rewrite IH by (intros H; apply Hnot; now right).
  destruct (QueryDict_get f cleaned) as [v|]; [|reflexivity].
  destruct (Recipe_setattr inst f v) as [i|] eqn:E; [|reflexivity].
  apply (Recipe_setattr_id _ _ _ _ E).
  intros ->. apply Hnot. now left.
Qed.

(** The form reads the submitted data at its own fields only. *)
Lemma clean_fields_ext models choices fields data data' inst :
  (forall f, In f fields -> QueryDict_get f data' = QueryDict_get f data) ->
  clean_fields models choices fields data' inst
  = clean_fields models choices fields data inst.
Proof.
  induction fields as [|f fields IH]; intros H; simpl; [reflexivity|].
  rewrite IH by (intros g Hg; apply H; now right).
  now rewrite (H f (or_introl eq_refl)).
Qed.

Lemma get_form_ext models choices fields data data' inst :
  (forall f, In f fields -> QueryDict_get f data' = QueryDict_get f data) ->
  get_form models choices fields data' inst
  = get_form models choices fields data inst.
Proof.
  intros H. unfold get_form. now rewrite (clean_fields_ext _ _ _ _ _ _ H).
Qed.

(** [cleaned_data] has keys among the fields of the form only. *)
Lemma clean_fields_keys models choices fields data inst cleaned ok f :
  clean_fields models choices fields data inst = (cleaned, ok) ->
  QueryDict_get f cleaned <> None -> In f fields.
Proof.
  revert cleaned ok. induction fields as [|f0 fields IH];
    intros cleaned ok; simpl.
  - intros [= <- _] H. now contradiction H.
  - destruct (clean_fields models choices fields data inst)
      as [cleaned' ok'].
    specialize (IH cleaned' ok' eq_refl).
    destruct (Field_clean models choices inst f0 (QueryDict_get f0 data))
      as [v0|]; intros [= <- _]; [|intros H; right; now apply IH].
    simpl. destruct (QueryDict_get f cleaned') as [v'|].
    + intros _. right. now apply IH.
    + destruct (String.eqb_spec f f0) as [->|_]; [now left|].
      intros H. now contradiction H.
Qed.

(** In a form without errors every field has its cleaned value. *)
Lemma clean_fields_valid models choices fields data inst cleaned :
  clean_fields models choices fields data inst = (cleaned, true) ->
  forall f, In f fields ->
    QueryDict_get f cleaned <> None /\
    QueryDict_get f cleaned
    = Field_clean models choices inst f (QueryDict_get f data).
Proof.
  revert cleaned. induction fields as [|f0 fields IH]; intros cleaned; simpl.
  - intros _ f [].
  - destruct (clean_fields models choices fields data inst)
      as [cleaned' ok'] eqn:E.
    destruct (Field_clean models choices inst f0 (QueryDict_get f0 data))
      as [v0|] eqn:E0; [|intros [= _ H]; discriminate H].
    intros [= <- ->]. intros f Hf. simpl.
    destruct (QueryDict_get f cleaned') as [v'|] eqn:Ec.
    + assert (Hin : In f fields)
        by (apply (clean_fields_keys _ _ _ _ _ _ _ f E); now rewrite Ec).
      destruct (IH cleaned' eq_refl f Hin) as [_ <-].
      now rewrite Ec.
    + destruct Hf as [->|Hf].
      * rewrite String.eqb_refl. now rewrite E0.
      * destruct (IH cleaned' eq_refl f Hf) as [H _]. now contradiction H.
Qed.

(** The title a form cleans: the submitted text, stripped. *)
Lemma Field_clean_title models choices inst data v :
  Field_clean models choices inst "title" data = Some v ->
  v = VStr (str_strip (match data with
                       | Some (VStr s) => s
                       | _ => ""
                       end)).
Proof.
  unfold Field_clean. cbn [Recipe_formfield String.eqb Ascii.eqb Bool.eqb].
  unfold CharField_clean.
  destruct data as [[s|n|b]|]; try discriminate;
    match goal with
    | |- context [String.eqb ?t ""] =>
        destruct (String.eqb_spec t "") as [->|_]
    end;
    repeat match goal with
           | |- context [if ?b then _ else _] => destruct b
           end;
    intros [= <-]; reflexivity.
Qed.

Lemma valid_form_title models choices fields data inst :
  In "title" fields ->
  is_valid (get_form models choices fields data inst) = true ->
  QueryDict_get "title"
    (cleaned_data (get_form models choices fields data inst))
  = Some (VStr (str_strip (submitted "title" data))).
Proof.
  unfold get_form. intros Hin.
  destruct (clean_fields models choices fields data inst)
    as [cleaned ok] eqn:E.
  cbn [is_valid cleaned_data]. intros ->.
  destruct (clean_fields_valid _ _ _ _ _ _ E _ Hin) as [Hsome Hclean].
  destruct (QueryDict_get "title" cleaned) as [v|]; [|now contradiction Hsome].
  symmetry in Hclean. apply Field_clean_title in Hclean. now subst v.
Qed.

Lemma fields_without_author : ~ In "author" RecipeCreateView.fields.
Proof. simpl. intuition discriminate. Qed.

Lemma fields_without_id : ~ In "id" RecipeCreateView.fields.
Proof. simpl. intuition discriminate. Qed.

Lemma fields_with_title : In "title" RecipeCreateView.fields.
Proof. simpl. now left. Qed.

Lemma fields_without_created_date :
  ~ In "created_date" RecipeUpdateView.fields.
Proof. simpl. intuition discriminate. Qed.

Lemma Recipe_setattr_created_date r f v r' :
  Recipe_setattr r f v = Some r' -> f <> "created_date" ->
  created_date r' = created_date r.
Proof.
  unfold Recipe_setattr. intros H Hf.
  destruct v; revert H; setattr_cases f; intros H;
    try discriminate; try contradiction; now injection H as <-.
Qed.

Lemma construct_instance_created_date cleaned fields inst :
  ~ In "created_date" fields ->
  created_date (construct_instance cleaned fields inst) = created_date inst.
Proof.
  revert inst. induction fields as [|f fields IH]; intros inst Hnot;
    simpl; [reflexivity|].
  rewrite IH by (intros H; apply Hnot; now right).
  destruct (QueryDict_get f cleaned) as [v|]; [|reflexivity].
  destruct (Recipe_setattr inst f v) as [i|] eqn:E; [|reflexivity].
  apply (Recipe_setattr_created_date _ _ _ _ E).
  intros ->. apply Hnot. now left.
Qed.

(** The form of the create view: its instance is not saved yet, and when
    the form is valid its cleaned title is the submitted title, stripped. *)
Lemma create_form_facts models w request :
  id (instance (create_form models w request)) = None /\
  (is_valid (create_form models w request) = true ->
   QueryDict_get "title" (cleaned_data (create_form models w request))
   = Some (VStr (cleaned_title request))).
Proof.
  split.
  - unfold create_form, get_form.
    destruct (clean_fields _ _ _ _ _) as [cleaned ok]. cbn [instance].
    now rewrite construct_instance_id by apply fields_without_id.
  - unfold create_form. apply valid_form_title, fields_with_title.
Qed.

(** The form of the update view: its instance keeps the key, the author and
    the creation date of the recipe. *)
Lemma update_form_facts models w request r0 :
  id (instance (update_form models w request r0)) = id r0 /\
  author (instance (update_form models w request r0)) = author r0 /\
  created_date (instance (update_form models w request r0))
  = created_date r0 /\
  (is_valid (update_form models w request r0) = true ->
   QueryDict_get "title" (cleaned_data (update_form models w request r0))
   = Some (VStr (cleaned_title request))).
Proof.
  split; [|split; [|split]];
    [| | |unfold update_form; apply valid_form_title, fields_with_title];
    unfold update_form, get_form;
    destruct (clean_fields _ _ _ _ _) as [cleaned ok]; cbn [instance].
  - now rewrite construct_instance_id by apply fields_without_id.
  - now rewrite construct_instance_author by apply fields_without_author.
  - now rewrite construct_instance_created_date
      by apply fields_without_created_date.
Qed.

(** What a create request that ends in a redirect has done: the form was
    valid, and one row was appended, with a fresh key, the upper-cased
    cleaned title and the requesting user as author. *)
Lemma create_redirect_inv models upper request u w url w' :
  user request = Authenticated u ->
  RecipeCreateView.as_view models upper request w
  = (inr (HttpResponseRedirect url), w') ->
  is_valid (create_form models w request) = true /\
  exists r,
    recipes w' = (recipes w ++ [r])%list /\
    id r = Some (next_pk w) /\
    title r = upper (cleaned_title request) /\
    author r = user_id u.
Proof.
  intros Hu.
  unfold RecipeCreateView.as_view, LoginRequiredMixin_dispatch.
  rewrite Hu. cbn [is_authenticated negb].
  destruct (method request) eqn:Hmethod;
    [unfold RecipeCreateView.handlers, View_dispatch; rewrite Hmethod;
     intros H; cbv in H; discriminate H
    | |unfold RecipeCreateView.handlers, View_dispatch; rewrite Hmethod;
       intros H; discriminate H..].
  rewrite (create_post_run models upper request w Hmethod).
  destruct (create_form_facts models w request) as [Hid Htitle].
  set (t := cleaned_title request) in *.
  destruct (create_form models w request) as [cleaned ok inst].
  cbn [is_valid cleaned_data instance] in *.
  destruct ok; [|intros H; cbv in H; discriminate H].
  specialize (Htitle eq_refl).
  unfold RecipeCreateView.form_valid, RecipeCreateView.form_valid_try,
    assign_author, assign_upper_title, ModelFormMixin_form_valid, Model_save.
  rewrite Hu. run_view. cbn [is_valid cleaned_data instance].
  rewrite Htitle. cbv beta iota zeta.
  destruct (write_fault w); [intros H; discriminate H|].
  simpl. rewrite Hid. intros H. injection H as _ <-.
  split; [reflexivity|]. eexists. repeat split.
Qed.

(** ** Create and update *)

Lemma get_object_cases models pk w :
  (exists e, SingleObjectMixin_get_object models pk w = (inl e, w)) \/
  (exists r, SingleObjectMixin_get_object models pk w = (inr r, w)).
Proof.
  unfold SingleObjectMixin_get_object, Recipe_objects_filter, bind, gets.
  destruct (filter (pk_is pk) (Recipe_Meta_ordering models (recipes w)))
    as [|x [|y rows]]; simpl;
    [left|right|left]; eexists; reflexivity.
Qed.

Lemma pk_is_id pk r : pk_is pk r = true <-> id r = Some pk.
Proof.
  unfold pk_is. destruct (id r) as [k|]; [|split; discriminate].
  rewrite Z.eqb_eq. split; congruence.
Qed.

(** The object of a single-object view is a stored row, the only one with
    its key. *)
Lemma get_object_stored models pk w r w0 :
  reorders models ->
  SingleObjectMixin_get_object models pk w = (inr r, w0) ->
  In r (recipes w) /\ id r = Some pk /\
  forall x, In x (recipes w) -> id x = Some pk -> x = r.
Proof.
  intros Hperm Hobj. apply get_object_found in Hobj.
  assert (Hmem : forall x, In x [r] <-> In x (recipes w) /\ pk_is pk x = true).
  { intros x. rewrite <- Hobj, filter_In. split; intros [H ?]; split; trivial.
    - now apply (Permutation_in _ (Hperm _)).
    - apply (Permutation_in _ (Permutation_sym (Hperm _))), H. }
  destruct (proj1 (Hmem r) (or_introl eq_refl)) as [Hin Hpk].
  split; [exact Hin|]. split; [now apply pk_is_id|].
  intros x Hx Hid.
  destruct (proj2 (Hmem x) (conj Hx (proj2 (pk_is_id pk x) Hid))) as [<-|[]].
  reflexivity.
Qed.

Lemma update_form_valid_run models upper request u w f t pk :
  user request = Authenticated u ->
  QueryDict_get "title" (cleaned_data f) = Some (VStr t) ->
  id (instance f) = Some pk ->
  existsb (pk_is pk) (recipes w) = true ->
  RecipeUpdateView.form_valid upper request
    (ModelFormMixin_form_valid models) f w
  = let inst := set_title (upper t) (set_author u (instance f)) in
    match write_fault w with
    | Some msg =>
        (inl (DatabaseError msg),
         add_log (ERROR ("An error occurred in RecipeUpdateView: " ++ msg)) w)
    | None =>
        (inr (HttpResponseRedirect (Recipe_get_absolute_url models inst)),
         add_message (SUCCESS "Рецепт успешно изменен.")
           (set_recipes (map (fun x => if pk_is pk x then inst else x)
                             (recipes w)) w))
    end.
Proof.
  intros Hu Ht Hid Hex.
  unfold RecipeUpdateView.form_valid, RecipeUpdateView.form_valid_try,
    assign_author, assign_upper_title, ModelFormMixin_form_valid, Model_save.
  rewrite Hu. run_view. cbn [is_valid cleaned_data instance].
  rewrite Ht. cbv beta iota zeta.
  destruct (write_fault w); [reflexivity|].
  simpl. rewrite Hid, Hex. reflexivity.
Qed.

(** A POST of the author to the update view with a valid form: the row of
    the key is replaced by the form's instance, with the upper-cased cleaned
    title and the requesting user as author, unless the database refuses
    the write. *)
Lemma update_valid_post_run models upper request pk r0 u w :
  reorders models ->
  user request = Authenticated u ->
  method request = HTTP_POST ->
  SingleObjectMixin_get_object models pk w = (inr r0, w) ->
  user_id u = author r0 ->
  is_valid (update_form models w request r0) = true ->
  exists r,
    id r = Some pk /\
    title r = upper (cleaned_title request) /\
    author r = author r0 /\
    created_date r = created_date r0 /\
    RecipeUpdateView.as_view models upper request pk w
    = match write_fault w with
      | Some msg =>
          (inl (DatabaseError msg),
           add_log (ERROR ("An error occurred in RecipeUpdateView: " ++ msg))
                   w)
      | None =>
          (inr (HttpResponseRedirect (Recipe_get_absolute_url models r)),
           add_message (SUCCESS "Рецепт успешно изменен.")
             (set_recipes (map (fun x => if pk_is pk x then r else x)
                               (recipes w)) w))
      end.
Proof.
  intros Hperm Hu Hpost Hobj Hguard.
  rewrite (update_as_view_guarded models upper request pk r0 u w Hu Hobj).
  rewrite Hguard, Z.eqb_refl.
  destruct (get_object_stored models pk w r0 w Hperm Hobj) as (Hin & Hid & _).
  rewrite (update_post_run models upper request pk r0 w Hpost Hobj).
  destruct (update_form_facts models w request r0)
    as (Hfid & Hfauthor & Hfdate & Htitle).
  rewrite Hid in Hfid.
  set (t := cleaned_title request) in *.
  destruct (update_form models w request r0) as [cleaned ok inst].
  cbn [is_valid cleaned_data instance] in *.
  intros ->. specialize (Htitle eq_refl).
  assert (Hex : existsb (pk_is pk) (recipes w) = true).
  { apply existsb_exists. exists r0. split; [exact Hin|now apply pk_is_id]. }
  rewrite (update_form_valid_run models upper request u w
             (mkModelForm cleaned true inst) t pk Hu Htitle Hfid Hex).
  cbn [instance]. cbv zeta.
  exists (set_title (upper t) (set_author u inst)).
  split; [exact Hfid|]. split; [reflexivity|].
  split; [simpl; exact Hguard|]. split; [exact Hfdate|]. reflexivity.
Qed.

(** The outcomes of an update request of the author: either no recipe
    changes and the response is not a redirect, or the form was valid and
    the row of the key is replaced by the form's instance, with the
    upper-cased cleaned title and the requesting user as author. *)
Lemma update_by_author_outcome models upper request pk r u w :
  reorders models ->
  user request = Authenticated u ->
  SingleObjectMixin_get_object models pk w = (inr r, w) ->
  user_id u = author r ->
  let res := RecipeUpdateView.as_view models upper request pk w in
  (recipes (snd res) = recipes w /\
   forall url, fst res <> inr (HttpResponseRedirect url)) \/
  (exists inst,
     id inst = Some pk /\ title inst = upper (cleaned_title request) /\
     author inst = user_id u /\ created_date inst = created_date r /\
     recipes (snd res)
     = map (fun x => if pk_is pk x then inst else x) (recipes w)).
Proof.
  intros Hperm Hu Hobj Hguard res. unfold res. clear res.
  destruct (method request) eqn:Hmethod;
    [| |rewrite (update_as_view_guarded models upper request pk r u w Hu
                   Hobj), Hguard, Z.eqb_refl;
        unfold RecipeUpdateView.handlers, View_dispatch; rewrite Hmethod;
        left; cbv; split; [reflexivity|intros url H; discriminate H]..].
  - rewrite (update_as_view_guarded models upper request pk r u w Hu Hobj).
    rewrite Hguard, Z.eqb_refl.
    unfold RecipeUpdateView.handlers, View_dispatch. rewrite Hmethod.
    left. unfold bind. rewrite Hobj. cbv.
    split; [reflexivity|intros url H; discriminate H].
  - destruct (is_valid (update_form models w request r)) eqn:Hvalid.
    + destruct (update_valid_post_run models upper request pk r u w
                  Hperm Hu Hmethod Hobj Hguard Hvalid)
        as (inst & Hid & Htitle & Hauthor & Hdate & ->).
      destruct (write_fault w).
      * left. split; [reflexivity|intros url H; discriminate H].
      * right. exists inst. rewrite Hguard. now repeat split.
    + rewrite (update_as_view_guarded models upper request pk r u w Hu
                 Hobj), Hguard, Z.eqb_refl.
      rewrite (update_post_run models upper request pk r w Hmethod Hobj).
      rewrite Hvalid. generalize (update_form models w request r).
      intros f. left. cbv.
      split; [reflexivity|intros url H; discriminate H].
Qed.

(** A create request with a valid form: the new row and the response,
    unless the database refuses the write. *)
Lemma create_valid_run models upper request u w :
  user request = Authenticated u ->
  method request = HTTP_POST ->
  is_valid (create_form models w request) = true ->
  exists r,
    id r = Some (next_pk w) /\
    title r = upper (cleaned_title request) /\
    author r = user_id u /\
    RecipeCreateView.as_view models upper request w
    = match write_fault w with
      | Some msg =>
          (inl (DatabaseError msg),
           add_message
             (ERROR_MESSAGE "Произошла ошибка при сохранении рецепта.")
             (add_log (ERROR ("An error occurred in RecipeCreateView: "
                              ++ msg)) w))
      | None =>
          (inr (HttpResponseRedirect (Recipe_get_absolute_url models r)),
           add_message (SUCCESS "Рецепт успешно добавлен.")
             (insert_recipe r (next_pk w) w))
      end.
Proof.
  intros Hu Hpost.
  unfold RecipeCreateView.as_view, LoginRequiredMixin_dispatch.
  rewrite Hu. cbn [is_authenticated negb].
  rewrite (create_post_run models upper request w Hpost).
  destruct (create_form_facts models w request) as [Hid Htitle].
  set (t := cleaned_title request) in *.
  destruct (create_form models w request) as [cleaned ok inst].
  cbn [is_valid cleaned_data instance] in *.
  intros ->. specialize (Htitle eq_refl).
  unfold RecipeCreateView.form_valid, RecipeCreateView.form_valid_try,
    assign_author, assign_upper_title, ModelFormMixin_form_valid, Model_save.
  rewrite Hu. run_view. cbn [is_valid cleaned_data instance].
  rewrite Htitle. cbv beta iota zeta.
  destruct (write_fault w).
  - exists (mkRecipe (Some (next_pk w)) (upper t) 0 "" "" "" 0 false "" 0
                     (user_id u)).
    now repeat split.
  - simpl. rewrite Hid. eexists. repeat split; reflexivity.
Qed.

(** C2.  Every create request that succeeds has stored one new recipe
    whose author is the requesting user, and a request with a valid form
    does succeed so when the database accepts the write; [author] is not a
    field of the create form nor of the update form, and what the client
    submits under keys that are not fields of the form, [author] among
    them, has no effect on the request. *)
Theorem create_author_is_requesting_user
  (models : ModelsPy) (upper : string -> string) (w : World)
  (request : Request) (u : User) :
  user request = Authenticated u ->
  (forall url w',
     RecipeCreateView.as_view models upper request w
     = (inr (HttpResponseRedirect url), w') ->
     exists r, recipes w' = (recipes w ++ [r])%list /\
               author r = user_id u) /\
  (method request = HTTP_POST ->
   write_fault w = None ->
   is_valid (create_form models w request) = true ->
   exists r url w',
     RecipeCreateView.as_view models upper request w
     = (inr (HttpResponseRedirect url), w') /\
     recipes w' = (recipes w ++ [r])%list /\ author r = user_id u) /\
  ~ In "author" RecipeCreateView.fields /\
  ~ In "author" RecipeUpdateView.fields /\
  (forall data',
     (forall f, In f RecipeCreateView.fields ->
                QueryDict_get f data' = QueryDict_get f (POST request)) ->
     RecipeCreateView.as_view models upper (with_POST request data') w
     = RecipeCreateView.as_view models upper request w).
Proof.
  intros Hu. split.
  { intros url w' Hrun.
    destruct (create_redirect_inv models upper request u w url w' Hu Hrun)
      as (_ & r & Hrows & _ & _ & Hauthor).
    now exists r. }
  split.
  { intros Hpost Hdb Hvalid.
    destruct (create_valid_run models upper request u w Hu Hpost Hvalid)
      as (r & _ & _ & Hauthor & Hrun).
    rewrite Hdb in Hrun.
    exists r. eexists. eexists. split; [exact Hrun|]. now split. }
  split; [apply fields_without_author|].
  split; [apply fields_without_author|].
  intros data' Hsame.
  unfold RecipeCreateView.as_view, LoginRequiredMixin_dispatch,
    handle_no_permission.
  cbn [with_POST user].
  destruct (is_authenticated (user request)); cbn [negb]; [|reflexivity].
  unfold RecipeCreateView.handlers, View_dispatch.
  cbn [with_POST method].
  destruct (method request); try reflexivity.
  unfold bind, gets. rewrite !ProcessFormView_post_run.
  cbn [with_POST POST].
  now rewrite (get_form_ext _ _ _ _ _ _ Hsame).
Qed.

(** On the sample site alice submits a form that carries bob's key under
    [author]; the recipe is stored with alice as author. *)
Lemma create_author_is_requesting_user_witness :
  (exists r,
     recipes (snd (RecipeCreateView.as_view plain_models ascii_upper
                     (post_by (Authenticated alice) sample_form)
                     sample_world))
     = (recipes sample_world ++ [r])%list /\ author r = user_id alice) /\
  (exists r url w',
     RecipeCreateView.as_view plain_models ascii_upper
       (post_by (Authenticated alice) sample_form) sample_world
     = (inr (HttpResponseRedirect url), w') /\
     recipes w' = (recipes sample_world ++ [r])%list /\
     author r = user_id alice) /\
  QueryDict_get "author" sample_form = Some (VInt (user_id bob)).
Proof.
  destruct (create_author_is_requesting_user plain_models ascii_upper
              sample_world (post_by (Authenticated alice) sample_form) alice
              eq_refl)
    as (Hdone & Hrun & _).
  split; [|split].
  - apply (Hdone (recipe_detail 4)). vm_compute. reflexivity.
  - apply Hrun; vm_compute; reflexivity.
  - reflexivity.
Defined.

(** C7.  An update request that passes the ownership guard leaves the
    author of every stored recipe as it was: the handler assigns the
    requesting user, who is the author already. *)
Theorem update_preserves_author
  (models : ModelsPy) (upper : string -> string) (w : World)
  (request : Request) (pk : Z) (r : Recipe) (u : User) :
  reorders models ->
  user request = Authenticated u ->
  SingleObjectMixin_get_object models pk w = (inr r, w) ->
  Model_eq (user request) (author r) = true ->
  authors (snd (RecipeUpdateView.as_view models upper request pk w))
  = authors w.
Proof.
  intros Hperm Hu Hobj Hguard.
  rewrite Hu in Hguard. simpl in Hguard. apply Z.eqb_eq in Hguard.
  destruct (get_object_stored models pk w r w Hperm Hobj)
    as (Hin & Hid & Huniq).
  destruct (update_by_author_outcome models upper request pk r u w
              Hperm Hu Hobj Hguard)
    as [[Hsame _]|(inst & Hiid & _ & Hauthor & _ & Hrows)];
    unfold authors.
  - now rewrite Hsame.
  - rewrite Hrows, map_map. apply map_ext_in. intros x Hx.
    destruct (pk_is pk x) eqn:Hpk; [|reflexivity].
    apply pk_is_id in Hpk. rewrite (Huniq x Hx Hpk).
    now rewrite Hiid, Hid, Hauthor, Hguard.
Qed.

(** On the sample site alice edits her borsch. *)
Lemma update_preserves_author_witness :
  authors (snd (RecipeUpdateView.as_view plain_models ascii_upper
                  (post_by (Authenticated alice) sample_form) 1
                  sample_world))
  = authors sample_world.
Proof.
  apply (update_preserves_author plain_models ascii_upper sample_world
           (post_by (Authenticated alice) sample_form) 1 borsch alice).
  - intros rows. reflexivity.
  - reflexivity.
  - vm_compute. reflexivity.
  - vm_compute. reflexivity.
Defined.

(** ** Text: stripping and upper-casing *)

Lemma string_forall_impl (p q : Ascii.ascii -> bool) s :
  (forall c, p c = true -> q c = true) ->
  string_forall p s = true -> string_forall q s = true.
Proof.
  intros Hpq. induction s as [|c s IH]; simpl; [reflexivity|].
  intros H. apply andb_true_iff in H. destruct H as [Hc Hs].
  now rewrite (Hpq c Hc), (IH Hs).
Qed.

Lemma string_forall_list p s :
  string_forall p s = forallb p (list_ascii_of_string s).
Proof. induction s as [|c s IH]; simpl; [reflexivity|now rewrite IH]. Qed.

Lemma forallb_rev {A} (p : A -> bool) l : forallb p (rev l) = forallb p l.
Proof.
  induction l as [|a l IH]; simpl; [reflexivity|].
  rewrite forallb_app, IH. simpl. rewrite andb_true_r. apply andb_comm.
Qed.

Lemma string_forall_rev p s :
  string_forall p (string_rev s) = string_forall p s.
Proof.
  unfold string_rev.
  now rewrite !string_forall_list, list_ascii_of_string_of_list_ascii,
    forallb_rev.
Qed.

Lemma string_rev_involutive s : string_rev (string_rev s) = s.
Proof.
  unfold string_rev.
  now rewrite list_ascii_of_string_of_list_ascii, rev_involutive,
    string_of_list_ascii_of_string.
Qed.

(** Stripping drops bytes from an end and changes none. *)
Lemma strip_front_forall p backwards s :
  string_forall p s = true ->
  string_forall p (strip_front backwards s) = true.
Proof.
  assert (H : forall n s, (String.length s <= n)%nat ->
                string_forall p s = true ->
                string_forall p (strip_front backwards s) = true).
  { induction n as [|n IH]; intros s0 Hlen Hs.
    - destruct s0; [exact Hs|simpl in Hlen; lia].
    - destruct s0 as [|a s1]; [exact Hs|].
      cbn [strip_front].
      simpl in Hs. apply andb_true_iff in Hs. destruct Hs as [Ha Hs1].
      destruct (isspace1 (ord a)).
      + apply IH; [simpl in Hlen; lia|exact Hs1].
      + destruct s1 as [|b s2]; [simpl; now rewrite Ha|].
        simpl in Hs1. apply andb_true_iff in Hs1. destruct Hs1 as [Hb Hs2].
        destruct (if backwards then _ else _).
        * apply IH; [simpl in Hlen; lia|exact Hs2].
        * destruct s2 as [|c s3]; [simpl; now rewrite Ha, Hb|].
          simpl in Hs2. apply andb_true_iff in Hs2.
          destruct Hs2 as [Hc Hs3].
          destruct (if backwards then _ else _).
          -- apply IH; [simpl in Hlen; lia|exact Hs3].
          -- simpl. now rewrite Ha, Hb, Hc, Hs3. }
  apply (H (String.length s)). apply Nat.le_refl.
Qed.

Lemma str_strip_forall p s :
  string_forall p s = true -> string_forall p (str_strip s) = true.
Proof.
  intros H. unfold str_strip. rewrite string_forall_rev.
  apply strip_front_forall. rewrite string_forall_rev.
  now apply strip_front_forall.
Qed.

Lemma solid_char_bounds c :
  solid_char c = true -> (33 <= ord c < 128)%nat.
Proof.
  unfold solid_char. intros H. apply andb_true_iff in H.
  destruct H as [H1 H2]. apply Nat.leb_le in H1. apply Nat.ltb_lt in H2.
  lia.
Qed.

Lemma isspace1_solid n : (33 <= n)%nat -> isspace1 n = false.
Proof.
  intros H. unfold isspace1.
  destruct (Nat.leb_spec 9 n), (Nat.leb_spec n 13), (Nat.leb_spec 28 n),
    (Nat.leb_spec n 32); simpl; try reflexivity; lia.
Qed.

Lemma isspace2_fst n m : (n < 128)%nat -> isspace2 n m = false.
Proof.
  intros H. unfold isspace2. destruct (Nat.eqb_spec n 194); [lia|reflexivity].
Qed.

Lemma isspace2_snd n m : (m < 128)%nat -> isspace2 n m = false.
Proof.
  intros H. unfold isspace2.
  destruct (Nat.eqb_spec m 133), (Nat.eqb_spec m 160); lia.
Qed.

Lemma isspace3_fst n m k : (n < 128)%nat -> isspace3 n m k = false.
Proof.
  intros H. unfold isspace3.
  destruct (Nat.eqb_spec n 225), (Nat.eqb_spec n 226), (Nat.eqb_spec n 227);
    try lia; reflexivity.
Qed.

Lemma isspace3_thd n m k : (k < 128)%nat -> isspace3 n m k = false.
Proof.
  intros H. unfold isspace3.
  destruct (Nat.eqb_spec k 128), (Nat.leb_spec 128 k), (Nat.eqb_spec k 168),
    (Nat.eqb_spec k 169), (Nat.eqb_spec k 175), (Nat.eqb_spec k 159);
    lia.
Qed.

(** Text that starts with a solid character has no white space in front,
    from whichever end it is read. *)
Lemma strip_front_solid backwards a s :
  solid_char a = true ->
  strip_front backwards (String a s) = String a s.
Proof.
  intros Ha. apply solid_char_bounds in Ha. cbn [strip_front].
  rewrite isspace1_solid by lia.
  destruct s as [|b s2]; [reflexivity|].
  replace (if backwards then isspace2 (ord b) (ord a)
           else isspace2 (ord a) (ord b)) with false
    by (destruct backwards;
        [now rewrite isspace2_snd by lia|now rewrite isspace2_fst by lia]).
  destruct s2 as [|c s3]; [reflexivity|].
  replace (if backwards then isspace3 (ord c) (ord b) (ord a)
           else isspace3 (ord a) (ord b) (ord c)) with false
    by (destruct backwards;
        [now rewrite isspace3_thd by lia|now rewrite isspace3_fst by lia]).
  reflexivity.
Qed.

(** A word is stripped of nothing. *)
Lemma str_strip_solid s :
  string_forall solid_char s = true -> str_strip s = s.
Proof.
  intros H. unfold str_strip.
  assert (Hfront : forall backwards s0,
            string_forall solid_char s0 = true ->
            strip_front backwards s0 = s0).
  { intros backwards [|a s0]; [reflexivity|]. simpl. intros H0.
    apply andb_true_iff in H0. now apply strip_front_solid. }
  rewrite (Hfront false s H).
  rewrite (Hfront true) by now rewrite string_forall_rev.
  apply string_rev_involutive.
Qed.

Lemma islower_solid c : islower_char c = true -> solid_char c = true.
Proof.
  unfold islower_char, solid_char. intros H. apply andb_true_iff in H.
  destruct H as [H1 H2]. apply Nat.leb_le in H1. apply Nat.leb_le in H2.
  apply andb_true_iff. split; [apply Nat.leb_le|apply Nat.ltb_lt]; lia.
Qed.

Lemma islower_isascii c :
  islower_char c = true -> Nat.ltb (ord c) 128 = true.
Proof.
  intros H. apply islower_solid, solid_char_bounds in H.
  apply Nat.ltb_lt. lia.
Qed.

(** Upper-casing a lower-case letter gives the upper-case letter that
    lower-cases back to it. *)
Lemma ascii_upper_letter c :
  islower_char c = true ->
  isupper_char (ascii_upper_char c) = true /\
  ascii_lower_char (ascii_upper_char c) = c.
Proof.
  destruct c as [[] [] [] [] [] [] [] []]; vm_compute; intros H;
    try discriminate H; split; reflexivity.
Qed.

Lemma ascii_upper_word s :
  string_forall islower_char s = true ->
  string_forall isupper_char (ascii_upper s) = true /\
  ascii_lower (ascii_upper s) = s.
Proof.
  induction s as [|c s IH]; simpl; [now split|].
  intros H. apply andb_true_iff in H. destruct H as [Hc Hs].
  destruct (ascii_upper_letter c Hc) as [Hup Hback].
  destruct (IH Hs) as [IH1 IH2].
  now rewrite Hup, IH1, Hback, IH2.
Qed.

(** [str.upper] on ASCII text. *)
Lemma str_upper_ascii unicode_upper s :
  isascii s = true -> str_upper unicode_upper s = ascii_upper s.
Proof. intros H. unfold str_upper. now rewrite H. Qed.

(** C6, as the code has it.  A create or update request whose form
    validates stores, when the database accepts the write, the upper-cased
    cleaned title: the submitted title without the white space at its two
    ends, which the form field strips, upper-cased by [str.upper]; it is
    the title of the new recipe on create and of the recipe of the key on
    update.  On ASCII text [str.upper] turns the letters a to z into A to Z
    and nothing else; in particular a submitted title of lower-case letters
    is stored as the same word in upper-case letters. *)
Theorem stored_title_is_upper_of_cleaned_title
  (models : ModelsPy) (unicode_upper : string -> string) (w : World)
  (request : Request) (u : User) :
  reorders models ->
  user request = Authenticated u ->
  method request = HTTP_POST ->
  write_fault w = None ->
  let upper := str_upper unicode_upper in
  let s := submitted "title" (POST request) in
  (is_valid (create_form models w request) = true ->
   exists r url w',
     RecipeCreateView.as_view models upper request w
     = (inr (HttpResponseRedirect url), w') /\
     recipes w' = (recipes w ++ [r])%list /\
     title r = upper (str_strip s)) /\
  (forall pk r0,
     SingleObjectMixin_get_object models pk w = (inr r0, w) ->
     Model_eq (user request) (author r0) = true ->
     is_valid (update_form models w request r0) = true ->
     exists r url w',
       RecipeUpdateView.as_view models upper request pk w
       = (inr (HttpResponseRedirect url), w') /\
       In r (recipes w') /\ id r = Some pk /\
       title r = upper (str_strip s) /\
       forall r', In r' (recipes w') -> id r' = Some pk ->
                  title r' = upper (str_strip s)) /\
  (isascii s = true -> upper (str_strip s) = ascii_upper (str_strip s)) /\
  (string_forall islower_char s = true ->
   str_strip s = s /\
   string_forall isupper_char (upper (str_strip s)) = true /\
   ascii_lower (upper (str_strip s)) = s).
Proof.
  intros Hperm Hu Hpost Hdb upper s. split; [|split; [|split]].
  - intros Hvalid.
    destruct (create_valid_run models upper request u w Hu Hpost Hvalid)
      as (r & _ & Htitle & _ & Hrun).
    rewrite Hdb in Hrun.
    exists r. eexists. eexists.
    split; [exact Hrun|]. now split.
  - intros pk r0 Hobj Hguard Hvalid.
    rewrite Hu in Hguard. simpl in Hguard. apply Z.eqb_eq in Hguard.
    destruct (get_object_stored models pk w r0 w Hperm Hobj)
      as (Hin & Hid & _).
    destruct (update_valid_post_run models upper request pk r0 u w
                Hperm Hu Hpost Hobj Hguard Hvalid)
      as (r & Hrid & Htitle & _ & _ & Hrun).
    rewrite Hdb in Hrun.
    exists r. eexists. eexists.
    split; [exact Hrun|]. cbn [recipes set_recipes add_message].
    split.
    { apply in_map_iff. exists r0.
      rewrite (proj2 (pk_is_id pk r0) Hid). now split. }
    split; [exact Hrid|]. split; [exact Htitle|].
    intros r' Hr' Hid'. apply in_map_iff in Hr'. destruct Hr' as (x & Hx & _).
    destruct (pk_is pk x) eqn:Hpk; [now subst r'|].
    subst r'. apply pk_is_id in Hid'. congruence.
  - intros Hascii. apply str_upper_ascii. now apply str_strip_forall.
  - intros Hlower.
    assert (Hstrip : str_strip s = s).
    { apply str_strip_solid.
      apply (string_forall_impl islower_char); [apply islower_solid|].
      exact Hlower. }
    rewrite Hstrip. split; [reflexivity|].
    unfold upper. rewrite str_upper_ascii.
    + now apply ascii_upper_word.
    + apply (string_forall_impl islower_char); [apply islower_isascii|].
      exact Hlower.
Qed.

(** On the sample site alice creates okroshka and retitles her borsch,
    typing the title with blanks around it: both are stored as OKROSHKA. *)
Lemma stored_title_is_upper_of_cleaned_title_witness :
  let upper := str_upper ascii_upper in
  (exists r url w',
     RecipeCreateView.as_view plain_models upper
       (post_by (Authenticated alice) padded_form) sample_world
     = (inr (HttpResponseRedirect url), w') /\
     recipes w' = (recipes sample_world ++ [r])%list /\
     title r = "OKROSHKA") /\
  (exists r url w',
     RecipeUpdateView.as_view plain_models upper
       (post_by (Authenticated alice) padded_form) 1 sample_world
     = (inr (HttpResponseRedirect url), w') /\
     In r (recipes w') /\ id r = Some 1 /\ title r = "OKROSHKA" /\
     forall r', In r' (recipes w') -> id r' = Some 1 ->
                title r' = "OKROSHKA").
Proof.
  destruct (stored_title_is_upper_of_cleaned_title plain_models ascii_upper
              sample_world (post_by (Authenticated alice) padded_form) alice
              (fun rows => Permutation_refl rows) eq_refl eq_refl eq_refl)
    as (Hcreate & Hupdate & _).
  split.
  - apply Hcreate. vm_compute. reflexivity.
  - apply (Hupdate 1 borsch); vm_compute; reflexivity.
Defined.

(** C6 as stated fails on the sample site: alice submits the title with
    blanks around it, the form strips them, and what is stored, OKROSHKA,
    is not the upper-cased submitted title, which has the blanks. *)
Lemma stored_title_is_upper_of_submitted_counterexample :
  ~ stored_title_is_upper_of_submitted plain_models (str_upper ascii_upper)
      sample_world (post_by (Authenticated alice) padded_form).
Proof.
  intros H.
  destruct (H (recipe_detail 4)
              (snd (RecipeCreateView.as_view plain_models
                      (str_upper ascii_upper)
                      (post_by (Authenticated alice) padded_form)
                      sample_world)))
    as (r & Hrows & Htitle).
  - vm_compute. reflexivity.
  - vm_compute in Hrows. injection Hrows as <-.
    vm_compute in Htitle. discriminate Htitle.
Qed.

Example lowercase_title_is_stored_uppercased :
  map title
    (recipes (snd (RecipeCreateView.as_view plain_models ascii_upper
                     (post_by (Authenticated alice) sample_form)
                     sample_world)))
  = ["BORSCH"; "SHCHI"; "CAKE"; "OKROSHKA"].
Proof. vm_compute. reflexivity. Qed.

Example white_space_is_stripped :
  map str_strip ["  okroshka "; "cold soup"; " "; ""]
  = ["okroshka"; "cold soup"; ""; ""].
Proof. vm_compute. reflexivity. Qed.

(** ** Deleting *)



(** ** Error handling *)

Create HintDb view_methods.
#[local] Hint Unfold
  RecipeListView.get_context_data
  UserRecipeListView.get_queryset UserRecipeListView.get_context_data
  RecipeByCategoryView.get_queryset RecipeByCategoryView.get_context_data
  RecipeDetailView.get_context_data
  RecipeCreateView.form_valid RecipeCreateView.form_invalid
  RecipeCreateView.get_context_data
  RecipeUpdateView.form_valid RecipeUpdateView.test_func
  RecipeUpdateView.get_context_data
  RecipeDeleteView.test_func RecipeDeleteView.delete
  RecipeDeleteView.get_context_data : view_methods.

Ltac wrapped_method :=
  let w := fresh "w" in
  let E := fresh "E" in
  intros w;
  match goal with
  | |- match ?body w with _ => _ end =>
      destruct (body w) as [[? | ?] ?] eqn:E
  end;
  autounfold with view_methods; unfold try_except; rewrite E; reflexivity.

Lemma logged_and_reraised_logs {A} view flash (body method : M A) :
  logged_and_reraised view flash body method -> logs_what_it_raises method.
Proof.
  intros H w e w' Hrun. specialize (H w).
  destruct (body w) as [[e0|a] w0]; rewrite H in Hrun; [|discriminate].
  injection Hrun as <- <-.
  destruct flash; eexists view, (log w0); reflexivity.
Qed.

Example about_renders_the_about_page :
  fst (about shortcuts_render sample_world)
  = inr (TemplateResponse "webapp/about.html"
           (mkContext [] false None None None None None (Some "О проекте"))).
Proof. reflexivity. Qed.

(** C8, as the code has it.  Every method that the class-based views
    override runs its body inside the logging [except] clause of its view:
    an exception raised in the body is logged and raised again unchanged,
    whatever the framework call that raised it; nothing is retried or
    undone.  The [form_valid] of the create view and [delete] record an
    error message as well. *)
Theorem overridden_methods_log_and_reraise
  (models : ModelsPy) (upper : string -> string) (request : Request)
  (name : string) (cid : Z) (f : ModelForm)
  (super_get_context_data : M Context)
  (super_form_valid super_form_invalid : ModelForm -> M HttpResponse)
  (get_object : M Recipe) (super_delete : M HttpResponse) :
  logged_and_reraised "RecipeListView" None
    (RecipeListView.get_context_data_try super_get_context_data)
    (RecipeListView.get_context_data super_get_context_data) /\
  logged_and_reraised "UserRecipeListView" None
    (UserRecipeListView.get_queryset_try models name)
    (UserRecipeListView.get_queryset models name) /\
  logged_and_reraised "UserRecipeListView" None
    (UserRecipeListView.get_context_data_try super_get_context_data)
    (UserRecipeListView.get_context_data super_get_context_data) /\
  logged_and_reraised "RecipeByCategoryView" None
    (RecipeByCategoryView.get_queryset_try models cid)
    (RecipeByCategoryView.get_queryset models cid) /\
  logged_and_reraised "RecipeByCategoryView" None
    (RecipeByCategoryView.get_context_data_try cid super_get_context_data)
    (RecipeByCategoryView.get_context_data cid super_get_context_data) /\
  logged_and_reraised "RecipeDetailView" None
    (RecipeDetailView.get_context_data_try super_get_context_data)
    (RecipeDetailView.get_context_data super_get_context_data) /\
  logged_and_reraised "RecipeCreateView"
    (Some (ERROR_MESSAGE "Произошла ошибка при сохранении рецепта."))
    (RecipeCreateView.form_valid_try upper request super_form_valid f)
    (RecipeCreateView.form_valid upper request super_form_valid f) /\
  logged_and_reraised "RecipeCreateView" None
    (RecipeCreateView.form_invalid_try super_form_invalid f)
    (RecipeCreateView.form_invalid super_form_invalid f) /\
  logged_and_reraised "RecipeCreateView" None
    (RecipeCreateView.get_context_data_try super_get_context_data)
    (RecipeCreateView.get_context_data super_get_context_data) /\
  logged_and_reraised "RecipeUpdateView" None
    (RecipeUpdateView.form_valid_try upper request super_form_valid f)
    (RecipeUpdateView.form_valid upper request super_form_valid f) /\
  logged_and_reraised "RecipeUpdateView" None
    (RecipeUpdateView.test_func_try request get_object)
    (RecipeUpdateView.test_func request get_object) /\
  logged_and_reraised "RecipeUpdateView" None
    (RecipeUpdateView.get_context_data_try super_get_context_data)
    (RecipeUpdateView.get_context_data super_get_context_data) /\
  logged_and_reraised "RecipeDeleteView" None
    (RecipeDeleteView.test_func_try request get_object)
    (RecipeDeleteView.test_func request get_object) /\
  logged_and_reraised "RecipeDeleteView"
    (Some (ERROR_MESSAGE "Произошла ошибка при удалении рецепта."))
    (RecipeDeleteView.delete_try super_delete)
    (RecipeDeleteView.delete super_delete) /\
  logged_and_reraised "RecipeDeleteView" None
    (RecipeDeleteView.get_context_data_try super_get_context_data)
    (RecipeDeleteView.get_context_data super_get_context_data).
Proof.
  repeat split; wrapped_method.
Qed.

(** C8 as stated fails on the sample site: [about] has no [except]
    clause, and an exception of [render] leaves it unlogged; so does the
    [Http404] of the detail view for a key that is not stored, which the
    framework raises before any method of the view runs. *)
Lemma handlers_log_what_they_raise_counterexample :
  ~ logs_what_it_raises (about render_without_template) /\
  ~ logs_what_it_raises
      (RecipeDetailView.as_view plain_models (get_by AnonymousUser) 9).
Proof.
  split; intros H.
  - destruct (H sample_world
                (OtherException "TemplateDoesNotExist" "webapp/about.html")
                sample_world eq_refl) as (view & earlier & Hlog).
    simpl in Hlog. now destruct earlier.
  - destruct (H sample_world
                (Http404 "No recipe found matching the query")
                sample_world eq_refl) as (view & earlier & Hlog).
    simpl in Hlog. now destruct earlier.
Qed.

(** * Beyond the listed properties *)

(** ** What the views leave alone *)

Lemma extends_refl {A} (l : list A) : extends l l.
Proof. exists []. now rewrite app_nil_r. Qed.

Lemma extends_trans {A} (l1 l2 l3 : list A) :
  extends l1 l2 -> extends l2 l3 -> extends l1 l3.
Proof.
  intros [m1 ->] [m2 ->]. exists (m1 ++ m2)%list. now rewrite app_assoc.
Qed.

Lemma extends_one {A} (l : list A) x : extends l (l ++ [x]).
Proof. now exists [x]. Qed.

Lemma same_data_refl w : same_data w w.
Proof. repeat split. apply extends_refl. Qed.

Lemma same_data_trans w1 w2 w3 :
  same_data w1 w2 -> same_data w2 w3 -> same_data w1 w3.
Proof.
  intros (U1 & C1 & R1 & S1 & K1 & F1 & M1 & L1)
         (U2 & C2 & R2 & S2 & K2 & F2 & M2 & L2).
  repeat split; try congruence. now apply (extends_trans _ _ _ L1).
Qed.

Lemma same_site_refl w : same_site w w.
Proof. repeat split; try apply extends_refl. apply Z.le_refl. Qed.

Lemma same_site_trans w1 w2 w3 :
  same_site w1 w2 -> same_site w2 w3 -> same_site w1 w3.
Proof.
  intros (U1 & C1 & S1 & K1 & F1 & L1 & M1) (U2 & C2 & S2 & K2 & F2 & L2 & M2).
  split; [congruence|]. split; [congruence|]. split; [lia|].
  split; [congruence|]. split; [congruence|]. split.
  - now apply (extends_trans _ _ _ L1).
  - now apply (extends_trans _ _ _ M1).
Qed.

Lemma same_data_site w w' : same_data w w' -> same_site w w'.
Proof.
  intros (U & C & _ & S & K & F & Ms & L). repeat split; trivial.
  - rewrite S. apply Z.le_refl.
  - rewrite Ms. apply extends_refl.
Qed.

Section Preserving.
Variable R : World -> World -> Prop.
Hypothesis R_refl : forall w, R w w.
Hypothesis R_trans : forall w1 w2 w3, R w1 w2 -> R w2 w3 -> R w1 w3.

Lemma preserves_ret {A} (a : A) : preserves R (ret a).
Proof. intros w. apply R_refl. Qed.

Lemma preserves_raise {A} e : preserves R (@raise A e).
Proof. intros w. apply R_refl. Qed.

Lemma preserves_gets {A} (f : World -> A) : preserves R (gets f).
Proof. intros w. apply R_refl. Qed.

Lemma preserves_bind {A B} (m : M A) (k : A -> M B) :
  preserves R m -> (forall a, preserves R (k a)) -> preserves R (bind m k).
Proof.
  intros Hm Hk w. unfold bind. specialize (Hm w).
  destruct (m w) as [[e|a] w1]; [exact Hm|].
  exact (R_trans _ _ _ Hm (Hk a w1)).
Qed.

Lemma preserves_try_except {A} (m : M A) (h : exn -> M A) :
  preserves R m -> (forall e, preserves R (h e)) ->
  preserves R (try_except m h).
Proof.
  intros Hm Hh w. unfold try_except. specialize (Hm w).
  destruct (m w) as [[e|a] w1]; [|exact Hm].
  exact (R_trans _ _ _ Hm (Hh e w1)).
Qed.

Ltac keep_step :=
  first
    [ assumption
    | apply preserves_ret
    | apply preserves_raise
    | apply preserves_gets
    | apply preserves_bind; [|intros ?]
    | apply preserves_try_except; [|intros ?]
    | match goal with
      | H : forall x, preserves R (?f x) |- preserves R (?f _) => apply H
      | |- preserves R (match ?x with _ => _ end) => destruct x
      end ].

Ltac keep := repeat keep_step.

(** The framework's readers keep any such relation. *)

Lemma preserves_get_object_or_404 {A} name (rows : list A) :
  preserves R (get_object_or_404 name rows).
Proof. unfold get_object_or_404. keep. Qed.

Lemma preserves_get_object models pk :
  preserves R (SingleObjectMixin_get_object models pk).
Proof.
  unfold SingleObjectMixin_get_object, Recipe_objects_filter. keep.
Qed.

Lemma preserves_list_context queryset paginate_by page :
  preserves R (MultipleObjectMixin_get_context_data queryset paginate_by page).
Proof.
  unfold MultipleObjectMixin_get_context_data, paginate_queryset.
  destruct paginate_by; keep.
Qed.

Lemma preserves_object_context obj f :
  preserves R (SingleObjectMixin_get_context_data obj f).
Proof. unfold SingleObjectMixin_get_context_data. keep. Qed.

Lemma preserves_View_dispatch request get post delete :
  (forall h, get = Some h -> preserves R h) ->
  (forall h, post = Some h -> preserves R h) ->
  (forall h, delete = Some h -> preserves R h) ->
  preserves R (View_dispatch request get post delete).
Proof.
  intros Hg Hp Hd. unfold View_dispatch.
  destruct (method request);
    [destruct get|destruct post|destruct delete|]; auto; keep.
Qed.

Lemma preserves_handle_no_permission request path :
  preserves R (handle_no_permission request path).
Proof. unfold handle_no_permission. keep. Qed.

Lemma preserves_login_required request path h :
  preserves R h -> preserves R (LoginRequiredMixin_dispatch request path h).
Proof.
  intros Hh. unfold LoginRequiredMixin_dispatch.
  destruct (negb _); [apply preserves_handle_no_permission|exact Hh].
Qed.

Lemma preserves_user_passes_test request path test h :
  preserves R test -> preserves R h ->
  preserves R (UserPassesTestMixin_dispatch request path test h).
Proof.
  intros Ht Hh. unfold UserPassesTestMixin_dispatch.
  apply preserves_bind; [exact Ht|]. intros b.
  destruct (negb b); [apply preserves_handle_no_permission|exact Hh].
Qed.

(** The methods of the views keep it when the logger does and the
    framework calls they are given do. *)

Hypothesis R_log : forall msg, preserves R (logger_error msg).

Ltac keep_view :=
  repeat first
    [ apply R_log
    | apply preserves_get_object_or_404
    | apply preserves_get_object
    | apply preserves_list_context
    | apply preserves_object_context
    | apply preserves_handle_no_permission
    | keep_step ].

Lemma preserves_list_view_context sup :
  preserves R sup ->
  preserves R (RecipeListView.get_context_data sup) /\
  preserves R (UserRecipeListView.get_context_data sup) /\
  preserves R (RecipeDetailView.get_context_data sup) /\
  preserves R (RecipeCreateView.get_context_data sup) /\
  preserves R (RecipeUpdateView.get_context_data sup) /\
  preserves R (RecipeDeleteView.get_context_data sup).
Proof.
  intros Hs.
  unfold RecipeListView.get_context_data,
    RecipeListView.get_context_data_try,
    UserRecipeListView.get_context_data,
    UserRecipeListView.get_context_data_try,
    RecipeDetailView.get_context_data,
    RecipeDetailView.get_context_data_try,
    RecipeCreateView.get_context_data,
    RecipeCreateView.get_context_data_try,
    RecipeUpdateView.get_context_data,
    RecipeUpdateView.get_context_data_try,
    RecipeDeleteView.get_context_data,
    RecipeDeleteView.get_context_data_try, Category_objects_all.
  repeat split; keep_view.
Qed.

Lemma preserves_home models request :
  preserves R (RecipeListView.as_view models request).
Proof.
  unfold RecipeListView.as_view.
  apply preserves_View_dispatch; intros h [= <-].
  unfold BaseListView_get, MultipleObjectMixin_get_queryset,
    Recipe_objects_all.
  keep_view.
Qed.

Lemma preserves_user_listing models request name :
  preserves R (UserRecipeListView.as_view models request name).
Proof.
  unfold UserRecipeListView.as_view.
  apply preserves_View_dispatch; intros h [= <-].
  unfold BaseListView_get, UserRecipeListView.get_queryset,
    UserRecipeListView.get_queryset_try, Recipe_objects_filter.
  keep_view.
Qed.

Lemma preserves_category_listing models request cid :
  preserves R (RecipeByCategoryView.as_view models request cid).
Proof.
  unfold RecipeByCategoryView.as_view.
  apply preserves_View_dispatch; intros h [= <-].
  unfold BaseListView_get, RecipeByCategoryView.get_queryset,
    RecipeByCategoryView.get_queryset_try,
    RecipeByCategoryView.get_context_data,
    RecipeByCategoryView.get_context_data_try,
    RecipeByCategoryView.get_category, Recipe_objects_filter,
    Category_objects_all.
  keep_view.
Qed.

Lemma preserves_detail models request pk :
  preserves R (RecipeDetailView.as_view models request pk).
Proof.
  unfold RecipeDetailView.as_view.
  apply preserves_View_dispatch; intros h [= <-].
  keep_view.
Qed.

Lemma preserves_about : preserves R (about shortcuts_render).
Proof. unfold about, shortcuts_render. keep. Qed.

(** The views that write keep it when the writes and the messages do. *)

Hypothesis R_success : forall text, preserves R (messages_success text).
Hypothesis R_error : forall text, preserves R (messages_error text).
Hypothesis R_save : forall r, preserves R (Model_save r).
Hypothesis R_delete : forall r, preserves R (Model_delete r).

Ltac keep_writes :=
  repeat first
    [ apply R_success | apply R_error | apply R_save | apply R_delete
    | keep_view ].

Lemma preserves_create models upper request :
  preserves R (RecipeCreateView.as_view models upper request).
Proof.
  unfold RecipeCreateView.as_view.
  apply preserves_login_required.
  apply preserves_View_dispatch; intros h [= <-];
    unfold RecipeCreateView.render_form, ProcessFormView_post,
      RecipeCreateView.form_valid, RecipeCreateView.form_valid_try,
      RecipeCreateView.form_invalid, RecipeCreateView.form_invalid_try,
      assign_author, assign_upper_title, ModelFormMixin_form_valid;
    keep_writes.
Qed.

Lemma preserves_update models upper request pk :
  preserves R (RecipeUpdateView.as_view models upper request pk).
Proof.
  unfold RecipeUpdateView.as_view.
  apply preserves_login_required.
  apply preserves_user_passes_test.
  { unfold RecipeUpdateView.test_func, RecipeUpdateView.test_func_try.
    keep_view. }
  apply preserves_View_dispatch; intros h [= <-];
    unfold RecipeUpdateView.render_form, ProcessFormView_post,
      RecipeUpdateView.form_valid, RecipeUpdateView.form_valid_try,
      assign_author, assign_upper_title, ModelFormMixin_form_valid;
    keep_writes.
Qed.

Lemma preserves_delete models request pk :
  preserves R (RecipeDeleteView.as_view models request pk).
Proof.
  unfold RecipeDeleteView.as_view, RecipeDeleteView.handlers.
  apply preserves_login_required.
  apply preserves_user_passes_test.
  { unfold RecipeDeleteView.test_func, RecipeDeleteView.test_func_try.
    keep_view. }
  apply preserves_View_dispatch; intros h [= <-];
    unfold RecipeDeleteView.delete, RecipeDeleteView.delete_try,
      DeletionMixin_delete, BaseDeleteView_post, BaseDeleteView_form_valid;
    keep_writes.
Qed.

Lemma preserves_view_of models upper page view request :
  view_of models upper page = Some view -> preserves R (view request).
Proof.
  destruct page; simpl; intros [= <-].
  - apply preserves_home.
  - apply preserves_about.
  - apply preserves_user_listing.
  - apply preserves_detail.
  - apply preserves_create.
  - apply preserves_update.
  - apply preserves_delete.
  - apply preserves_category_listing.
Qed.

Lemma preserves_serve_all models upper requests w :
  R w (serve_all models upper requests w).
Proof.
  revert w. induction requests as [|[page request] requests IH];
    intros w; simpl; [apply R_refl|].
  destruct (view_of models upper page) as [view|] eqn:E; [|apply IH].
  apply (R_trans _ (snd (view request w))); [|apply IH].
  apply (preserves_view_of _ _ _ _ _ E).
Qed.

End Preserving.

Lemma same_data_logger_error msg : preserves same_data (logger_error msg).
Proof. intros w. repeat split. apply extends_one. Qed.

Lemma same_site_logger_error msg : preserves same_site (logger_error msg).
Proof. intros w. apply same_data_site, same_data_logger_error. Qed.

Lemma same_site_messages_success text :
  preserves same_site (messages_success text).
Proof.
  intros w. repeat split;
    [apply Z.le_refl|apply extends_refl|apply extends_one].
Qed.

Lemma same_site_messages_error text :
  preserves same_site (messages_error text).
Proof.
  intros w. repeat split;
    [apply Z.le_refl|apply extends_refl|apply extends_one].
Qed.

Lemma same_site_Model_save r : preserves same_site (Model_save r).
Proof.
  intros w. unfold Model_save.
  destruct (write_fault w); [apply same_site_refl|].
  destruct (id r); [destruct (existsb _ _)|];
    repeat split; try apply extends_refl; simpl; lia.
Qed.

Lemma same_site_Model_delete r : preserves same_site (Model_delete r).
Proof.
  intros w. unfold Model_delete.
  destruct (id r); [|apply same_site_refl].
  destruct (write_fault w); [apply same_site_refl|].
  repeat split; try apply extends_refl. apply Z.le_refl.
Qed.

Ltac data_facts :=
  first [ exact same_data_refl | exact same_data_trans
        | exact same_data_logger_error ].

Ltac site_facts :=
  first [ exact same_site_refl | exact same_site_trans
        | exact same_site_logger_error | exact same_site_messages_success
        | exact same_site_messages_error | exact same_site_Model_save
        | exact same_site_Model_delete ].

(** X1.  The pages that only show recipes (home, a user's recipes, a
    category, a recipe, about) never change what is stored: whatever the
    request, accounts, categories, recipes and messages are as before, and
    the log has at most grown. *)
Theorem showing_pages_change_nothing
  (models : ModelsPy) (request : Request) (name : string) (cid pk : Z) :
  preserves same_data (RecipeListView.as_view models request) /\
  preserves same_data (UserRecipeListView.as_view models request name) /\
  preserves same_data (RecipeByCategoryView.as_view models request cid) /\
  preserves same_data (RecipeDetailView.as_view models request pk) /\
  preserves same_data (about shortcuts_render).
Proof.
  split; [|split; [|split; [|split]]].
  - apply preserves_home; data_facts.
  - apply preserves_user_listing; data_facts.
  - apply preserves_category_listing; data_facts.
  - apply preserves_detail; data_facts.
  - apply preserves_about; data_facts.
Qed.

(** X2.  No sequence of requests to the pages of urls.py changes the
    accounts or the categories, and none removes a log record or a flash
    message: log and messages only grow. *)
Theorem requests_keep_accounts_and_categories
  (models : ModelsPy) (upper : string -> string)
  (requests : list (Url * Request)) (w : World) :
  same_site w (serve_all models upper requests w).
Proof.
  apply preserves_serve_all; site_facts.
Qed.

(** ** What one request does to the recipes *)

(** An anonymous request to a page that writes goes to the login page, and
    nothing at all happens. *)
Lemma anonymous_run models upper request pk w :
  user request = AnonymousUser ->
  RecipeCreateView.as_view models upper request w
  = (inr (HttpResponseRedirect (login_url recipe_create)), w) /\
  RecipeUpdateView.as_view models upper request pk w
  = (inr (HttpResponseRedirect (login_url (recipe_update pk))), w) /\
  RecipeDeleteView.as_view models request pk w
  = (inr (HttpResponseRedirect (login_url (recipe_delete pk))), w).
Proof.
  intros Hu.
  unfold RecipeCreateView.as_view, RecipeUpdateView.as_view,
    RecipeDeleteView.as_view, LoginRequiredMixin_dispatch,
    handle_no_permission.
  rewrite Hu. repeat split.
Qed.

(** When the object of the request cannot be fetched, the guard raises what
    [get_object] raised, logged under the name of the view. *)
Lemma object_missing_run models upper request pk u e w :
  user request = Authenticated u ->
  SingleObjectMixin_get_object models pk w = (inl e, w) ->
  RecipeUpdateView.as_view models upper request pk w
  = (inl e, add_log (ERROR ("An error occurred in RecipeUpdateView: "
                            ++ str e)) w) /\
  RecipeDeleteView.as_view models request pk w
  = (inl e, add_log (ERROR ("An error occurred in RecipeDeleteView: "
                            ++ str e)) w).
Proof.
  intros Hu Hobj.
  unfold RecipeUpdateView.as_view, RecipeDeleteView.as_view,
    LoginRequiredMixin_dispatch, UserPassesTestMixin_dispatch,
    RecipeUpdateView.test_func, RecipeUpdateView.test_func_try,
    RecipeDeleteView.test_func, RecipeDeleteView.test_func_try.
  rewrite Hu. cbn [is_authenticated negb]. run_view.
  rewrite Hobj. split; reflexivity.
Qed.

Lemma max_pk_above rs x k :
  In x rs -> id x = Some k -> k <= max_pk rs.
Proof.
  unfold max_pk. induction rs as [|y rs IH]; [intros []|].
  cbn [fold_right]. intros [->|Hin] Hid.
  - rewrite Hid. lia.
  - specialize (IH Hin Hid). destruct (id y); lia.
Qed.

Lemma next_pk_above w x k :
  In x (recipes w) -> id x = Some k -> k < next_pk w.
Proof.
  intros Hin Hid. pose proof (max_pk_above _ _ _ Hin Hid).
  unfold next_pk. lia.
Qed.

Lemma max_pk_below_next w : max_pk (recipes w) < next_pk w.
Proof. unfold next_pk. lia. Qed.

(** A key above every stored key is the key of no stored row. *)
Lemma key_above_fresh rs k :
  max_pk rs < k -> ~ In (Some k) (map id rs).
Proof.
  intros Hk H. apply in_map_iff in H. destruct H as (x & Hid & Hin).
  pose proof (max_pk_above rs x _ Hin Hid). lia.
Qed.

Lemma Model_eq_refl u : Model_eq (Authenticated u) (user_id u) = true.
Proof. apply Z.eqb_refl. Qed.

Lemma create_step models upper request w :
  recipes_step (user request) (recipes w)
    (recipes (snd (RecipeCreateView.as_view models upper request w))).
Proof.
  destruct (user request) as [|u] eqn:Hu.
  { apply step_none.
    now rewrite (proj1 (anonymous_run models upper request 0 w Hu)). }
  destruct (method request) eqn:Hmethod;
    [| |apply step_none;
        unfold RecipeCreateView.as_view, LoginRequiredMixin_dispatch,
          RecipeCreateView.handlers, View_dispatch;
        rewrite Hu, Hmethod; reflexivity..].
  - apply step_none.
    unfold RecipeCreateView.as_view, LoginRequiredMixin_dispatch,
      RecipeCreateView.handlers, View_dispatch.
    rewrite Hu, Hmethod. reflexivity.
  - destruct (is_valid (create_form models w request)) eqn:Hvalid.
    + destruct (create_valid_run models upper request u w Hu Hmethod Hvalid)
        as (r & Hid & _ & Hauthor & ->).
      destruct (write_fault w); [apply step_none; reflexivity|].
      apply (step_create _ _ _ r (next_pk w));
        [exact Hid|apply max_pk_below_next| |reflexivity].
      rewrite Hauthor. apply Model_eq_refl.
    + apply step_none.
      unfold RecipeCreateView.as_view, LoginRequiredMixin_dispatch.
      rewrite Hu. cbn [is_authenticated negb].
      rewrite (create_post_run models upper request w Hmethod), Hvalid.
      generalize (create_form models w request). intros f. reflexivity.
Qed.

Lemma update_step models upper request pk w :
  reorders models ->
  recipes_step (user request) (recipes w)
    (recipes (snd (RecipeUpdateView.as_view models upper request pk w))).
Proof.
  intros Hperm.
  destruct (user request) as [|u] eqn:Hu.
  { apply step_none.
    destruct (anonymous_run models upper request pk w Hu) as (_ & -> & _).
    reflexivity. }
  destruct (get_object_cases models pk w) as [[e Hobj]|[r0 Hobj]].
  { apply step_none.
    now rewrite (proj1 (object_missing_run models upper request pk u e w
                          Hu Hobj)). }
  destruct (Z.eqb_spec (user_id u) (author r0)) as [Hguard|Hne].
  2:{ rewrite (update_as_view_guarded models upper request pk r0 u w Hu Hobj).
      destruct (Z.eqb_spec (user_id u) (author r0)); [contradiction|].
      apply step_none. reflexivity. }
  destruct (get_object_stored models pk w r0 w Hperm Hobj)
    as (Hin & Hid & Huniq).
  destruct (update_by_author_outcome models upper request pk r0 u w
              Hperm Hu Hobj Hguard)
    as [[Hsame _]|(inst & Hiid & _ & Hauthor & Hdate & Hrows)].
  - apply step_none. exact Hsame.
  - apply (step_update _ _ _ pk r0 inst); trivial.
    + simpl. now apply Z.eqb_eq.
    + congruence.
Qed.

Lemma delete_step models request pk w :
  reorders models ->
  recipes_step (user request) (recipes w)
    (recipes (snd (RecipeDeleteView.as_view models request pk w))).
Proof.
  intros Hperm.
  destruct (user request) as [|u] eqn:Hu.
  { apply step_none.
    destruct (anonymous_run models ascii_upper request pk w Hu)
      as (_ & _ & ->).
    reflexivity. }
  destruct (get_object_cases models pk w) as [[e Hobj]|[r0 Hobj]].
  { apply step_none.
    now rewrite (proj2 (object_missing_run models ascii_upper request pk u e w
                          Hu Hobj)). }
  rewrite (delete_as_view_guarded models request pk r0 u w Hu Hobj).
  destruct (Z.eqb_spec (user_id u) (author r0)) as [Hguard|_];
    [|apply step_none; reflexivity].
  destruct (get_object_stored models pk w r0 w Hperm Hobj)
    as (Hin & Hid & Huniq).
  assert (Hmine : Model_eq (Authenticated u) (author r0) = true)
    by (simpl; now apply Z.eqb_eq).
  unfold RecipeDeleteView.handlers, View_dispatch.
  destruct (method request).
  - apply step_none. unfold bind. rewrite Hobj. reflexivity.
  - unfold BaseDeleteView_post, BaseDeleteView_form_valid, Model_delete.
    unfold bind. rewrite Hobj, Hid.
    destruct (write_fault w); [apply step_none; reflexivity|].
    now apply (step_delete _ _ _ pk r0).
  - unfold RecipeDeleteView.delete, RecipeDeleteView.delete_try,
      DeletionMixin_delete, Model_delete.
    run_view.
    rewrite (get_object_frame models pk w r0 w
               (add_message (SUCCESS "Рецепт успешно удален.") w)
               Hobj eq_refl).
    simpl. rewrite Hid.
    destruct (write_fault w); [apply step_none; reflexivity|].
    now apply (step_delete _ _ _ pk r0).
  - apply step_none. reflexivity.
Qed.

Lemma same_data_recipes w w' : same_data w w' -> recipes w' = recipes w.
Proof. now intros (_ & _ & H & _). Qed.

Lemma view_step
  (models : ModelsPy) (upper : string -> string) (page : Url)
  (view : Request -> M HttpResponse) (request : Request) (w : World) :
  reorders models ->
  view_of models upper page = Some view ->
  recipes_step (user request) (recipes w) (recipes (snd (view request w))).
Proof.
  intros Hperm Hview.
  destruct page; simpl in Hview; try discriminate Hview;
    injection Hview as <-.
  - apply step_none, same_data_recipes. apply preserves_home; data_facts.
  - apply step_none, same_data_recipes. apply preserves_about; data_facts.
  - apply step_none, same_data_recipes.
    apply preserves_user_listing; data_facts.
  - apply step_none, same_data_recipes. apply preserves_detail; data_facts.
  - apply create_step.
  - now apply update_step.
  - now apply delete_step.
  - apply step_none, same_data_recipes.
    apply preserves_category_listing; data_facts.
Qed.

(** X3.  Whatever the page and the request, one request does one of four
    things to the stored recipes: nothing; append one recipe of the
    requesting user under a fresh key; replace the one recipe of a key, the
    requesting user's, keeping key, author and creation date; remove the one
    recipe of a key, the requesting user's. *)
Theorem one_request_one_step
  (models : ModelsPy) (upper : string -> string) (page : Url)
  (view : Request -> M HttpResponse) (request : Request) (w : World) :
  reorders models ->
  view_of models upper page = Some view ->
  recipes_step (user request) (recipes w) (recipes (snd (view request w))).
Proof. apply view_step. Qed.

(** On the sample site alice removes her borsch: one step. *)
Lemma one_request_one_step_witness :
  recipes_step (Authenticated alice) (recipes sample_world)
    (recipes (snd (RecipeDeleteView.as_view plain_models
                     (delete_by (Authenticated alice)) 1 sample_world))).
Proof.
  apply (one_request_one_step plain_models ascii_upper (recipe_delete 1)
           (fun request => RecipeDeleteView.as_view plain_models request 1)
           (delete_by (Authenticated alice)) sample_world).
  - intros rows. reflexivity.
  - reflexivity.
Defined.

(** ** Consequences of the four steps *)

Lemma filter_replaced (p : Recipe -> bool) pk r rs :
  (forall x, In x rs -> pk_is pk x = true -> p x = false) ->
  p r = false ->
  filter p (map (fun x => if pk_is pk x then r else x) rs) = filter p rs.
Proof.
  intros Hrows Hr. induction rs as [|x rs IH]; simpl; [reflexivity|].
  rewrite IH by (intros y Hy; apply Hrows; now right).
  destruct (pk_is pk x) eqn:Hpk; [|reflexivity].
  now rewrite Hr, (Hrows x (or_introl eq_refl) Hpk).
Qed.

Lemma filter_removed (p : Recipe -> bool) pk rs :
  (forall x, In x rs -> pk_is pk x = true -> p x = false) ->
  filter p (filter (fun x => negb (pk_is pk x)) rs) = filter p rs.
Proof.
  intros Hrows. induction rs as [|x rs IH]; simpl; [reflexivity|].
  specialize (IH (fun y Hy => Hrows y (or_intror Hy))).
  destruct (pk_is pk x) eqn:Hpk; simpl.
  - now rewrite (Hrows x (or_introl eq_refl) Hpk).
  - now rewrite IH.
Qed.

Lemma not_mine_not_equal u a b :
  Model_eq u a = true -> Model_eq u b = false -> (a =? b) = false.
Proof.
  destruct u as [|usr]; simpl; [discriminate|].
  intros Ha Hb. apply Z.eqb_eq in Ha. apply Z.eqb_neq in Hb.
  apply Z.eqb_neq. congruence.
Qed.

(** A step of one user leaves the recipes of every other author as they
    are, in number, content and order. *)
Lemma step_keeps_recipes_of_others u rs rs' a :
  recipes_step u rs rs' ->
  Model_eq u a = false ->
  filter (fun r => author r =? a) rs' = filter (fun r => author r =? a) rs.
Proof.
  intros Hstep Hother.
  destruct Hstep as [->|r k Hid Hk Hmine ->
                    |pk r0 r Hin Huniq Hid0 Hmine Hid Hau _ ->
                    |pk r0 Hin Huniq Hid0 Hmine ->].
  - reflexivity.
  - rewrite filter_app. simpl.
    rewrite (not_mine_not_equal u _ _ Hmine Hother). apply app_nil_r.
  - apply filter_replaced.
    + intros x Hx Hpk. apply pk_is_id in Hpk.
      rewrite (Huniq x Hx Hpk).
      apply (not_mine_not_equal u _ _ Hmine Hother).
    + rewrite Hau. apply (not_mine_not_equal u _ _ Hmine Hother).
  - apply filter_removed.
    intros x Hx Hpk. apply pk_is_id in Hpk.
    rewrite (Huniq x Hx Hpk).
    apply (not_mine_not_equal u _ _ Hmine Hother).
Qed.

(** X4.  Whatever others do, an author's recipes stay: after any sequence
    of requests none of which comes from the account with key [a], the
    recipes whose author is [a] are exactly the ones stored before,
    unchanged and in the same order. *)
Theorem requests_of_others_keep_my_recipes
  (models : ModelsPy) (upper : string -> string)
  (requests : list (Url * Request)) (w : World) (a : Z) :
  reorders models ->
  Forall (fun pr => Model_eq (user (snd pr)) a = false) requests ->
  filter (fun r => author r =? a)
         (recipes (serve_all models upper requests w))
  = filter (fun r => author r =? a) (recipes w).
Proof.
  intros Hperm Hreq. revert w.
  induction Hreq as [|[page request] requests Hother _ IH]; intros w;
    simpl; [reflexivity|].
  destruct (view_of models upper page) as [view|] eqn:Hview; [|apply IH].
  rewrite IH.
  apply (step_keeps_recipes_of_others (user request)); [|exact Hother].
  now apply (view_step models upper page).
Qed.

(** On the sample site bob edits and removes what he can reach and adds a
    recipe; alice's two recipes are as they were. *)
Lemma requests_of_others_keep_my_recipes_witness :
  filter (fun r => author r =? 1)
         (recipes (serve_all plain_models ascii_upper requests_of_others
                     sample_world))
  = [borsch; cake].
Proof.
  apply (requests_of_others_keep_my_recipes plain_models ascii_upper
           requests_of_others sample_world 1).
  - intros rows. reflexivity.
  - repeat constructor.
Defined.

(** Dropping rows keeps a key unique. *)
Lemma filter_keeps_distinct {Row Key : Type} (key : Row -> Key)
  (keep : Row -> bool) (rows : list Row) :
  NoDup (map key rows) -> NoDup (map key (filter keep rows)).
Proof.
  intros Hrows. induction rows as [|row rows IH]; [exact Hrows|].
  apply NoDup_cons_iff in Hrows. destruct Hrows as [Hnew Hrest].
  cbn [filter]. destruct (keep row); [|exact (IH Hrest)].
  cbn [map]. apply NoDup_cons; [|exact (IH Hrest)].
  rewrite in_map_iff. intros (other & Hkey & Hother).
  apply Hnew. rewrite <- Hkey. apply in_map.
  apply filter_In in Hother. exact (proj1 Hother).
Qed.

Lemma NoDup_map_same {A B} (f : A -> B) (l : list A) x y :
  NoDup (map f l) -> In x l -> In y l -> f x = f y -> x = y.
Proof.
  induction l as [|z l IH]; simpl; [contradiction|].
  intros H Hx Hy Hf. inversion H as [|? ? Hz Hl]; subst.
  destruct Hx as [->|Hx], Hy as [->|Hy]; trivial.
  - exfalso. apply Hz. rewrite Hf. now apply in_map.
  - exfalso. apply Hz. rewrite <- Hf. now apply in_map.
  - now apply IH.
Qed.

Lemma map_id_replaced pk r rs :
  id r = Some pk ->
  map id (map (fun x => if pk_is pk x then r else x) rs) = map id rs.
Proof.
  intros Hid. rewrite map_map. apply map_ext. intros x.
  destruct (pk_is pk x) eqn:Hpk; [|reflexivity].
  apply pk_is_id in Hpk. congruence.
Qed.

Lemma step_keeps_unique_keys u rs rs' :
  recipes_step u rs rs' -> unique_keys rs -> unique_keys rs'.
Proof.
  intros Hstep [Hnd Hsome].
  destruct Hstep as [->|r k Hid Hk _ ->|pk r0 r _ _ _ _ Hid _ _ ->
                    |pk r0 _ _ _ _ ->].
  - now split.
  - split.
    + rewrite map_app. simpl. rewrite Hid.
      apply NoDup_app; [exact Hnd|repeat constructor; intros []|].
      intros k' Hk' [<-|[]]. revert Hk'. now apply key_above_fresh.
    + apply Forall_app. split; [exact Hsome|].
      repeat constructor. now rewrite Hid.
  - split.
    + now rewrite (map_id_replaced pk r rs Hid).
    + rewrite Forall_forall in *. intros x Hx.
      apply in_map_iff in Hx. destruct Hx as (y & <- & Hy).
      destruct (pk_is pk y); [now rewrite Hid|now apply Hsome].
  - split.
    + now apply filter_keeps_distinct.
    + rewrite Forall_forall in *. intros x Hx.
      apply filter_In in Hx. now apply Hsome.
Qed.

(** X5.  Primary keys stay unique: when every stored recipe has a key and
    no two share one, the same holds after any sequence of requests. *)
Theorem keys_stay_unique
  (models : ModelsPy) (upper : string -> string)
  (requests : list (Url * Request)) (w : World) :
  reorders models ->
  unique_keys (recipes w) ->
  unique_keys (recipes (serve_all models upper requests w)).
Proof.
  intros Hperm. revert w.
  induction requests as [|[page request] requests IH]; intros w Hw;
    simpl; [exact Hw|].
  destruct (view_of models upper page) as [view|] eqn:Hview;
    [|now apply IH].
  apply IH.
  apply (step_keeps_unique_keys (user request) (recipes w)); [|exact Hw].
  now apply (view_step models upper page).
Qed.

Lemma sample_keys_unique : unique_keys (recipes sample_world).
Proof.
  split; simpl.
  - repeat constructor; simpl; intuition discriminate.
  - repeat constructor; discriminate.
Qed.

Lemma keys_stay_unique_witness :
  unique_keys (recipes (serve_all plain_models ascii_upper requests_of_alice
                          sample_world)).
Proof.
  apply (keys_stay_unique plain_models ascii_upper requests_of_alice
           sample_world).
  - intros rows. reflexivity.
  - apply sample_keys_unique.
Defined.

Lemma step_keeps_author_and_date u rs rs' r r' :
  recipes_step u rs rs' -> unique_keys rs ->
  In r rs -> In r' rs' -> id r' = id r ->
  author r' = author r /\ created_date r' = created_date r.
Proof.
  intros Hstep [Hnd Hsome] Hr Hr' Hid.
  assert (Hsame : forall x, In x rs -> id x = id r -> x = r)
    by (intros x Hx Hx'; now apply (NoDup_map_same id rs)).
  destruct Hstep as [->|new k Hnew Hk _ ->
                    |pk r0 new _ Huniq Hid0 _ Hnid Hau Hdate ->
                    |pk r0 _ _ _ _ ->].
  - now rewrite (Hsame r' Hr' Hid).
  - apply in_app_or in Hr'. destruct Hr' as [Hr'|[<-|[]]].
    + now rewrite (Hsame r' Hr' Hid).
    + exfalso. apply (key_above_fresh rs k Hk). rewrite <- Hnew, Hid.
      now apply in_map.
  - apply in_map_iff in Hr'. destruct Hr' as (x & Hx & Hxin).
    destruct (pk_is pk x) eqn:Hpk.
    + subst r'. rewrite Hnid in Hid.
      rewrite (Huniq r Hr (eq_sym Hid)). now split.
    + subst r'. now rewrite (Hsame x Hxin Hid).
  - apply filter_In in Hr'. now rewrite (Hsame r' (proj1 Hr') Hid).
Qed.

(** X6.  No request to any page changes the author or the creation date
    of a stored recipe: a recipe found under the same key before and after
    the request has the author and the creation date it had. *)
Theorem request_keeps_author_and_creation_date
  (models : ModelsPy) (upper : string -> string) (page : Url)
  (view : Request -> M HttpResponse) (request : Request) (w : World)
  (r r' : Recipe) :
  reorders models ->
  view_of models upper page = Some view ->
  unique_keys (recipes w) ->
  In r (recipes w) ->
  In r' (recipes (snd (view request w))) ->
  id r' = id r ->
  author r' = author r /\ created_date r' = created_date r.
Proof.
  intros Hperm Hview Hkeys Hr Hr' Hid.
  apply (step_keeps_author_and_date (user request) (recipes w)
           (recipes (snd (view request w)))); trivial.
  now apply (view_step models upper page).
Qed.

(** On the sample site alice edits her borsch; what is stored under key 1
    afterwards has her as author and the old creation date. *)
Lemma request_keeps_author_and_creation_date_witness :
  author (mkRecipe (Some 1) "OKROSHKA" 1 "cold soup" "kvass" "chop" 20 true
                   "okroshka.png" 100 1) = author borsch /\
  created_date (mkRecipe (Some 1) "OKROSHKA" 1 "cold soup" "kvass" "chop" 20
                         true "okroshka.png" 100 1) = created_date borsch.
Proof.
  apply (request_keeps_author_and_creation_date plain_models ascii_upper
           (recipe_update 1)
           (fun request =>
              RecipeUpdateView.as_view plain_models ascii_upper request 1)
           (post_by (Authenticated alice) sample_form) sample_world).
  - intros rows. reflexivity.
  - reflexivity.
  - apply sample_keys_unique.
  - simpl. now left.
  - vm_compute. now left.
  - reflexivity.
Defined.

(** ** Removing, adding and looking up *)

Lemma perm_one {A} (l : list A) x : Permutation l [x] -> l = [x].
Proof. intros H. symmetry in H. now apply Permutation_length_1_inv in H. Qed.

Lemma perm_none {A} (l : list A) : Permutation l [] -> l = [].
Proof. intros H. symmetry in H. now apply Permutation_nil in H. Qed.

Lemma filter_unique_pk rs r pk :
  NoDup (map id rs) -> In r rs -> id r = Some pk ->
  filter (pk_is pk) rs = [r].
Proof.
  intros Hnd Hin Hid.
  induction rs as [|x rs IH]; simpl; [contradiction|].
  inversion Hnd as [|? ? Hx Hrs]; subst.
  assert (Hnone : forall l, ~ In (Some pk) (map id l) ->
                            filter (pk_is pk) l = []).
  { clear. intros l Hl. apply filter_no_match. intros y Hy.
    destruct (pk_is pk y) eqn:E; [|reflexivity].
    exfalso. apply Hl. apply pk_is_id in E. rewrite <- E. now apply in_map. }
  destruct Hin as [->|Hin].
  - rewrite (proj2 (pk_is_id pk r) Hid). f_equal. apply Hnone.
    now rewrite <- Hid.
  - destruct (pk_is pk x) eqn:E; [|now apply IH].
    exfalso. apply Hx. apply pk_is_id in E. rewrite E, <- Hid.
    now apply in_map.
Qed.

(** The detail page of a key: the page of the recipe when exactly one stored
    recipe has the key, [Http404] when none has. *)
Lemma detail_run models request pk r w :
  reorders models ->
  method request = HTTP_GET ->
  filter (pk_is pk) (recipes w) = [r] ->
  RecipeDetailView.as_view models request pk w
  = (inr (TemplateResponse "webapp/recipe_detail.html"
            (mkContext [] false None (Some r) None (Some (categories w))
                       None None)), w).
Proof.
  intros Hperm Hget Hrows.
  assert (Hobj : SingleObjectMixin_get_object models pk w = (inr r, w)).
  { apply get_object_run. apply perm_one. rewrite <- Hrows.
    apply filter_perm, Hperm. }
  unfold RecipeDetailView.as_view, View_dispatch. rewrite Hget.
  unfold bind at 1. rewrite Hobj. reflexivity.
Qed.

Lemma get_object_none models pk w :
  reorders models ->
  filter (pk_is pk) (recipes w) = [] ->
  SingleObjectMixin_get_object models pk w
  = (inl (Http404 ("No " ++ Recipe_verbose_name models
                   ++ " found matching the query")), w).
Proof.
  intros Hperm Hrows.
  unfold SingleObjectMixin_get_object, Recipe_objects_filter, bind, gets.
  replace (filter (pk_is pk) (Recipe_Meta_ordering models (recipes w)))
    with (@nil Recipe); [reflexivity|].
  symmetry. apply perm_none. rewrite <- Hrows. apply filter_perm, Hperm.
Qed.

Lemma detail_missing_run models request pk w :
  reorders models ->
  method request = HTTP_GET ->
  filter (pk_is pk) (recipes w) = [] ->
  RecipeDetailView.as_view models request pk w
  = (inl (Http404 ("No " ++ Recipe_verbose_name models
                   ++ " found matching the query")), w).
Proof.
  intros Hperm Hget Hrows.
  unfold RecipeDetailView.as_view, View_dispatch. rewrite Hget.
  unfold bind at 1. now rewrite (get_object_none models pk w Hperm Hrows).
Qed.

(** A delete request of the author, on a database that accepts the
    write: the handler [delete] on DELETE, the form flow on POST. *)
Lemma delete_run models request pk r u w :
  user request = Authenticated u ->
  method request = HTTP_DELETE ->
  SingleObjectMixin_get_object models pk w = (inr r, w) ->
  user_id u = author r ->
  write_fault w = None ->
  RecipeDeleteView.as_view models request pk w
  = (inr (HttpResponseRedirect webapp_home),
     set_recipes (filter (fun x => negb (pk_is pk x)) (recipes w))
       (add_message (SUCCESS "Рецепт успешно удален.") w)).
Proof.
  intros Hu Hmethod Hobj Hguard Hdb.
  rewrite (delete_as_view_guarded models request pk r u w Hu Hobj).
  rewrite Hguard, Z.eqb_refl.
  unfold RecipeDeleteView.handlers, View_dispatch. rewrite Hmethod.
  unfold RecipeDeleteView.delete, RecipeDeleteView.delete_try,
    DeletionMixin_delete, Model_delete.
  run_view.
  rewrite (get_object_frame models pk w r w
             (add_message (SUCCESS "Рецепт успешно удален.") w)
             Hobj eq_refl).
  simpl. rewrite (get_object_id models pk w r w Hobj), Hdb. reflexivity.
Qed.

Lemma post_delete_run models request pk r u w :
  user request = Authenticated u ->
  method request = HTTP_POST ->
  SingleObjectMixin_get_object models pk w = (inr r, w) ->
  user_id u = author r ->
  write_fault w = None ->
  RecipeDeleteView.as_view models request pk w
  = (inr (HttpResponseRedirect webapp_home),
     set_recipes (filter (fun x => negb (pk_is pk x)) (recipes w)) w).
Proof.
  intros Hu Hmethod Hobj Hguard Hdb.
  rewrite (delete_as_view_guarded models request pk r u w Hu Hobj).
  rewrite Hguard, Z.eqb_refl.
  unfold RecipeDeleteView.handlers, View_dispatch. rewrite Hmethod.
  unfold BaseDeleteView_post, BaseDeleteView_form_valid, Model_delete.
  unfold bind. rewrite Hobj.
  rewrite (get_object_id models pk w r w Hobj), Hdb. reflexivity.
Qed.

(** Either way the recipes left are the ones of another key. *)
Lemma delete_run_recipes models request pk r u w :
  user request = Authenticated u ->
  method request = HTTP_POST \/ method request = HTTP_DELETE ->
  SingleObjectMixin_get_object models pk w = (inr r, w) ->
  user_id u = author r ->
  write_fault w = None ->
  let res := RecipeDeleteView.as_view models request pk w in
  fst res = inr (HttpResponseRedirect webapp_home) /\
  recipes (snd res) = filter (fun x => negb (pk_is pk x)) (recipes w) /\
  log (snd res) = log w /\
  messages (snd res)
  = match method request with
    | HTTP_DELETE => (messages w ++ [SUCCESS "Рецепт успешно удален."])%list
    | _ => messages w
    end.
Proof.
  intros Hu [Hmethod|Hmethod] Hobj Hguard Hdb; cbv zeta; rewrite Hmethod.
  - rewrite (post_delete_run models request pk r u w Hu Hmethod Hobj Hguard
               Hdb).
    now repeat split.
  - rewrite (delete_run models request pk r u w Hu Hmethod Hobj Hguard Hdb).
    now repeat split.
Qed.

Lemma filter_after_removal pk rs :
  filter (pk_is pk) (filter (fun x => negb (pk_is pk x)) rs) = [].
Proof.
  apply filter_no_match. intros x Hx. apply filter_In in Hx.
  destruct Hx as [_ Hx]. now destruct (pk_is pk x).
Qed.

(** X7.  When the author deletes a recipe and the database accepts the
    write, the answer is a redirect to the home page, nothing is logged, no
    recipe with the key is left and every other recipe is still stored.
    The success message is recorded when the request is an HTTP DELETE,
    which the handler [delete] serves; a POST goes through the form flow
    of the generic view and records no message. *)
Theorem delete_removes_the_recipe_only
  (models : ModelsPy) (w : World) (request : Request) (pk : Z)
  (r : Recipe) (u : User) :
  reorders models ->
  user request = Authenticated u ->
  method request = HTTP_POST \/ method request = HTTP_DELETE ->
  SingleObjectMixin_get_object models pk w = (inr r, w) ->
  Model_eq (user request) (author r) = true ->
  write_fault w = None ->
  let res := RecipeDeleteView.as_view models request pk w in
  fst res = inr (HttpResponseRedirect webapp_home) /\
  messages (snd res)
  = match method request with
    | HTTP_DELETE => (messages w ++ [SUCCESS "Рецепт успешно удален."])%list
    | _ => messages w
    end /\
  log (snd res) = log w /\
  (forall x, In x (recipes (snd res)) <-> In x (recipes w) /\ x <> r) /\
  (forall x, In x (recipes (snd res)) -> id x <> Some pk).
Proof.
  intros Hperm Hu Hmethod Hobj Hguard Hdb res. unfold res. clear res.
  rewrite Hu in Hguard. simpl in Hguard. apply Z.eqb_eq in Hguard.
  destruct (delete_run_recipes models request pk r u w Hu Hmethod Hobj Hguard
              Hdb) as (Hres & Hrows & Hlog & Hmsg).
  destruct (get_object_stored models pk w r w Hperm Hobj)
    as (Hin & Hid & Huniq).
  split; [exact Hres|]. split; [exact Hmsg|]. split; [exact Hlog|].
  rewrite Hrows. split.
  - intros x. rewrite filter_In. split.
    + intros [Hx Hpk]. split; [exact Hx|]. intros ->.
      now rewrite (proj2 (pk_is_id pk r) Hid) in Hpk.
    + intros [Hx Hne]. split; [exact Hx|].
      destruct (pk_is pk x) eqn:E; [|reflexivity].
      exfalso. apply Hne, Huniq; [exact Hx|now apply pk_is_id].
  - intros x Hx Hxid. apply filter_In in Hx. destruct Hx as [_ Hx].
    now rewrite (proj2 (pk_is_id pk x) Hxid) in Hx.
Qed.

(** On the sample site alice removes her borsch through the confirmation
    form, a POST: it is gone and no message is recorded. *)
Lemma delete_removes_the_recipe_only_witness :
  let res := RecipeDeleteView.as_view plain_models
               (post_by (Authenticated alice) []) 1 sample_world in
  fst res = inr (HttpResponseRedirect webapp_home) /\
  messages (snd res) = messages sample_world /\
  log (snd res) = log sample_world /\
  (forall x, In x (recipes (snd res)) <->
             In x (recipes sample_world) /\ x <> borsch) /\
  (forall x, In x (recipes (snd res)) -> id x <> Some 1).
Proof.
  apply (delete_removes_the_recipe_only plain_models sample_world
           (post_by (Authenticated alice) []) 1 borsch alice).
  - intros rows. reflexivity.
  - reflexivity.
  - left. reflexivity.
  - vm_compute. reflexivity.
  - vm_compute. reflexivity.
  - reflexivity.
Defined.

(** X8.  After the author has deleted a recipe, the detail page of its key
    is not found: the request for it ends in [Http404] and changes
    nothing. *)
Theorem deleted_recipe_is_not_found
  (models : ModelsPy) (w : World) (request lookup : Request) (pk : Z)
  (r : Recipe) (u : User) :
  reorders models ->
  user request = Authenticated u ->
  method request = HTTP_POST \/ method request = HTTP_DELETE ->
  SingleObjectMixin_get_object models pk w = (inr r, w) ->
  Model_eq (user request) (author r) = true ->
  write_fault w = None ->
  method lookup = HTTP_GET ->
  let w' := snd (RecipeDeleteView.as_view models request pk w) in
  RecipeDetailView.as_view models lookup pk w'
  = (inl (Http404 ("No " ++ Recipe_verbose_name models
                   ++ " found matching the query")), w').
Proof.
  intros Hperm Hu Hmethod Hobj Hguard Hdb Hget w'. unfold w'. clear w'.
  rewrite Hu in Hguard. simpl in Hguard. apply Z.eqb_eq in Hguard.
  destruct (delete_run_recipes models request pk r u w Hu Hmethod Hobj Hguard
              Hdb) as (_ & Hrows & _).
  apply detail_missing_run; trivial.
  rewrite Hrows. apply filter_after_removal.
Qed.

Lemma deleted_recipe_is_not_found_witness :
  let w' := snd (RecipeDeleteView.as_view plain_models
                   (delete_by (Authenticated alice)) 1 sample_world) in
  RecipeDetailView.as_view plain_models (get_by AnonymousUser) 1 w'
  = (inl (Http404 ("No " ++ Recipe_verbose_name plain_models
                   ++ " found matching the query")), w').
Proof.
  apply (deleted_recipe_is_not_found plain_models sample_world
           (delete_by (Authenticated alice)) (get_by AnonymousUser)
           1 borsch alice).
  - intros rows. reflexivity.
  - reflexivity.
  - right. reflexivity.
  - vm_compute. reflexivity.
  - vm_compute. reflexivity.
  - reflexivity.
  - reflexivity.
Defined.

(** X9.  A recipe that has just been created is found: after a create
    request with a valid form on a database that accepts the write, the
    detail page of the fresh key shows the stored recipe, whose title is
    the upper-cased cleaned title (the submitted title, stripped) and whose
    author is the requesting user. *)
Theorem created_recipe_is_found
  (models : ModelsPy) (upper : string -> string) (w : World)
  (request lookup : Request) (u : User) :
  reorders models ->
  user request = Authenticated u ->
  method request = HTTP_POST ->
  write_fault w = None ->
  is_valid (create_form models w request) = true ->
  method lookup = HTTP_GET ->
  let w' := snd (RecipeCreateView.as_view models upper request w) in
  exists r context,
    RecipeDetailView.as_view models lookup (next_pk w) w'
    = (inr (TemplateResponse "webapp/recipe_detail.html" context), w') /\
    object context = Some r /\
    In r (recipes w') /\
    id r = Some (next_pk w) /\
    title r = upper (str_strip (submitted "title" (POST request))) /\
    author r = user_id u.
Proof.
  intros Hperm Hu Hpost Hdb Hvalid Hget w'. unfold w'. clear w'.
  destruct (create_valid_run models upper request u w Hu Hpost Hvalid)
    as (r & Hid & Htitle & Hauthor & Hrun).
  rewrite Hdb in Hrun. rewrite Hrun. cbn [snd].
  exists r. eexists. split.
  { apply detail_run; trivial.
    cbn [recipes insert_recipe add_message]. rewrite filter_app.
    rewrite filter_no_match.
    - simpl. now rewrite (proj2 (pk_is_id _ r) Hid).
    - intros x Hx. destruct (pk_is (next_pk w) x) eqn:E;
        [|reflexivity].
      apply pk_is_id in E. pose proof (next_pk_above _ _ _ Hx E). lia. }
  cbn [object recipes insert_recipe add_message].
  split; [reflexivity|]. split; [apply in_or_app; right; now left|].
  now repeat split.
Qed.

(** On the sample site alice adds okroshka, typed with blanks around it,
    and then opens its page. *)
Lemma created_recipe_is_found_witness :
  let w' := snd (RecipeCreateView.as_view plain_models ascii_upper
                   (post_by (Authenticated alice) padded_form)
                   sample_world) in
  exists r context,
    RecipeDetailView.as_view plain_models (get_by AnonymousUser)
      (next_pk sample_world) w'
    = (inr (TemplateResponse "webapp/recipe_detail.html" context), w') /\
    object context = Some r /\
    In r (recipes w') /\
    id r = Some (next_pk sample_world) /\
    title r = ascii_upper (str_strip (submitted "title" padded_form)) /\
    author r = user_id alice.
Proof.
  apply (created_recipe_is_found plain_models ascii_upper sample_world
           (post_by (Authenticated alice) padded_form)
           (get_by AnonymousUser) alice).
  - intros rows. reflexivity.
  - reflexivity.
  - reflexivity.
  - reflexivity.
  - vm_compute. reflexivity.
  - reflexivity.
Defined.

(** ** Requests that store nothing *)

(** X10.  A visitor who is not logged in cannot write: every request of an
    anonymous user to the create, update or delete page, whatever its method
    and key, is answered by a redirect to the login page that names the page
    asked for, and nothing at all changes, not even the log. *)
Theorem anonymous_is_sent_to_login
  (models : ModelsPy) (upper : string -> string) (request : Request)
  (pk : Z) (w : World) :
  user request = AnonymousUser ->
  RecipeCreateView.as_view models upper request w
  = (inr (HttpResponseRedirect (login_url recipe_create)), w) /\
  RecipeUpdateView.as_view models upper request pk w
  = (inr (HttpResponseRedirect (login_url (recipe_update pk))), w) /\
  RecipeDeleteView.as_view models request pk w
  = (inr (HttpResponseRedirect (login_url (recipe_delete pk))), w).
Proof. apply anonymous_run. Qed.

Lemma anonymous_is_sent_to_login_witness :
  RecipeCreateView.as_view plain_models ascii_upper
    (post_by AnonymousUser sample_form) sample_world
  = (inr (HttpResponseRedirect (login_url recipe_create)), sample_world) /\
  RecipeUpdateView.as_view plain_models ascii_upper
    (post_by AnonymousUser sample_form) 1 sample_world
  = (inr (HttpResponseRedirect (login_url (recipe_update 1))), sample_world)
  /\
  RecipeDeleteView.as_view plain_models
    (post_by AnonymousUser sample_form) 1 sample_world
  = (inr (HttpResponseRedirect (login_url (recipe_delete 1))), sample_world).
Proof.
  apply (anonymous_is_sent_to_login plain_models ascii_upper
           (post_by AnonymousUser sample_form) 1 sample_world).
  reflexivity.
Defined.

(** X11.  For a key that no stored recipe has, the update and delete pages
    are not found, whichever logged-in user asks and by whatever method:
    the guard ends in [Http404], logged under the name of the view, and
    nothing else changes. *)
Theorem update_delete_of_missing_key_not_found
  (models : ModelsPy) (upper : string -> string) (request : Request)
  (pk : Z) (u : User) (w : World) :
  reorders models ->
  user request = Authenticated u ->
  (forall x, In x (recipes w) -> id x <> Some pk) ->
  let e := Http404 ("No " ++ Recipe_verbose_name models
                    ++ " found matching the query") in
  RecipeUpdateView.as_view models upper request pk w
  = (inl e, add_log (ERROR ("An error occurred in RecipeUpdateView: "
                            ++ str e)) w) /\
  RecipeDeleteView.as_view models request pk w
  = (inl e, add_log (ERROR ("An error occurred in RecipeDeleteView: "
                            ++ str e)) w).
Proof.
  intros Hperm Hu Hnone e.
  apply (object_missing_run models upper request pk u e w Hu).
  apply get_object_none; [exact Hperm|].
  apply filter_no_match. intros x Hx.
  destruct (pk_is pk x) eqn:E; [|reflexivity].
  exfalso. apply (Hnone x Hx). now apply pk_is_id.
Qed.

Lemma update_delete_of_missing_key_not_found_witness :
  let e := Http404 ("No " ++ Recipe_verbose_name plain_models
                    ++ " found matching the query") in
  RecipeUpdateView.as_view plain_models ascii_upper
    (post_by (Authenticated bob) sample_form) 9 sample_world
  = (inl e, add_log (ERROR ("An error occurred in RecipeUpdateView: "
                            ++ str e)) sample_world) /\
  RecipeDeleteView.as_view plain_models
    (post_by (Authenticated bob) sample_form) 9 sample_world
  = (inl e, add_log (ERROR ("An error occurred in RecipeDeleteView: "
                            ++ str e)) sample_world).
Proof.
  apply (update_delete_of_missing_key_not_found plain_models ascii_upper
           (post_by (Authenticated bob) sample_form) 9 bob sample_world).
  - intros rows. reflexivity.
  - reflexivity.
  - simpl. intros x [<-|[<-|[<-|[]]]]; discriminate.
Defined.

(** X12.  A form that does not validate stores nothing: the create page and,
    for the author, the update page answer with the form page again,
    carrying the rejected form and the categories; no recipe, message or log
    record is written. *)
Theorem invalid_form_is_shown_again
  (models : ModelsPy) (upper : string -> string) (w : World)
  (request : Request) (u : User) :
  user request = Authenticated u ->
  method request = HTTP_POST ->
  (is_valid (create_form models w request) = false ->
   exists context f,
     RecipeCreateView.as_view models upper request w
     = (inr (TemplateResponse "webapp/recipe_form.html" context), w) /\
     form context = Some f /\ is_valid f = false /\
     ctx_categories context = Some (categories w)) /\
  (forall pk r0,
     SingleObjectMixin_get_object models pk w = (inr r0, w) ->
     Model_eq (user request) (author r0) = true ->
     is_valid (update_form models w request r0) = false ->
     exists context f,
       RecipeUpdateView.as_view models upper request pk w
       = (inr (TemplateResponse "webapp/recipe_form.html" context), w) /\
       form context = Some f /\ is_valid f = false /\
       ctx_categories context = Some (categories w)).
Proof.
  intros Hu Hpost. split.
  - intros Hbad.
    unfold RecipeCreateView.as_view, LoginRequiredMixin_dispatch.
    rewrite Hu. cbn [is_authenticated negb].
    rewrite (create_post_run models upper request w Hpost), Hbad.
    set (f := create_form models w request) in *. clearbody f.
    eexists. exists f. split; [reflexivity|]. simpl. now repeat split.
  - intros pk r0 Hobj Hguard Hbad.
    rewrite Hu in Hguard. simpl in Hguard. apply Z.eqb_eq in Hguard.
    rewrite (update_as_view_guarded models upper request pk r0 u w Hu Hobj).
    rewrite Hguard, Z.eqb_refl.
    rewrite (update_post_run models upper request pk r0 w Hpost Hobj), Hbad.
    set (f := update_form models w request r0) in *. clearbody f.
    eexists. exists f. split; [reflexivity|]. simpl. now repeat split.
Qed.

(** On the sample site alice submits a form without a title. *)
Lemma invalid_form_is_shown_again_witness :
  (exists context f,
     RecipeCreateView.as_view plain_models ascii_upper
       (post_by (Authenticated alice) [("category", VInt 1)]) sample_world
     = (inr (TemplateResponse "webapp/recipe_form.html" context),
        sample_world) /\
     form context = Some f /\ is_valid f = false /\
     ctx_categories context = Some (categories sample_world)) /\
  (exists context f,
     RecipeUpdateView.as_view plain_models ascii_upper
       (post_by (Authenticated alice) [("category", VInt 1)]) 1 sample_world
     = (inr (TemplateResponse "webapp/recipe_form.html" context),
        sample_world) /\
     form context = Some f /\ is_valid f = false /\
     ctx_categories context = Some (categories sample_world)).
Proof.
  destruct (invalid_form_is_shown_again plain_models ascii_upper sample_world
              (post_by (Authenticated alice) [("category", VInt 1)]) alice
              eq_refl eq_refl)
    as [Hcreate Hupdate].
  split.
  - apply Hcreate. vm_compute. reflexivity.
  - apply (Hupdate 1 borsch); vm_compute; reflexivity.
Defined.

(** X13.  When the database refuses the write of a valid form, nothing is
    stored and the request ends in the database's exception, logged under
    the name of the view; the create page also records its error message,
    the update page records no message. *)
Theorem refused_write_is_reported
  (models : ModelsPy) (upper : string -> string) (w : World)
  (request : Request) (u : User) (msg : string) :
  reorders models ->
  user request = Authenticated u ->
  method request = HTTP_POST ->
  write_fault w = Some msg ->
  (is_valid (create_form models w request) = true ->
   RecipeCreateView.as_view models upper request w
   = (inl (DatabaseError msg),
      add_message (ERROR_MESSAGE "Произошла ошибка при сохранении рецепта.")
        (add_log (ERROR ("An error occurred in RecipeCreateView: " ++ msg))
                 w))) /\
  (forall pk r0,
     SingleObjectMixin_get_object models pk w = (inr r0, w) ->
     Model_eq (user request) (author r0) = true ->
     is_valid (update_form models w request r0) = true ->
     RecipeUpdateView.as_view models upper request pk w
     = (inl (DatabaseError msg),
        add_log (ERROR ("An error occurred in RecipeUpdateView: " ++ msg))
                w)).
Proof.
  intros Hperm Hu Hpost Hdb. split.
  - intros Hvalid.
    destruct (create_valid_run models upper request u w Hu Hpost Hvalid)
      as (r & _ & _ & _ & Hrun).
    now rewrite Hdb in Hrun.
  - intros pk r0 Hobj Hguard Hvalid.
    rewrite Hu in Hguard. simpl in Hguard. apply Z.eqb_eq in Hguard.
    destruct (update_valid_post_run models upper request pk r0 u w
                Hperm Hu Hpost Hobj Hguard Hvalid)
      as (r & _ & _ & _ & _ & Hrun).
    now rewrite Hdb in Hrun.
Qed.

(** On the sample site with a database that refuses writes, alice submits
    the form to the create page and to the update page of her borsch. *)
Lemma refused_write_is_reported_witness :
  RecipeCreateView.as_view plain_models ascii_upper
    (post_by (Authenticated alice) sample_form) failing_world
  = (inl (DatabaseError "database is locked"),
     add_message (ERROR_MESSAGE "Произошла ошибка при сохранении рецепта.")
       (add_log (ERROR ("An error occurred in RecipeCreateView: "
                        ++ "database is locked")) failing_world)) /\
  RecipeUpdateView.as_view plain_models ascii_upper
    (post_by (Authenticated alice) sample_form) 1 failing_world
  = (inl (DatabaseError "database is locked"),
     add_log (ERROR ("An error occurred in RecipeUpdateView: "
                     ++ "database is locked")) failing_world).
Proof.
  destruct (refused_write_is_reported plain_models ascii_upper failing_world
              (post_by (Authenticated alice) sample_form) alice
              "database is locked"
              (fun rows => Permutation_refl rows) eq_refl eq_refl eq_refl)
    as [Hcreate Hupdate].
  split.
  - apply Hcreate. vm_compute. reflexivity.
  - apply (Hupdate 1 borsch); vm_compute; reflexivity.
Defined.

(** ** More on the listings *)

(** X14.  The page of an existing category is never cut into pages: a GET
    request, whatever its page parameter, is answered with all recipes of the
    category at once, the category itself and the list of all categories,
    and changes nothing. *)
Theorem category_page_shows_all_at_once
  (models : ModelsPy) (w : World) (request : Request) (cid : Z)
  (cat : Category) :
  reorders models ->
  NoDup (map category_id (categories w)) ->
  In cat (categories w) ->
  category_id cat = cid ->
  method request = HTTP_GET ->
  exists context,
    RecipeByCategoryView.as_view models request cid w
    = (inr (TemplateResponse "webapp/recipes_by_category.html" context), w) /\
    Permutation (object_list context)
                (filter (fun r => category r =? cid) (recipes w)) /\
    is_paginated context = false /\
    page_obj context = None /\
    ctx_category context = Some cat /\
    ctx_categories context = Some (categories w).
Proof.
  intros Hperm Hnd Hin <- Hget.
  destruct (filtered_rows models (fun r => category r =? category_id cat)
              w Hperm) as [Hrows _].
  eexists. split.
  - unfold RecipeByCategoryView.as_view, View_dispatch. rewrite Hget.
    unfold BaseListView_get, RecipeByCategoryView.get_queryset,
      RecipeByCategoryView.get_queryset_try,
      RecipeByCategoryView.get_context_data,
      RecipeByCategoryView.get_context_data_try,
      RecipeByCategoryView.get_category, Category_objects_all,
      MultipleObjectMixin_get_context_data, Recipe_objects_filter.
    run_view.
    rewrite (filter_unique_key category_id _ _ Hnd Hin). simpl.
    rewrite (filter_unique_key category_id _ _ Hnd Hin). reflexivity.
  - simpl. now repeat split.
Qed.

Lemma category_page_shows_all_at_once_witness :
  exists context,
    RecipeByCategoryView.as_view plain_models
      (with_page (get_by AnonymousUser) 7) 1 sample_world
    = (inr (TemplateResponse "webapp/recipes_by_category.html" context),
       sample_world) /\
    Permutation (object_list context)
                (filter (fun r => category r =? 1) (recipes sample_world)) /\
    is_paginated context = false /\
    page_obj context = None /\
    ctx_category context = Some soups /\
    ctx_categories context = Some (categories sample_world).
Proof.
  apply (category_page_shows_all_at_once plain_models sample_world
           (with_page (get_by AnonymousUser) 7) 1 soups).
  - intros rows. reflexivity.
  - simpl. repeat constructor; simpl; intuition discriminate.
  - simpl. now left.
  - reflexivity.
  - reflexivity.
Defined.

(** X15.  The page of a category id that no category has is not found: a
    GET request ends in [Http404], logged once, by the query of the view,
    and changes nothing else. *)
Theorem category_page_of_unknown_id_not_found
  (models : ModelsPy) (w : World) (request : Request) (cid : Z) :
  (forall c, In c (categories w) -> category_id c <> cid) ->
  method request = HTTP_GET ->
  RecipeByCategoryView.as_view models request cid w
  = (inl (Http404 "No Category matches the given query."),
     add_log (ERROR "An error occurred in RecipeByCategoryView: No Category matches the given query.") w).
Proof.
  intros Hnone Hget.
  unfold RecipeByCategoryView.as_view, View_dispatch. rewrite Hget.
  unfold BaseListView_get, RecipeByCategoryView.get_queryset,
    RecipeByCategoryView.get_queryset_try,
    RecipeByCategoryView.get_category, Category_objects_all.
  run_view.
  rewrite filter_no_match; [reflexivity|].
  intros c Hc. apply Z.eqb_neq. now apply Hnone.
Qed.

Lemma category_page_of_unknown_id_not_found_witness :
  RecipeByCategoryView.as_view plain_models (get_by AnonymousUser) 7
    sample_world
  = (inl (Http404 "No Category matches the given query."),
     add_log (ERROR "An error occurred in RecipeByCategoryView: No Category matches the given query.") sample_world).
Proof.
  apply (category_page_of_unknown_id_not_found plain_models sample_world
           (get_by AnonymousUser) 7).
  - simpl. intros c [<-|[<-|[]]]; discriminate.
  - reflexivity.
Defined.

Lemma num_pages_length {A B} (l : list A) (l' : list B) p :
  length l = length l' ->
  Paginator_num_pages l p = Paginator_num_pages l' p.
Proof.
  intros H. unfold Paginator_num_pages, Paginator_count. now rewrite H.
Qed.

(** The query of the user page, for an existing account. *)
Lemma user_listing_rows models w usr :
  reorders models ->
  NoDup (map username (users w)) ->
  In usr (users w) ->
  exists rows,
    UserRecipeListView.get_queryset models (username usr) w = (inr rows, w) /\
    Permutation rows (filter (fun r => author r =? user_id usr) (recipes w)) /\
    newest_first rows.
Proof.
  intros Hperm Hnd Hin.
  destruct (filtered_rows models (fun r => author r =? user_id usr) w Hperm)
    as [Hrows _].
  eexists. split.
  - unfold UserRecipeListView.get_queryset,
      UserRecipeListView.get_queryset_try, try_except, bind, gets.
    rewrite (filter_unique_name _ _ Hnd Hin). reflexivity.
  - split; [now rewrite order_by_perm|].
    apply order_by_created_date_newest_first.
Qed.

(** X16.  The page of a user's recipes is cut into pages of 5 like the home
    page: page [k] of the listing of an existing account shows the rows at
    positions [5(k-1) .. 5(k-1)+4] of that author's recipes taken newest
    first, with the list of all categories, and changes nothing. *)
Theorem user_page_five_per_page
  (models : ModelsPy) (w : World) (request : Request) (usr : User) :
  reorders models ->
  NoDup (map username (users w)) ->
  In usr (users w) ->
  method request = HTTP_GET ->
  exists listing : list Recipe,
    Permutation listing
      (filter (fun r => author r =? user_id usr) (recipes w)) /\
    newest_first listing /\
    let n := Paginator_num_pages listing 5 in
    1 <= n /\
    Z.of_nat (length listing) <= 5 * n /\
    forall k, 1 <= k <= n ->
      exists context,
        UserRecipeListView.as_view models (with_page request k)
          (username usr) w
        = (inr (TemplateResponse "webapp/user_recipes.html" context), w) /\
        (length (object_list context) <= 5)%nat /\
        (k < n -> length (object_list context) = 5%nat) /\
        ctx_categories context = Some (categories w) /\
        forall i, (i < 5)%nat ->
          nth_error (object_list context) i
          = nth_error listing (5 * Z.to_nat (k - 1) + i).
Proof.
  intros Hperm Hnd Hin Hget.
  destruct (user_listing_rows models w usr Hperm Hnd Hin)
    as (listing & Hq & Hrows & Hsorted).
  exists listing. split; [exact Hrows|]. split; [exact Hsorted|].
  split; [apply Paginator_num_pages_pos; lia|].
  split; [apply Paginator_num_pages_covers; lia|].
  intros k Hk.
  destruct (Paginator_page_rows listing 5 k ltac:(lia) Hk)
    as (objs & Hpage & Hlen & Hfull & Hnth).
  eexists. split.
  { unfold UserRecipeListView.as_view, View_dispatch. simpl. rewrite Hget.
    unfold BaseListView_get. unfold bind at 1. rewrite Hq.
    unfold UserRecipeListView.get_context_data,
      UserRecipeListView.get_context_data_try,
      MultipleObjectMixin_get_context_data, paginate_queryset,
      Category_objects_all, UserRecipeListView.paginate_by.
    run_view. rewrite Hpage. reflexivity. }
  simpl.
  split; [lia|]. split; [intros Hlt; specialize (Hfull Hlt); lia|].
  split; [reflexivity|].
  intros i Hi. rewrite Hnth by lia. f_equal. lia.
Qed.

Lemma user_page_five_per_page_witness :
  exists listing : list Recipe,
    Permutation listing
      (filter (fun r => author r =? user_id alice) (recipes sample_world)) /\
    newest_first listing /\
    let n := Paginator_num_pages listing 5 in
    1 <= n /\
    Z.of_nat (length listing) <= 5 * n /\
    forall k, 1 <= k <= n ->
      exists context,
        UserRecipeListView.as_view plain_models
          (with_page (get_by AnonymousUser) k) (username alice) sample_world
        = (inr (TemplateResponse "webapp/user_recipes.html" context),
           sample_world) /\
        (length (object_list context) <= 5)%nat /\
        (k < n -> length (object_list context) = 5%nat) /\
        ctx_categories context = Some (categories sample_world) /\
        forall i, (i < 5)%nat ->
          nth_error (object_list context) i
          = nth_error listing (5 * Z.to_nat (k - 1) + i).
Proof.
  apply (user_page_five_per_page plain_models sample_world
           (get_by AnonymousUser) alice).
  - intros rows. reflexivity.
  - simpl. repeat constructor; simpl; intuition discriminate.
  - simpl. now left.
  - reflexivity.
Defined.

(** X17.  A page number outside [1 .. n], or a page parameter that is no
    number, is not found on the home page: the request ends in [Http404],
    which the view logs under its name, and nothing else changes. *)
Theorem home_page_out_of_range_not_found
  (models : ModelsPy) (w : World) (request : Request) :
  reorders models ->
  method request = HTTP_GET ->
  (GET_page request = page_not_int \/
   exists k, GET_page request = page_int k /\
             (k < 1 \/ Paginator_num_pages (recipes w) 5 < k)) ->
  exists msg,
    RecipeListView.as_view models request w
    = (inl (Http404 msg),
       add_log (ERROR ("An error occurred in RecipeListView: " ++ msg)) w).
Proof.
  intros Hperm Hget Hbad.
  set (listing := order_by RecipeListView.ordering
                    (Recipe_Meta_ordering models (recipes w))).
  assert (Hn : Paginator_num_pages listing 5
               = Paginator_num_pages (recipes w) 5).
  { apply num_pages_length, Permutation_length.
    unfold listing. rewrite order_by_perm. apply Hperm. }
  unfold RecipeListView.as_view, View_dispatch. rewrite Hget.
  unfold BaseListView_get, MultipleObjectMixin_get_queryset,
    Recipe_objects_all, RecipeListView.get_context_data,
    RecipeListView.get_context_data_try,
    MultipleObjectMixin_get_context_data, paginate_queryset,
    Category_objects_all, RecipeListView.paginate_by.
  run_view. simpl.
  change (sort_rows (Desc created_date)
            (Recipe_Meta_ordering models (recipes w))) with listing.
  destruct Hbad as [->|(k & -> & Hk)].
  - eexists. reflexivity.
  - unfold Paginator_page. rewrite Hn.
    destruct (Z.ltb_spec k 1) as [_|Hge]; [eexists; reflexivity|].
    destruct (Z.ltb_spec (Paginator_num_pages (recipes w) 5) k) as [_|Hle];
      [eexists; reflexivity|lia].
Qed.

Lemma home_page_out_of_range_not_found_witness :
  exists msg,
    RecipeListView.as_view plain_models
      (with_page (get_by AnonymousUser) 2) sample_world
    = (inl (Http404 msg),
       add_log (ERROR ("An error occurred in RecipeListView: " ++ msg))
               sample_world).
Proof.
  apply (home_page_out_of_range_not_found plain_models sample_world
           (with_page (get_by AnonymousUser) 2)).
  - intros rows. reflexivity.
  - reflexivity.
  - right. exists 2. split; [reflexivity|]. right. reflexivity.
Defined.

(** ** The list of categories on every page *)

Lemma returns_raise {A} (Q : A -> World -> Prop) e : returns Q (raise e).
Proof. intros w a w' H. discriminate H. Qed.

Lemma returns_bind_post {A B} (P : A -> World -> Prop)
  (Q : B -> World -> Prop) (m : M A) (k : A -> M B) :
  returns P m ->
  (forall a w1, P a w1 -> forall b w2, k a w1 = (inr b, w2) -> Q b w2) ->
  returns Q (bind m k).
Proof.
  intros Hm Hk w b w2. unfold bind.
  destruct (m w) as [[e|a] w1] eqn:E; [discriminate|].
  apply (Hk a w1). apply (Hm w a w1 E).
Qed.

Lemma returns_bind {A B} (Q : B -> World -> Prop) (m : M A) (k : A -> M B) :
  (forall a, returns Q (k a)) -> returns Q (bind m k).
Proof.
  intros Hk. apply (returns_bind_post (fun _ _ => True)).
  - intros w a w' _. exact I.
  - intros a w1 _. apply Hk.
Qed.

Lemma returns_try_except {A} (Q : A -> World -> Prop) (m : M A)
  (h : exn -> M A) :
  returns Q m -> (forall e, returns Q (h e)) -> returns Q (try_except m h).
Proof.
  intros Hm Hh w a w'. unfold try_except.
  destruct (m w) as [[e|a0] w1] eqn:E.
  - apply Hh.
  - intros [= <- <-]. apply (Hm w a0 w1 E).
Qed.

(** An [except] clause that ends in [raise] never returns. *)
Lemma returns_reraise {A} (Q : A -> World -> Prop) (before : M unit) e :
  returns Q (bind before (fun _ => raise e)).
Proof. apply returns_bind. intros _. apply returns_raise. Qed.

Lemma returns_reraise2 {A} (Q : A -> World -> Prop) (b1 b2 : M unit) e :
  returns Q (bind b1 (fun _ => bind b2 (fun _ => raise e))).
Proof. apply returns_bind. intros _. apply returns_reraise. Qed.

(** What [get_context_data] of every view returns holds the categories. *)
Lemma adds_categories (sup : M Context) :
  returns context_has_categories
    (context <- sup ;;
     cats <- Category_objects_all ;;
     ret (set_ctx_categories cats context)).
Proof.
  apply returns_bind. intros context w a w' H.
  injection H as <- <-. reflexivity.
Qed.

Lemma get_context_data_has_categories (sup : M Context) (cid : Z) :
  returns context_has_categories (RecipeListView.get_context_data sup) /\
  returns context_has_categories (UserRecipeListView.get_context_data sup) /\
  returns context_has_categories
    (RecipeByCategoryView.get_context_data cid sup) /\
  returns context_has_categories (RecipeDetailView.get_context_data sup) /\
  returns context_has_categories (RecipeCreateView.get_context_data sup) /\
  returns context_has_categories (RecipeUpdateView.get_context_data sup) /\
  returns context_has_categories (RecipeDeleteView.get_context_data sup).
Proof.
  repeat split;
    (apply returns_try_except; [|intros e; apply returns_reraise]);
    try apply adds_categories.
  unfold RecipeByCategoryView.get_context_data_try.
  apply returns_bind. intros context. apply returns_bind. intros cat.
  intros w a w' H. injection H as <- <-. reflexivity.
Qed.

(** A page rendered from such a context holds them. *)
Lemma rendered_has_categories tn (m : M Context) :
  returns context_has_categories m ->
  returns page_has_categories
    (context <- m ;; ret (TemplateResponse tn context)).
Proof.
  intros Hm. apply (returns_bind_post context_has_categories); [exact Hm|].
  intros context w1 Hc b w2 H. injection H as <- <-. exact Hc.
Qed.

Lemma returns_View_dispatch (Q : HttpResponse -> World -> Prop)
  request get post delete :
  Q HttpResponseNotAllowed = (fun _ => True) ->
  (forall h, get = Some h -> returns Q h) ->
  (forall h, post = Some h -> returns Q h) ->
  (forall h, delete = Some h -> returns Q h) ->
  returns Q (View_dispatch request get post delete).
Proof.
  intros Hna Hg Hp Hd. unfold View_dispatch.
  assert (Hnone : returns Q (ret HttpResponseNotAllowed)).
  { intros w a w' H. injection H as <- <-. now rewrite Hna. }
  destruct (method request);
    [destruct get|destruct post|destruct delete|]; auto.
Qed.

Lemma no_permission_has_categories request path :
  returns page_has_categories (handle_no_permission request path).
Proof.
  unfold handle_no_permission. destruct (is_authenticated _).
  - apply returns_raise.
  - intros w a w' H. injection H as <- <-. exact I.
Qed.

Lemma redirect_has_categories (m : M HttpResponse) :
  returns is_redirect m -> returns page_has_categories m.
Proof. intros Hm w a w' H. destruct (Hm w a w' H) as [url ->]. exact I. Qed.

Lemma form_valid_redirects models :
  forall f, returns is_redirect (ModelFormMixin_form_valid models f).
Proof.
  intros f. unfold ModelFormMixin_form_valid. apply returns_bind.
  intros obj w a w' H. injection H as <- _. now eexists.
Qed.

Lemma then_message_redirects (sup : M HttpResponse) text :
  returns is_redirect sup ->
  returns is_redirect
    (result <- sup ;; messages_success text ;;; ret result).
Proof.
  intros Hs. apply (returns_bind_post is_redirect); [exact Hs|].
  intros a w1 Ha b w2 H. injection H as <- _. exact Ha.
Qed.

Lemma home_has_categories models request :
  returns page_has_categories (RecipeListView.as_view models request).
Proof.
  apply returns_View_dispatch; trivial; intros h [= <-].
  apply returns_bind. intros queryset.
  apply rendered_has_categories.
  apply (get_context_data_has_categories _ 0).
Qed.

Lemma user_listing_has_categories models request name :
  returns page_has_categories (UserRecipeListView.as_view models request name).
Proof.
  apply returns_View_dispatch; trivial; intros h [= <-].
  apply returns_bind. intros queryset.
  apply rendered_has_categories.
  apply (get_context_data_has_categories _ 0).
Qed.

Lemma category_listing_has_categories models request cid :
  returns page_has_categories
    (RecipeByCategoryView.as_view models request cid).
Proof.
  apply returns_View_dispatch; trivial; intros h [= <-].
  apply returns_bind. intros queryset.
  apply rendered_has_categories.
  apply (get_context_data_has_categories _ cid).
Qed.

Lemma detail_has_categories models request pk :
  returns page_has_categories (RecipeDetailView.as_view models request pk).
Proof.
  apply returns_View_dispatch; trivial; intros h [= <-].
  apply returns_bind. intros obj.
  apply rendered_has_categories.
  apply (get_context_data_has_categories _ 0).
Qed.

Lemma create_has_categories models upper request :
  returns page_has_categories (RecipeCreateView.as_view models upper request).
Proof.
  unfold RecipeCreateView.as_view, RecipeCreateView.handlers,
    LoginRequiredMixin_dispatch.
  destruct (negb _); [apply no_permission_has_categories|].
  assert (Hform : forall obj f,
            returns page_has_categories (RecipeCreateView.render_form obj f)).
  { intros obj f. apply rendered_has_categories.
    apply (get_context_data_has_categories _ 0). }
  apply returns_View_dispatch; trivial; intros h [= <-]; [apply Hform|].
  apply returns_bind. intros now. unfold ProcessFormView_post.
  apply returns_bind. intros f.
  destruct (is_valid f).
  - apply redirect_has_categories.
    apply returns_try_except; [|intros e; apply returns_reraise2].
    apply returns_bind. intros f1. apply returns_bind. intros f2.
    apply then_message_redirects, form_valid_redirects.
  - apply returns_try_except; [apply Hform|intros e; apply returns_reraise].
Qed.

Lemma update_has_categories models upper request pk :
  returns page_has_categories
    (RecipeUpdateView.as_view models upper request pk).
Proof.
  unfold RecipeUpdateView.as_view, RecipeUpdateView.handlers,
    LoginRequiredMixin_dispatch, UserPassesTestMixin_dispatch.
  destruct (negb _); [apply no_permission_has_categories|].
  apply returns_bind. intros passed.
  destruct (negb passed); [apply no_permission_has_categories|].
  assert (Hform : forall obj f,
            returns page_has_categories (RecipeUpdateView.render_form obj f)).
  { intros obj f. apply rendered_has_categories.
    apply (get_context_data_has_categories _ 0). }
  apply returns_View_dispatch; trivial; intros h [= <-];
    apply returns_bind; intros obj; [apply Hform|].
  unfold ProcessFormView_post. apply returns_bind. intros f.
  destruct (is_valid f); [|apply Hform].
  apply redirect_has_categories.
  apply returns_try_except; [|intros e; apply returns_reraise].
  apply returns_bind. intros f1. apply returns_bind. intros f2.
  apply then_message_redirects, form_valid_redirects.
Qed.

Lemma delete_has_categories models request pk :
  returns page_has_categories (RecipeDeleteView.as_view models request pk).
Proof.
  unfold RecipeDeleteView.as_view, RecipeDeleteView.handlers,
    LoginRequiredMixin_dispatch, UserPassesTestMixin_dispatch.
  destruct (negb _); [apply no_permission_has_categories|].
  apply returns_bind. intros passed.
  destruct (negb passed); [apply no_permission_has_categories|].
  apply returns_View_dispatch; trivial; intros h [= <-].
  - apply returns_bind. intros obj.
    apply rendered_has_categories.
    apply (get_context_data_has_categories _ 0).
  - apply redirect_has_categories.
    apply returns_bind. intros obj. apply returns_bind. intros _.
    intros w a w' H. injection H as <- _. now eexists.
  - apply redirect_has_categories.
    apply returns_try_except; [|intros e; apply returns_reraise2].
    apply returns_bind. intros _. apply returns_bind. intros obj.
    apply returns_bind. intros _.
    intros w a w' H. injection H as <- _. now eexists.
Qed.

(** X18.  Every page that a class-based view renders carries the list of
    all stored categories, whatever the page, the request and its outcome
    otherwise; the about page is the one page that carries none. *)
Theorem every_rendered_page_lists_the_categories
  (models : ModelsPy) (upper : string -> string) (page : Url)
  (view : Request -> M HttpResponse) (request : Request) (w w' : World)
  (template_name : string) (context : Context) :
  view_of models upper page = Some view ->
  view request w = (inr (TemplateResponse template_name context), w') ->
  ctx_categories context
  = match page with
    | webapp_about => None
    | _ => Some (categories w)
    end.
Proof.
  intros Hview Hrun.
  assert (Hsite : same_site w w').
  { replace w' with (snd (view request w)) by now rewrite Hrun.
    apply (preserves_view_of same_site) with (models := models)
      (upper := upper) (page := page); trivial; site_facts. }
  destruct Hsite as (_ & <- & _).
  destruct page; simpl in Hview; try discriminate Hview;
    injection Hview as <-.
  - apply (home_has_categories _ _ _ _ _ Hrun).
  - injection Hrun as _ <- _. reflexivity.
  - apply (user_listing_has_categories _ _ _ _ _ _ Hrun).
  - apply (detail_has_categories _ _ _ _ _ _ Hrun).
  - apply (create_has_categories _ _ _ _ _ _ Hrun).
  - apply (update_has_categories _ _ _ _ _ _ _ Hrun).
  - apply (delete_has_categories _ _ _ _ _ _ Hrun).
  - apply (category_listing_has_categories _ _ _ _ _ _ Hrun).
Qed.

Lemma every_rendered_page_lists_the_categories_witness :
  ctx_categories
    (mkContext [] false None (Some borsch) None
               (Some (categories sample_world)) None None)
  = Some (categories sample_world).
Proof.
  apply (every_rendered_page_lists_the_categories plain_models ascii_upper
           (recipe_detail 1)
           (fun request => RecipeDetailView.as_view plain_models request 1)
           (get_by AnonymousUser) sample_world sample_world
           "webapp/recipe_detail.html").
  - reflexivity.
  - vm_compute. reflexivity.
Defined.

(** ** Paths *)

Lemma span_run p run rest :
  string_forall p run = true ->
  match rest with
  | EmptyString => True
  | String c _ => p c = false
  end ->
  span p (run ++ rest) = (run, rest).
Proof.
  intros Hrun Hrest. induction run as [|c run IH]; simpl in *.
  - destruct rest as [|c rest]; [reflexivity|]. simpl. now rewrite Hrest.
  - apply andb_true_iff in Hrun. destruct Hrun as [-> Hrun].
    now rewrite (IH Hrun).
Qed.

Lemma span_spec p s run rest :
  span p s = (run, rest) -> string_forall p run = true.
Proof.
  revert run rest. induction s as [|c s IH]; simpl; intros run rest.
  - now intros [= <- _].
  - destruct (p c) eqn:Hc; [|now intros [= <- _]].
    destruct (span p s) as [run' rest']. intros [= <- _].
    simpl. rewrite Hc. now apply (IH run' rest').
Qed.

Lemma strip_prefix_app pre s : strip_prefix pre (pre ++ s) = Some s.
Proof.
  induction pre as [|c pre IH]; simpl; [reflexivity|].
  now rewrite Ascii.eqb_refl.
Qed.

Lemma digits_of_uint d :
  string_forall is_digit (NilEmpty.string_of_uint d) = true.
Proof. induction d; simpl; trivial. Qed.

(** The decimal text of a number that is not negative: digits only, at
    least one, and read back as the number. *)
Lemma decimal_spec n :
  0 <= n ->
  string_forall is_digit (decimal n) = true /\
  decimal n <> EmptyString /\
  option_map Z.of_uint (NilZero.uint_of_string (decimal n)) = Some n.
Proof.
  intros Hn. destruct n as [|p|p]; [now repeat split| |lia].
  pose proof (DecimalPos.Unsigned.to_uint_nonnil p) as Hnil.
  pose proof (DecimalZ.of_to (Z.pos p)) as Hback.
  unfold decimal.
  change (Z.to_int (Z.pos p)) with (Decimal.Pos (Pos.to_uint p)) in *.
  change (Z.of_int (Decimal.Pos (Pos.to_uint p)))
    with (Z.of_uint (Pos.to_uint p)) in Hback.
  change (NilZero.string_of_int (Decimal.Pos (Pos.to_uint p)))
    with (NilZero.string_of_uint (Pos.to_uint p)).
  revert Hnil Hback. generalize (Pos.to_uint p). intros u Hnil Hback.
  split; [destruct u; [contradiction|..]; apply (digits_of_uint (_ u))|].
  split; [destruct u; [contradiction|..]; discriminate|].
  rewrite NilZero.usu by exact Hnil. simpl. now rewrite Hback.
Qed.

Lemma literal_run pre s rest_of_route :
  match_route (Literal pre :: rest_of_route) (pre ++ s)
  = match_route rest_of_route s.
Proof. simpl. now rewrite strip_prefix_app. Qed.

Lemma capture_int_run d n post rest_of_route :
  string_forall is_digit d = true ->
  d <> EmptyString ->
  option_map Z.of_uint (NilZero.uint_of_string d) = Some n ->
  match post with
  | EmptyString => True
  | String c _ => is_digit c = false
  end ->
  match_route (Capture IntConverter :: rest_of_route) (d ++ post)
  = match match_route rest_of_route post with
    | Some vs => Some (KInt n :: vs)
    | None => None
    end.
Proof.
  intros Hd Hne Hval Hpost. cbn [match_route].
  rewrite (span_run (converter_accepts IntConverter) d post Hd Hpost).
  destruct d as [|c d']; [contradiction|].
  cbn [converter_to_python].
  destruct (NilZero.uint_of_string (String c d')) as [u|]; [|discriminate].
  simpl in Hval. injection Hval as <-. reflexivity.
Qed.

Lemma string_app_empty s : s ++ EmptyString = s.
Proof. induction s as [|c s IH]; simpl; [reflexivity|now rewrite IH]. Qed.

Lemma capture_str_run name rest_of_route :
  path_name name ->
  match_route (Capture StringConverter :: rest_of_route) name
  = match match_route rest_of_route EmptyString with
    | Some vs => Some (KStr name :: vs)
    | None => None
    end.
Proof.
  intros [Hne Hname]. cbn [match_route].
  rewrite <- (string_app_empty name) at 1.
  rewrite (span_run _ name EmptyString Hname I).
  destruct name; [contradiction|reflexivity].
Qed.

Lemma digit_is_not_n c : is_digit c = true -> Ascii.eqb "n" c = false.
Proof.
  destruct c as [[] [] [] [] [] [] [] []]; simpl; intros H;
    try discriminate H; reflexivity.
Qed.

Lemma strip_prefix_mismatch pre a s1 c s2 :
  Ascii.eqb a c = false ->
  strip_prefix (pre ++ String a s1) (pre ++ String c s2) = None.
Proof.
  intros H. induction pre as [|b pre IH]; simpl.
  - now rewrite H.
  - now rewrite Ascii.eqb_refl.
Qed.

(** [recipe/new/] is not the path of a recipe, and the path of a recipe is
    not [recipe/new/]: a key starts with a digit. *)
Lemma new_is_no_key d post :
  string_forall is_digit d = true -> d <> EmptyString ->
  match_route [Literal "recipe/new/"] ("recipe/" ++ d ++ post) = None.
Proof.
  intros Hd Hne. destruct d as [|c d']; [contradiction|].
  simpl in Hd. apply andb_true_iff in Hd. destruct Hd as [Hc _].
  change (match_route [Literal ("recipe/" ++ String "n" "ew/")]
            ("recipe/" ++ String c (d' ++ post)) = None).
  cbn [match_route].
  now rewrite (strip_prefix_mismatch _ _ _ _ _ (digit_is_not_n c Hc)).
Qed.

Lemma resolve_skip p ps path :
  match_route (route p) path = None ->
  resolve_in (p :: ps) path = resolve_in ps path.
Proof. intros H. simpl. now rewrite H. Qed.

Lemma resolve_hit p ps path kw :
  match_route (route p) path = Some kw ->
  resolve_in (p :: ps) path = target p kw.
Proof. intros H. simpl. now rewrite H. Qed.

(** X19.  Every page of urls.py is reached by its path: the home page by
    the empty path, a user's page by [user/<name>] for a name that is not
    empty and has no slash, the pages of a recipe by [recipe/<pk>/],
    [recipe/<pk>/update/] and [recipe/<pk>/delete/] and the page of a
    category by [recipes/category/<id>/] for numbers that are not negative,
    written in decimal; [recipe/new/] leads to the create page and is not
    taken for the page of a recipe. *)
Theorem paths_lead_to_their_pages (page : Url) :
  routed_page page -> resolve (path_of page) = Some page.
Proof.
  destruct page as [| |name|pk| |pk|pk|cid|next];
    cbn [routed_page path_of]; intros Hpage; try reflexivity;
    try contradiction.
  - unfold resolve, urlpatterns.
    do 2 (rewrite resolve_skip by reflexivity).
    rewrite (resolve_hit _ _ _ [KStr name]); [reflexivity|].
    cbn [route]. rewrite literal_run. now rewrite capture_str_run.
  - destruct (decimal_spec pk Hpage) as (Hd & Hne & Hval).
    revert Hd Hne Hval. generalize (decimal pk). intros d Hd Hne Hval.
    unfold resolve, urlpatterns.
    do 3 (rewrite resolve_skip by reflexivity).
    rewrite (resolve_hit _ _ _ [KInt pk]); [reflexivity|].
    cbn [route]. rewrite literal_run.
    now rewrite (capture_int_run d pk) by trivial.
  - destruct (decimal_spec pk Hpage) as (Hd & Hne & Hval).
    revert Hd Hne Hval. generalize (decimal pk). intros d Hd Hne Hval.
    unfold resolve, urlpatterns.
    do 3 (rewrite resolve_skip by reflexivity).
    rewrite resolve_skip
      by (cbn [route]; rewrite literal_run;
          now rewrite (capture_int_run d pk) by trivial).
    rewrite resolve_skip by (cbn [route]; now apply new_is_no_key).
    rewrite (resolve_hit _ _ _ [KInt pk]); [reflexivity|].
    cbn [route]. rewrite literal_run.
    now rewrite (capture_int_run d pk) by trivial.
  - destruct (decimal_spec pk Hpage) as (Hd & Hne & Hval).
    revert Hd Hne Hval. generalize (decimal pk). intros d Hd Hne Hval.
    unfold resolve, urlpatterns.
    do 3 (rewrite resolve_skip by reflexivity).
    rewrite resolve_skip
      by (cbn [route]; rewrite literal_run;
          now rewrite (capture_int_run d pk) by trivial).
    rewrite resolve_skip by (cbn [route]; now apply new_is_no_key).
    rewrite resolve_skip
      by (cbn [route]; rewrite literal_run;
          now rewrite (capture_int_run d pk) by trivial).
    rewrite (resolve_hit _ _ _ [KInt pk]); [reflexivity|].
    cbn [route]. rewrite literal_run.
    now rewrite (capture_int_run d pk) by trivial.
  - destruct (decimal_spec cid Hpage) as (Hd & Hne & Hval).
    revert Hd Hne Hval. generalize (decimal cid). intros d Hd Hne Hval.
    unfold resolve, urlpatterns.
    do 7 (rewrite resolve_skip by reflexivity).
    rewrite (resolve_hit _ _ _ [KInt cid]); [reflexivity|].
    cbn [route]. rewrite literal_run.
    now rewrite (capture_int_run d cid) by trivial.
Qed.

Lemma paths_lead_to_their_pages_witness :
  resolve (path_of (recipe_update 12)) = Some (recipe_update 12).
Proof.
  apply (paths_lead_to_their_pages (recipe_update 12)).
  simpl. lia.
Defined.

Lemma match_route_captured rt path kw :
  match_route rt path = Some kw -> Forall captured kw.
Proof.
  revert path kw. induction rt as [|[text|c] rt IH]; intros path kw; simpl.
  - destruct path; [|discriminate]. intros [= <-]. constructor.
  - destruct (strip_prefix text path) as [rest|]; [|discriminate].
    apply IH.
  - destruct (span (converter_accepts c) path) as [run rest] eqn:Hspan.
    apply span_spec in Hspan.
    destruct run as [|ch run]; [discriminate|].
    destruct (converter_to_python c (String ch run)) as [v|] eqn:Hv;
      [|discriminate].
    destruct (match_route rt rest) as [vs|] eqn:Hvs; [|discriminate].
    intros [= <-]. constructor; [|now apply (IH rest)].
    destruct c; cbn [converter_to_python] in Hv.
    + destruct (NilZero.uint_of_string (String ch run)) as [u|];
        [|discriminate Hv].
      cbn [option_map] in Hv. injection Hv as <-.
      cbn [captured]. unfold Z.of_uint. apply N2Z.is_nonneg.
    + injection Hv as <-. split; [discriminate|exact Hspan].
Qed.

Lemma resolve_in_sound ps path page :
  resolve_in ps path = Some page ->
  exists p kw, In p ps /\ match_route (route p) path = Some kw /\
               target p kw = Some page.
Proof.
  induction ps as [|p ps IH]; simpl; [discriminate|].
  destruct (match_route (route p) path) as [kw|] eqn:E.
  - intros H. exists p, kw. auto.
  - intros H. destruct (IH H) as (q & kw & Hq & Hm & Ht).
    exists q, kw. auto.
Qed.

(** X20.  The eight patterns of urls.py lead only to pages that have a
    view: whatever path one of them matches, the page it resolves to is
    bound to a view, its key is not negative and its name is not empty and
    has no slash. *)
Theorem resolved_pages_are_routed
  (models : ModelsPy) (upper : string -> string) (path : string)
  (page : Url) :
  resolve path = Some page ->
  routed_page page /\ view_of models upper page <> None.
Proof.
  intros H. apply resolve_in_sound in H.
  destruct H as (p & kw & Hp & Hm & Ht).
  apply match_route_captured in Hm.
  assert (Hrouted : routed_page page).
  { simpl in Hp.
    repeat (destruct Hp as [<-|Hp]; [|]); try contradiction;
      simpl in Ht;
      repeat match type of Ht with
             | match ?x with _ => _ end = _ => destruct x
             end;
      try discriminate Ht; injection Ht as <-; simpl; trivial;
      inversion Hm; subst; assumption. }
  split; [exact Hrouted|].
  destruct page; simpl in *; try discriminate; contradiction.
Qed.

Lemma resolved_pages_are_routed_witness :
  routed_page (recipe_update 7) /\
  view_of plain_models ascii_upper (recipe_update 7) <> None.
Proof.
  apply (resolved_pages_are_routed plain_models ascii_upper
           "recipe/007/update/" (recipe_update 7)).
  vm_compute. reflexivity.
Defined.
